(** * Smart pool controller: firmware model and verified properties

    A shallow embedding of the ESP32 firmware sources
    [firmware/src/main.cpp] and [firmware/src/ble_provisioning.cpp]
    (with the constants of [firmware/include/config.h]).

    Conventions of the embedding:
    - C [int], [long] and [uint32_t] values are [Z]; every unsigned
      subtraction is written with its wrap-around ([u32_sub]).
    - An Arduino [String] and a NUL-terminated [char*] are both a [string]
      holding the bytes before the terminator.
    - The global variables of the two translation units are the fields of
      one record [Device], threaded explicitly through every function.
    - Calls to collaborators outside the repository (GPIO, MQTT client,
      WiFi driver, NVS, BLE stack, [delay], [ESP.restart]) are appended, in
      program order, to the [trace] field.  Serial logging is left out. *)

From Stdlib Require Import ZArith String Ascii List Bool Lia.
From stdpp Require Import gmap strings.
Import ListNotations.

Local Open Scope string_scope.
Local Open Scope list_scope.
Local Open Scope Z_scope.

(** ** Machine integers *)

Definition U32_MOD : Z := 4294967296.
Definition LONG_MAX : Z := 2147483647.
Definition LONG_MIN : Z := -2147483648.

Definition to_u32 (x : Z) : Z := x mod U32_MOD.

(** [a - b] on [uint32_t]. *)
Definition u32_sub (a b : Z) : Z := to_u32 (a - b).

(** ** The Arduino [String] class (the operations the firmware uses) *)

Module WString.

Definition len (s : string) : Z := Z.of_nat (String.length s).

Definition code (c : ascii) : Z := Z.of_N (N_of_ascii c).

(** C locale [isspace]: space, \t, \n, \v, \f, \r. *)
Definition isspace (c : ascii) : bool :=
  (code c =? 32) || ((9 <=? code c) && (code c <=? 13)).

Definition isdigit (c : ascii) : bool :=
  (48 <=? code c) && (code c <=? 57).

Definition islower (c : ascii) : bool :=
  (97 <=? code c) && (code c <=? 122).

Definition toupper (c : ascii) : ascii :=
  if islower c then ascii_of_N (Z.to_N (code c - 32)) else c.

(** A [String] is modelled by its [length()] bytes, which may include NUL
    bytes; [c_str] is what the C functions called on [buffer()] see of it:
    the bytes before the first NUL. *)
Fixpoint c_str (s : string) : string :=
  match s with
  | EmptyString => EmptyString
  | String c r => if code c =? 0 then EmptyString else String c (c_str r)
  end.

(** [String::toUpperCase]: [toupper] in place on the bytes of [wbuffer()]
    up to its terminator, so it stops at the first NUL byte. *)
Fixpoint toUpperCase (s : string) : string :=
  match s with
  | EmptyString => EmptyString
  | String c r => if code c =? 0 then s else String (toupper c) (toUpperCase r)
  end.

(** [String::equals] for a C string, the [operator==] with a literal:
    [strcmp(buffer(), cstr) == 0]. *)
Definition equals (s cstr : string) : bool := String.eqb (c_str s) cstr.

Fixpoint ltrim (s : string) : string :=
  match s with
  | EmptyString => EmptyString
  | String c r => if isspace c then ltrim r else s
  end.

Fixpoint rtrim (s : string) : string :=
  match s with
  | EmptyString => EmptyString
  | String c r =>
      match rtrim r with
      | EmptyString => if isspace c then EmptyString else String c EmptyString
      | r' => String c r'
      end
  end.

(** [String::trim]: drops leading, then trailing, white space. *)
Definition trim (s : string) : string := rtrim (ltrim s).

Fixpoint drop (n : nat) (s : string) : string :=
  match n, s with
  | O, _ => s
  | S n', String _ r => drop n' r
  | S _, EmptyString => EmptyString
  end.

Fixpoint take (n : nat) (s : string) : string :=
  match n, s with
  | S n', String c r => String c (take n' r)
  | _, _ => EmptyString
  end.

(** [strstr]: offset of the first occurrence of [needle] in [hay]. *)
Fixpoint strstr (hay needle : string) : option nat :=
  if String.prefix needle hay then Some O
  else match hay with
       | EmptyString => None
       | String _ h => option_map S (strstr h needle)
       end.

(** [String::indexOf(const String&, unsigned int fromIndex)]:
    [strstr(buffer() + fromIndex, s2.buffer())]. *)
Definition indexOf_from (s needle : string) (fromIndex : Z) : Z :=
  if len s <=? fromIndex then -1
  else match strstr (c_str (drop (Z.to_nat fromIndex) s)) needle with
       | None => -1
       | Some k => fromIndex + Z.of_nat k
       end.

(** [String::indexOf(const String&)] is [indexOf(s2, 0)]. *)
Definition indexOf (s needle : string) : Z := indexOf_from s needle 0.

(** [String::substring(unsigned int left, unsigned int right)]. *)
Definition substring (s : string) (left right : Z) : string :=
  let l := if left >? right then right else left in
  let r := if left >? right then left else right in
  if len s <=? l then EmptyString
  else let r := if r >? len s then len s else r in
       take (Z.to_nat (r - l)) (drop (Z.to_nat l) s).

Fixpoint digits_value (s : string) (acc : Z) : Z :=
  match s with
  | String c r =>
      if isdigit c then digits_value r (acc * 10 + (code c - 48)) else acc
  | EmptyString => acc
  end.

(** [atol] of newlib, i.e. [strtol(s, NULL, 10)]: leading white space, an
    optional sign, the longest run of digits, clamped to [long]. *)
Definition atol (s : string) : Z :=
  let v :=
    match ltrim s with
    | String "-" r => - digits_value r 0
    | String "+" r => digits_value r 0
    | r => digits_value r 0
    end in
  if v >? LONG_MAX then LONG_MAX
  else if v <? LONG_MIN then LONG_MIN else v.

(** [String::toInt]: [atol(buffer())]. *)
Definition toInt (s : string) : Z := atol (c_str s).

Definition digit_char (d : Z) : ascii := ascii_of_N (Z.to_N (48 + d)).

Fixpoint utoa_aux (fuel : nat) (n : Z) : string :=
  match fuel with
  | O => EmptyString
  | S f =>
      if n <? 10 then String (digit_char n) EmptyString
      else utoa_aux f (n / 10) +:+ String (digit_char (n mod 10)) EmptyString
  end.

(** Decimal text of a non-negative number, as [String(unsigned long)]
    prints it.  The fuel bounds the number of digits. *)
Definition utoa (n : Z) : string := utoa_aux (S (Z.to_nat (Z.log2 n))) n.

(** Decimal text of a signed number, as [String(int)] prints it. *)
Definition itoa (n : Z) : string :=
  if n <? 0 then String "-" (utoa (- n)) else utoa n.

End WString.

(** ** Constants of [config.h] and [main.cpp] *)

Definition VALVE_RELAY_PIN : Z := 25.
Definition PUMP_RELAY_PIN : Z := 26.

Definition TOPIC_PUMP_SET : string := "devices/esp32-pool-01/pump/set".
Definition TOPIC_PUMP_STATE : string := "devices/esp32-pool-01/pump/state".
Definition TOPIC_VALVE_SET : string := "devices/esp32-pool-01/valve/set".
Definition TOPIC_VALVE_STATE : string := "devices/esp32-pool-01/valve/state".
Definition TOPIC_WIFI_STATE : string := "devices/esp32-pool-01/wifi/state".
Definition TOPIC_WIFI_CLEAR : string := "devices/esp32-pool-01/wifi/clear".
Definition TOPIC_TIMER_SET : string := "devices/esp32-pool-01/timer/set".
Definition TOPIC_TIMER_STATE : string := "devices/esp32-pool-01/timer/state".

Definition VALVE_SWITCH_DELAY : Z := 500.
Definition WIFI_CONNECT_TIMEOUT : Z := 15000.
Definition WIFI_RETRY_ATTEMPTS : Z := 3.
Definition WIFI_RETRY_DELAY : Z := 5000.
Definition TIMER_PUBLISH_INTERVAL : Z := 10000.
Definition BLE_CHECK_INTERVAL : Z := 1000.

(** ** Text building *)

(** The double-quote byte. *)
Definition DQ : ascii := "034"%char.

(** The backslash byte. *)
Definition BSL : ascii := "092"%char.

(** [quoted s] is [s] between double quotes. *)
Definition quoted (s : string) : string := String DQ (s +:+ String DQ EmptyString).

(** [jkey k] is the text of a JSON key followed by its colon. *)
Definition jkey (k : string) : string := quoted k +:+ ":".

Definition DISCONNECTED_JSON : string :=
  "{" +:+ jkey "status" +:+ quoted "disconnected" +:+ "}".

(** ** Calls to the outside world *)

Inductive Event : Type :=
| EvDigitalWrite (pin : Z) (high : bool)
| EvPublish (topic payload : string) (retain : bool)
| EvDelay (ms : Z)
| EvMqttDisconnect
| EvWiFiModeSta
| EvWiFiBegin (ssid password : string)
| EvWiFiDisconnect (wifioff erasePersistent : bool)
| EvNvsPut (key value : string)
| EvNvsClear
| EvBleInit
| EvBleDeinit
| EvBringUp
| EvRestart.

(** ** The globals *)

(** Timer variables of [main.cpp]; [lastPublish] is the function-level
    static of [updateTimer]. *)
Record TimerState : Type := mkTimer {
  timerActive : bool;
  timerMode : Z;
  timerDuration : Z;
  timerRemaining : Z;
  timerLastUpdate : Z;
  lastPublish : Z
}.

(** File-level statics of [ble_provisioning.cpp]. *)
Record BleState : Type := mkBle {
  bleActive : bool;
  newCredentialsReceived : bool;
  receivedSSID : string;
  receivedPassword : string;
  deviceConnected : bool;
  clearWiFiRequested : bool
}.

(** The whole device.  [clock] is what [millis()] returns, [nvs] is the
    content of the Preferences namespace "wifi", [wifi_status] lists the
    answers the driver will give to the coming [WiFi.status()] polls
    ([true] for [WL_CONNECTED]; an exhausted list answers [false]). *)
Record Device : Type := mkDevice {
  pumpState : bool;
  valveMode : Z;
  wifiProvisioned : bool;
  timer : TimerState;
  ble : BleState;
  lastBLECheck : Z;
  clock : Z;
  nvs : gmap string string;
  wifi_status : list bool;
  trace : list Event
}.

Definition set_pumpState (v : bool) (s : Device) : Device :=
  mkDevice v (valveMode s) (wifiProvisioned s) (timer s) (ble s)
           (lastBLECheck s) (clock s) (nvs s) (wifi_status s) (trace s).
Definition set_valveMode (v : Z) (s : Device) : Device :=
  mkDevice (pumpState s) v (wifiProvisioned s) (timer s) (ble s)
           (lastBLECheck s) (clock s) (nvs s) (wifi_status s) (trace s).
Definition set_wifiProvisioned (v : bool) (s : Device) : Device :=
  mkDevice (pumpState s) (valveMode s) v (timer s) (ble s)
           (lastBLECheck s) (clock s) (nvs s) (wifi_status s) (trace s).
Definition set_timer (v : TimerState) (s : Device) : Device :=
  mkDevice (pumpState s) (valveMode s) (wifiProvisioned s) v (ble s)
           (lastBLECheck s) (clock s) (nvs s) (wifi_status s) (trace s).
Definition set_ble (v : BleState) (s : Device) : Device :=
  mkDevice (pumpState s) (valveMode s) (wifiProvisioned s) (timer s) v
           (lastBLECheck s) (clock s) (nvs s) (wifi_status s) (trace s).
Definition set_lastBLECheck (v : Z) (s : Device) : Device :=
  mkDevice (pumpState s) (valveMode s) (wifiProvisioned s) (timer s) (ble s)
           v (clock s) (nvs s) (wifi_status s) (trace s).
Definition set_clock (v : Z) (s : Device) : Device :=
  mkDevice (pumpState s) (valveMode s) (wifiProvisioned s) (timer s) (ble s)
           (lastBLECheck s) v (nvs s) (wifi_status s) (trace s).
Definition set_nvs (v : gmap string string) (s : Device) : Device :=
  mkDevice (pumpState s) (valveMode s) (wifiProvisioned s) (timer s) (ble s)
           (lastBLECheck s) (clock s) v (wifi_status s) (trace s).
Definition set_wifi_status (v : list bool) (s : Device) : Device :=
  mkDevice (pumpState s) (valveMode s) (wifiProvisioned s) (timer s) (ble s)
           (lastBLECheck s) (clock s) (nvs s) v (trace s).
Definition set_trace (v : list Event) (s : Device) : Device :=
  mkDevice (pumpState s) (valveMode s) (wifiProvisioned s) (timer s) (ble s)
           (lastBLECheck s) (clock s) (nvs s) (wifi_status s) v.

(** Records one outside call. *)
Definition emit (e : Event) (s : Device) : Device :=
  set_trace (trace s ++ [e]) s.

(** [millis()]. *)
Definition millis (s : Device) : Z := clock s.

(** [delay(ms)]: the call blocks for [ms] milliseconds. *)
Definition delay (ms : Z) (s : Device) : Device :=
  emit (EvDelay ms) (set_clock (to_u32 (clock s + ms)) s).

(** Time passing between two calls of the firmware (not a call of its own). *)
Definition advance (ms : Z) (s : Device) : Device :=
  set_clock (to_u32 (clock s + ms)) s.

(** [mqtt.publish(topic, payload, retained)]. *)
Definition mqtt_publish (topic payload : string) (retain : bool) (s : Device) : Device :=
  emit (EvPublish topic payload retain) s.

(** [digitalWrite(pin, level)]. *)
Definition digitalWrite (pin : Z) (high : bool) (s : Device) : Device :=
  emit (EvDigitalWrite pin high) s.

(** ** MQTT state publishing ([main.cpp], lines 102-192) *)

Definition publishPumpState (s : Device) : Device :=
  let msg := if pumpState s then "ON" else "OFF" in
  mqtt_publish TOPIC_PUMP_STATE msg true s.

(** The two-byte buffer [msg] read back as a C string: ['0' + valveMode]
    truncated to a [char], followed by the terminator. *)
Definition valve_msg (valveMode : Z) : string :=
  let c := (48 + valveMode) mod 256 in
  if c =? 0 then EmptyString else String (ascii_of_N (Z.to_N c)) EmptyString.

Definition publishValveState (s : Device) : Device :=
  mqtt_publish TOPIC_VALVE_STATE (valve_msg (valveMode s)) true s.

(** The JSON text built by [publishTimerState]. *)
Definition timer_json (active : bool) (remaining mode duration : Z) : string :=
  "{" +:+ jkey "active" +:+ (if active then "true" else "false") +:+ ","
      +:+ jkey "remaining" +:+ WString.utoa remaining +:+ ","
      +:+ jkey "mode" +:+ WString.itoa mode +:+ ","
      +:+ jkey "duration" +:+ WString.utoa duration
      +:+ "}".

Definition publishTimerState (s : Device) : Device :=
  let t := timer s in
  mqtt_publish TOPIC_TIMER_STATE
    (timer_json (timerActive t) (timerRemaining t) (timerMode t) (timerDuration t))
    true s.

(** ** Relay control ([main.cpp], lines 222-247) *)

Definition setPumpRelay (targetState : bool) (s : Device) : Device :=
  set_pumpState targetState (digitalWrite PUMP_RELAY_PIN targetState s).

Definition setValveRelay (targetMode : Z) (s : Device) : Device :=
  if negb (targetMode =? 1) && negb (targetMode =? 2) then s
  else set_valveMode targetMode
         (digitalWrite VALVE_RELAY_PIN (targetMode =? 2) s).

(** ** Control logic ([main.cpp], lines 255-286) *)

Definition setPumpState (targetState : bool) (s : Device) : Device :=
  publishPumpState (setPumpRelay targetState s).

Definition setValveMode (targetMode : Z) (s : Device) : Device :=
  if negb (targetMode =? 1) && negb (targetMode =? 2) then s
  else if valveMode s =? targetMode then publishValveState s
  else publishValveState (setValveRelay targetMode s).

(** ** Timer control ([main.cpp], lines 301-393) *)

Definition startTimer (mode durationSeconds : Z) (s : Device) : Device :=
  if negb (mode =? 1) && negb (mode =? 2) then s
  else if durationSeconds =? 0 then s
  else
    let s := set_timer (mkTimer true mode durationSeconds durationSeconds
                                (millis s) (lastPublish (timer s))) s in
    let s := setValveMode mode s in
    let s := delay VALVE_SWITCH_DELAY s in
    let s := setPumpState true s in
    publishTimerState s.

Definition stopTimer (s : Device) : Device :=
  if negb (timerActive (timer s)) then s
  else
    let t := timer s in
    let s := set_timer (mkTimer false (timerMode t) (timerDuration t) 0
                                (timerLastUpdate t) (lastPublish t)) s in
    let s := setPumpState false s in
    publishTimerState s.

Definition updateTimer (s : Device) : Device :=
  if negb (timerActive (timer s)) then s
  else
    let now := millis s in
    let elapsed := u32_sub now (timerLastUpdate (timer s)) / 1000 in
    if elapsed >=? 1 then
      let t := timer s in
      let s := set_timer (mkTimer (timerActive t) (timerMode t) (timerDuration t)
                                  (timerRemaining t) now (lastPublish t)) s in
      if timerRemaining (timer s) >? 0 then
        let t := timer s in
        let s := set_timer (mkTimer (timerActive t) (timerMode t) (timerDuration t)
                                    (timerRemaining t - 1) (timerLastUpdate t)
                                    (lastPublish t)) s in
        let t := timer s in
        if (timerRemaining t mod 10 =? 0) || (timerRemaining t <=? 10)
           || (u32_sub now (lastPublish t) >? TIMER_PUBLISH_INTERVAL)
        then
          publishTimerState
            (set_timer (mkTimer (timerActive t) (timerMode t) (timerDuration t)
                                (timerRemaining t) (timerLastUpdate t) now) s)
        else s
      else stopTimer s
    else s.

(** ** MQTT message handler ([main.cpp], lines 67-73 and 407-509) *)

(** The payload bytes collected in a [String], then trimmed. *)
Definition payloadToString (payload : string) : string := WString.trim payload.

(** [Preferences::clear] on the namespace. *)
Definition preferences_clear (s : Device) : Device :=
  emit EvNvsClear (set_nvs ∅ s).

(** [clearWiFiCredentials] ([main.cpp], lines 567-572). *)
Definition clearWiFiCredentials (s : Device) : Device := preferences_clear s.

(** [topic] is a C string; [payload] is the [length] bytes received, NUL
    bytes included.  [msg == "ON"] compares C strings. *)
Definition onMqttMessage (topic payload : string) (s : Device) : Device :=
  let t := topic in
  let msg := WString.toUpperCase (payloadToString payload) in
  if String.eqb t TOPIC_PUMP_SET then
    if WString.equals msg "ON" || WString.equals msg "1" then setPumpState true s
    else if WString.equals msg "OFF" || WString.equals msg "0" then
      setPumpState false s
    else if WString.equals msg "TOGGLE" then setPumpState (negb (pumpState s)) s
    else s
  else if String.eqb t TOPIC_VALVE_SET then
    if WString.equals msg "1" then setValveMode 1 s
    else if WString.equals msg "2" then setValveMode 2 s
    else if WString.equals msg "TOGGLE" then
      setValveMode (if valveMode s =? 1 then 2 else 1) s
    else s
  else if String.eqb t TOPIC_TIMER_SET then
    let modeIdx := WString.indexOf msg (jkey "mode") in
    let durationIdx := WString.indexOf msg (jkey "duration") in
    if (modeIdx =? -1) || (durationIdx =? -1) then s
    else
      let modeStart := WString.indexOf_from msg ":" (to_u32 modeIdx) + 1 in
      let modeEnd := WString.indexOf_from msg "," (to_u32 modeStart) in
      let modeEnd :=
        if modeEnd =? -1 then WString.indexOf_from msg "}" (to_u32 modeStart)
        else modeEnd in
      let modeStr :=
        WString.trim (WString.substring msg (to_u32 modeStart) (to_u32 modeEnd)) in
      let mode := WString.toInt modeStr in
      let durationStart := WString.indexOf_from msg ":" (to_u32 durationIdx) + 1 in
      let durationEnd := WString.indexOf_from msg "}" (to_u32 durationStart) in
      let durationEnd :=
        if durationEnd =? -1 then WString.len msg else durationEnd in
      let durationStr :=
        WString.trim
          (WString.substring msg (to_u32 durationStart) (to_u32 durationEnd)) in
      let duration := to_u32 (WString.toInt durationStr) in
      if duration =? 0 then stopTimer s
      else startTimer mode duration s
  else if String.eqb t TOPIC_WIFI_CLEAR then
    let s := mqtt_publish TOPIC_WIFI_STATE DISCONNECTED_JSON true s in
    let s := delay 100 s in
    let s := emit EvMqttDisconnect s in
    let s := emit (EvWiFiDisconnect true true) s in
    let s := clearWiFiCredentials s in
    let s := delay 2000 s in
    emit EvRestart s
  else s.

(** ** Credential storage ([main.cpp], lines 523-561) *)

(** [Preferences::getString(key, defaultValue)]. *)
Definition getString (key def : string) (s : Device) : string :=
  default def (nvs s !! key).

(** [Preferences::putString(key, value)]. *)
Definition putString (key value : string) (s : Device) : Device :=
  emit (EvNvsPut key value) (set_nvs (<[key := value]> (nvs s)) s).

(** [strncpy(dst, src, n); dst[n] = 0;] read back as a C string. *)
Definition strncpy_str (src : string) (n : nat) : string := WString.take n src.

(** [None] is the [false] return; [Some] carries the two output buffers. *)
Definition loadWiFiCredentials (s : Device) : option (string * string) :=
  let savedSSID := getString "ssid" EmptyString s in
  let savedPassword := getString "password" EmptyString s in
  if WString.len savedSSID =? 0 then None
  else Some (strncpy_str savedSSID 32, strncpy_str savedPassword 63).

Definition saveWiFiCredentials (ssid password : string) (s : Device) : Device :=
  putString "password" password (putString "ssid" ssid s).

(** ** WiFi connection ([main.cpp], lines 581-628) *)

(** [WiFi.status() == WL_CONNECTED]: the next answer of the driver. *)
Definition WiFi_status (s : Device) : bool * Device :=
  match wifi_status s with
  | [] => (false, s)
  | b :: r => (b, set_wifi_status r s)
  end.

(** The polling loop
    [while (WiFi.status() != WL_CONNECTED && millis() - startTime < TIMEOUT) delay(500);]
    with one unit of [fuel] per evaluation of its condition. *)
Fixpoint wait_connected (fuel : nat) (startTime : Z) (s : Device) : Device :=
  match fuel with
  | O => s
  | S f =>
      let (up, s1) := WiFi_status s in
      if negb up && (u32_sub (millis s1) startTime <? WIFI_CONNECT_TIMEOUT)
      then wait_connected f startTime (delay 500 s1)
      else s1
  end.

(** The timeout is 30 delays of 500 ms, so 31 evaluations always suffice. *)
Definition WAIT_FUEL : nat := 31.

(** The [for] loop of [connectWiFi]; [n] counts the iterations left. *)
Fixpoint connect_attempts (n : nat) (attempt : Z) (ssid password : string)
    (s : Device) : bool * Device :=
  match n with
  | O => (false, s)
  | S n' =>
      let s := if attempt >? 1 then delay WIFI_RETRY_DELAY s else s in
      let s := emit EvWiFiModeSta s in
      let s := emit (EvWiFiBegin ssid password) s in
      let startTime := millis s in
      let s := wait_connected WAIT_FUEL startTime s in
      let (up, s) := WiFi_status s in
      if up then (true, set_wifiProvisioned true s)
      else connect_attempts n' (attempt + 1) ssid password s
  end.

Definition connectWiFi (ssid password : string) (retryAttempts : Z)
    (s : Device) : bool * Device :=
  connect_attempts (Z.to_nat retryAttempts) 1 ssid password s.

(** ** BLE provisioning ([ble_provisioning.cpp], lines 148-277) *)

Definition initBLEProvisioning (s : Device) : Device :=
  let s := emit EvBleInit s in
  let b := ble s in
  set_ble (mkBle true (newCredentialsReceived b) (receivedSSID b)
                 (receivedPassword b) (deviceConnected b) (clearWiFiRequested b)) s.

Definition stopBLEProvisioning (s : Device) : Device :=
  if negb (bleActive (ble s)) then s
  else
    let s := emit EvBleDeinit s in
    let b := ble s in
    set_ble (mkBle false (newCredentialsReceived b) (receivedSSID b)
                   (receivedPassword b) false (clearWiFiRequested b)) s.

Definition isBLEProvisioningActive (s : Device) : bool := bleActive (ble s).

Definition hasNewWiFiCredentials (s : Device) : bool :=
  newCredentialsReceived (ble s).

Definition getBLEWiFiSSID (s : Device) : option string :=
  if WString.len (receivedSSID (ble s)) =? 0 then None
  else Some (strncpy_str (receivedSSID (ble s)) 32).

Definition getBLEWiFiPassword (s : Device) : option string :=
  if WString.len (receivedPassword (ble s)) =? 0 then None
  else Some (strncpy_str (receivedPassword (ble s)) 63).

Definition clearBLECredentials (s : Device) : Device :=
  let b := ble s in
  set_ble (mkBle (bleActive b) false EmptyString EmptyString
                 (deviceConnected b) (clearWiFiRequested b)) s.

(** ** Provisioning flow ([main.cpp], lines 667-698 and 938-987) *)

Definition initWiFiProvisioning (s : Device) : bool * Device :=
  match loadWiFiCredentials s with
  | Some (ssid, password) =>
      let (ok, s) := connectWiFi ssid password WIFI_RETRY_ATTEMPTS s in
      if ok then (true, s) else (false, initBLEProvisioning s)
  | None => (false, initBLEProvisioning s)
  end.

(** The pass of [loop()] taken while [isBLEProvisioningActive()] holds
    (lines 942-987, up to its [return]).  [EvBringUp] stands for the calls
    [syncTimeNTP(); setupMqtt(); connectMqtt();] of the success branch:
    they are not followed further here, and [connectMqtt()] publishes the
    pump, valve, WiFi and timer states and the temperature once it is
    connected (lines 850-857), so the event counts as a call that reaches
    the dashboard.  [connectWiFi(ssid, password)] takes its default third
    argument. *)
Definition loop_ble (s : Device) : Device :=
  let s := delay 10 s in
  if u32_sub (millis s) (lastBLECheck s) >? BLE_CHECK_INTERVAL then
    let s := set_lastBLECheck (millis s) s in
    if hasNewWiFiCredentials s then
      match getBLEWiFiSSID s, getBLEWiFiPassword s with
      | Some ssid, Some password =>
          let s := stopBLEProvisioning s in
          let (ok, s) := connectWiFi ssid password WIFI_RETRY_ATTEMPTS s in
          if ok then
            let s := saveWiFiCredentials ssid password s in
            let s := clearBLECredentials s in
            emit EvBringUp s
          else
            let s := clearBLECredentials s in
            initBLEProvisioning s
      | _, _ => s
      end
    else s
  else s.

(** ** Network scan ([ble_provisioning.cpp], lines 283-348) *)

(** One result of [WiFi.scanNetworks()]: [WiFi.SSID(i)], [WiFi.RSSI(i)]
    and [WiFi.encryptionType(i)]. *)
Record Network : Type := mkNetwork {
  net_ssid : string;
  net_rssi : Z;
  net_encryption : Z
}.

Definition WIFI_AUTH_OPEN : Z := 0.
Definition SCAN_BUDGET : Z := 400.

(** The text of one array element. *)
Definition scan_entry (n : Network) : string :=
  let open := net_encryption n =? WIFI_AUTH_OPEN in
  "{" +:+ jkey "ssid" +:+ String DQ (net_ssid n) +:+ String DQ ("," +:+ jkey "rssi")
      +:+ WString.itoa (net_rssi n)
      +:+ "," +:+ jkey "open" +:+ (if open then "true" else "false")
      +:+ "}".

(** The [for] loop over the scan results, from the current [json] and
    [networkCount]; returning [json] early is the [break]. *)
Fixpoint scan_loop (nets : list Network) (json : string) (networkCount : Z) : string :=
  match nets with
  | [] => json
  | n :: rest =>
      if WString.len (net_ssid n) =? 0 then scan_loop rest json networkCount
      else
        let entry := scan_entry n in
        let projectedSize :=
          WString.len json + WString.len entry
          + (if networkCount >? 0 then 1 else 0) + 1 in
        if projectedSize >? SCAN_BUDGET then json
        else
          let json := if networkCount >? 0 then json +:+ "," else json in
          scan_loop rest (json +:+ entry) (networkCount + 1)
  end.

(** The text returned for the scan results [nets]; [numNetworks] is their
    number (a failed scan, -1, returns the same text as an empty one).  The
    radio calls around the loop ([WiFi.mode], [delay], [WiFi.scanDelete])
    do not contribute to the text. *)
Definition scanWiFiNetworks (nets : list Network) : string :=
  let numNetworks := Z.of_nat (length nets) in
  if numNetworks =? 0 then "[]"
  else scan_loop nets "[" 0 +:+ "]".

(** ** JSON well-formedness

    A recogniser of the JSON grammar (RFC 8259) on bytes: a pushdown
    automaton that reads the text once, left to right.  The stack holds the
    enclosing arrays and objects; the mode says what may come next. *)

Module Json.

Inductive Ctx : Type := InArray | InObject.

Inductive Mode : Type :=
| MValue                       (* a value must start here *)
| MValueOrEnd                  (* after '[': a value or ']' *)
| MKeyOrEnd                    (* after '{': a key or '}' *)
| MKey                         (* after ',' in an object: a key *)
| MColon                       (* after a key: ':' *)
| MAfter                       (* after a complete value *)
| MStr (key : bool)            (* inside a string *)
| MEsc (key : bool)            (* after a backslash *)
| MHex (key : bool) (n : nat)  (* [S n] hex digits to come after \u *)
| MMinus | MZero | MInt | MDot | MFrac | MExp | MExpSign | MExpDigits
| MLit (rest : string).        (* what is left of true, false or null *)

Definition is_ws (c : ascii) : bool :=
  let n := WString.code c in (n =? 32) || (n =? 9) || (n =? 10) || (n =? 13).

Definition is_digit19 (c : ascii) : bool :=
  (49 <=? WString.code c) && (WString.code c <=? 57).

Definition is_hex (c : ascii) : bool :=
  let n := WString.code c in
  WString.isdigit c || ((65 <=? n) && (n <=? 70)) || ((97 <=? n) && (n <=? 102)).

Definition is_e (c : ascii) : bool :=
  Ascii.eqb c "e" || Ascii.eqb c "E".

(** A byte that may stand unescaped inside a JSON string. *)
Definition safe_char (c : ascii) : bool :=
  (32 <=? WString.code c) && negb (Ascii.eqb c DQ) && negb (Ascii.eqb c BSL).

Fixpoint safe (s : string) : bool :=
  match s with
  | EmptyString => true
  | String c r => safe_char c && safe r
  end.

(** The byte [c] where a value may start ([self] is kept on white space). *)
Definition start_value (self : Mode) (stk : list Ctx) (c : ascii)
    : option (Mode * list Ctx) :=
  if is_ws c then Some (self, stk)
  else if Ascii.eqb c "{" then Some (MKeyOrEnd, InObject :: stk)
  else if Ascii.eqb c "[" then Some (MValueOrEnd, InArray :: stk)
  else if Ascii.eqb c DQ then Some (MStr false, stk)
  else if Ascii.eqb c "-" then Some (MMinus, stk)
  else if Ascii.eqb c "0" then Some (MZero, stk)
  else if is_digit19 c then Some (MInt, stk)
  else if Ascii.eqb c "t" then Some (MLit "rue", stk)
  else if Ascii.eqb c "f" then Some (MLit "alse", stk)
  else if Ascii.eqb c "n" then Some (MLit "ull", stk)
  else None.

(** The byte [c] after a complete value. *)
Definition after_value (stk : list Ctx) (c : ascii) : option (Mode * list Ctx) :=
  if is_ws c then Some (MAfter, stk)
  else if Ascii.eqb c "," then
    match stk with
    | InArray :: _ => Some (MValue, stk)
    | InObject :: _ => Some (MKey, stk)
    | [] => None
    end
  else if Ascii.eqb c "]" then
    match stk with InArray :: r => Some (MAfter, r) | _ => None end
  else if Ascii.eqb c "}" then
    match stk with InObject :: r => Some (MAfter, r) | _ => None end
  else None.

Definition step (m : Mode) (stk : list Ctx) (c : ascii) : option (Mode * list Ctx) :=
  match m with
  | MValue => start_value MValue stk c
  | MValueOrEnd =>
      if Ascii.eqb c "]" then
        match stk with InArray :: r => Some (MAfter, r) | _ => None end
      else start_value MValueOrEnd stk c
  | MKeyOrEnd =>
      if is_ws c then Some (MKeyOrEnd, stk)
      else if Ascii.eqb c DQ then Some (MStr true, stk)
      else if Ascii.eqb c "}" then
        match stk with InObject :: r => Some (MAfter, r) | _ => None end
      else None
  | MKey =>
      if is_ws c then Some (MKey, stk)
      else if Ascii.eqb c DQ then Some (MStr true, stk)
      else None
  | MColon =>
      if is_ws c then Some (MColon, stk)
      else if Ascii.eqb c ":" then Some (MValue, stk)
      else None
  | MAfter => after_value stk c
  | MStr k =>
      if Ascii.eqb c DQ then Some (if k then MColon else MAfter, stk)
      else if Ascii.eqb c BSL then Some (MEsc k, stk)
      else if 32 <=? WString.code c then Some (MStr k, stk)
      else None
  | MEsc k =>
      if Ascii.eqb c DQ || Ascii.eqb c BSL || Ascii.eqb c "/" || Ascii.eqb c "b"
         || Ascii.eqb c "f" || Ascii.eqb c "n" || Ascii.eqb c "r" || Ascii.eqb c "t"
      then Some (MStr k, stk)
      else if Ascii.eqb c "u" then Some (MHex k 3, stk)
      else None
  | MHex k n =>
      if is_hex c then
        match n with O => Some (MStr k, stk) | S n' => Some (MHex k n', stk) end
      else None
  | MMinus =>
      if Ascii.eqb c "0" then Some (MZero, stk)
      else if is_digit19 c then Some (MInt, stk)
      else None
  | MZero =>
      if Ascii.eqb c "." then Some (MDot, stk)
      else if is_e c then Some (MExp, stk)
      else after_value stk c
  | MInt =>
      if WString.isdigit c then Some (MInt, stk)
      else if Ascii.eqb c "." then Some (MDot, stk)
      else if is_e c then Some (MExp, stk)
      else after_value stk c
  | MDot => if WString.isdigit c then Some (MFrac, stk) else None
  | MFrac =>
      if WString.isdigit c then Some (MFrac, stk)
      else if is_e c then Some (MExp, stk)
      else after_value stk c
  | MExp =>
      if Ascii.eqb c "+" || Ascii.eqb c "-" then Some (MExpSign, stk)
      else if WString.isdigit c then Some (MExpDigits, stk)
      else None
  | MExpSign => if WString.isdigit c then Some (MExpDigits, stk) else None
  | MExpDigits =>
      if WString.isdigit c then Some (MExpDigits, stk)
      else after_value stk c
  | MLit rest =>
      match rest with
      | String x r =>
          if Ascii.eqb c x then
            Some (match r with EmptyString => MAfter | _ => MLit r end, stk)
          else None
      | EmptyString => None
      end
  end.

(** Reads [s] from mode [m] and stack [stk]; [None] is a syntax error. *)
Fixpoint run (m : Mode) (stk : list Ctx) (s : string) : option (Mode * list Ctx) :=
  match s with
  | EmptyString => Some (m, stk)
  | String c r =>
      match step m stk c with
      | Some (m', stk') => run m' stk' r
      | None => None
      end
  end.

(** A text may end after a complete value, or inside a number that is
    complete so far. *)
Definition final (m : Mode) : bool :=
  match m with
  | MAfter | MZero | MInt | MFrac | MExpDigits => true
  | _ => false
  end.

(** [s] follows the grammar: exactly one JSON value, with optional white
    space around it. *)
Definition grammatical (s : string) : bool :=
  match run MValue [] s with
  | Some (m, []) => final m
  | _ => false
  end.

(** UTF-8 (RFC 3629), read byte by byte: what the character being read
    still needs.  [U1], [U2] and [U3] wait for that many continuation
    bytes; the other four modes come after a lead byte whose first
    continuation byte has a narrower range (no overlong forms, no
    surrogates, nothing above U+10FFFF). *)
Inductive UMode : Type := U0 | U1 | U2 | U3 | UE0 | UED | UF0 | UF4.

Definition in_range (lo hi n : Z) : bool := (lo <=? n) && (n <=? hi).

Definition ustep (m : UMode) (c : ascii) : option UMode :=
  let n := WString.code c in
  match m with
  | U0 =>
      if n <? 128 then Some U0
      else if in_range 194 223 n then Some U1
      else if n =? 224 then Some UE0
      else if n =? 237 then Some UED
      else if in_range 225 239 n then Some U2
      else if n =? 240 then Some UF0
      else if in_range 241 243 n then Some U3
      else if n =? 244 then Some UF4
      else None
  | U1 => if in_range 128 191 n then Some U0 else None
  | U2 => if in_range 128 191 n then Some U1 else None
  | U3 => if in_range 128 191 n then Some U2 else None
  | UE0 => if in_range 160 191 n then Some U1 else None
  | UED => if in_range 128 159 n then Some U1 else None
  | UF0 => if in_range 144 191 n then Some U2 else None
  | UF4 => if in_range 128 143 n then Some U2 else None
  end.

Fixpoint urun (m : UMode) (s : string) : option UMode :=
  match s with
  | EmptyString => Some m
  | String c r =>
      match ustep m c with
      | Some m' => urun m' r
      | None => None
      end
  end.

(** [s] is a sequence of complete, well-formed UTF-8 characters. *)
Definition utf8 (s : string) : bool :=
  match urun U0 s with
  | Some U0 => true
  | _ => false
  end.

(** [s] is a JSON text a parser accepts: it follows the grammar and is
    valid UTF-8 (RFC 8259, sections 2 and 8.1). *)
Definition well_formed (s : string) : bool := grammatical s && utf8 s.

(** Every byte of [s] is below 128. *)
Fixpoint ascii7 (s : string) : bool :=
  match s with
  | EmptyString => true
  | String c r => (WString.code c <? 128) && ascii7 r
  end.

(** The mode after a number whose value is [n]. *)
Definition num_mode (n : Z) : Mode := if n =? 0 then MZero else MInt.

(** [m0] is a mode in which a number may start with a digit. *)
Definition digit_start (m0 : Mode) : Prop :=
  forall stk d, 0 <= d <= 9 ->
    step m0 stk (WString.digit_char d) = Some (num_mode d, stk).

End Json.

(** ** What the scan is expected to return *)

(** The results that have a name. *)
Definition named (nets : list Network) : list Network :=
  List.filter (fun n => negb (WString.len (net_ssid n) =? 0)) nets.

(** Whole entries separated by commas. *)
Fixpoint entries (l : list Network) : string :=
  match l with
  | [] => EmptyString
  | [n] => scan_entry n
  | n :: r => scan_entry n +:+ "," +:+ entries r
  end.

(** The complete serialized form of a list of networks. *)
Definition listing (l : list Network) : string := "[" +:+ entries l +:+ "]".

(** Thirteen scan results, one of them without a name: more than fits. *)
Definition crowded_example : list Network :=
  mkNetwork EmptyString (-90) 0
  :: map (fun i => mkNetwork ("Neighbourhood-AP-" +:+ WString.itoa i) (-40 - i) (i mod 2))
         [0; 1; 2; 3; 4; 5; 6; 7; 8; 9; 10; 11].

(** The same results after a network whose name contains double quotes. *)
Definition quoted_example : list Network :=
  mkNetwork (quoted "Pool") (-30) 0 :: crowded_example.

(** ** Runs of the firmware *)

(** The globals as their initialisers leave them ([main.cpp], lines 32-42,
    and the statics of [ble_provisioning.cpp]) when [setup()] is entered;
    [t0] is what [millis()] returns then. *)
Definition reset (t0 : Z) (nvs0 : gmap string string) (answers : list bool) : Device :=
  mkDevice false 1 false
           (mkTimer false 1 0 0 0 0)
           (mkBle false false EmptyString EmptyString false false)
           0 t0 nvs0 answers [].

(** [setup()] up to its call of [initWiFiProvisioning()] (lines 875-903):
    the delay after [Serial.begin], the two relays driven low, and the
    first assignments.  The serial output, [pinMode] and the start of the
    temperature sensor are not followed. *)
Definition setup_head (s : Device) : Device :=
  let s := delay 500 s in
  let s := digitalWrite PUMP_RELAY_PIN false s in
  let s := digitalWrite VALVE_RELAY_PIN false s in
  let s := set_pumpState false s in
  set_valveMode 1 s.

(** The device when [setup()] calls [initWiFiProvisioning()]: the state
    [setup_head] leaves, with the three calls made so far; [t0] is what
    [millis()] returns at that point. *)
Definition power_on (t0 : Z) (nvs0 : gmap string string) (answers : list bool) : Device :=
  mkDevice false 1 false
           (mkTimer false 1 0 0 0 0)
           (mkBle false false EmptyString EmptyString false false)
           0 t0 nvs0 answers
           [EvDelay 500;
            EvDigitalWrite PUMP_RELAY_PIN false; EvDigitalWrite VALVE_RELAY_PIN false].

(** The ways the firmware's state advances: a message delivered by
    [mqtt.loop()], a pass of [loop()] that reaches [updateTimer()] after
    [ms] milliseconds, a provisioning pass, and the control entry points
    called on their own with any argument. *)
Inductive Op : Type :=
| OpMessage (topic payload : string)
| OpTick (ms : Z)
| OpLoopBle
| OpInitWiFiProvisioning
| OpSetPumpState (on : bool)
| OpSetValveRelay (mode : Z)
| OpSetValveMode (mode : Z)
| OpStartTimer (mode duration : Z)
| OpStopTimer
| OpPublishStates.

Definition exec (o : Op) (s : Device) : Device :=
  match o with
  | OpMessage topic payload => onMqttMessage topic payload s
  | OpTick ms => updateTimer (advance ms s)
  | OpLoopBle => if isBLEProvisioningActive s then loop_ble s else s
  | OpInitWiFiProvisioning => snd (initWiFiProvisioning s)
  | OpSetPumpState on => setPumpState on s
  | OpSetValveRelay mode => setValveRelay mode s
  | OpSetValveMode mode => setValveMode mode s
  | OpStartTimer mode duration => startTimer mode duration s
  | OpStopTimer => stopTimer s
  | OpPublishStates => publishTimerState (publishValveState (publishPumpState s))
  end.

Inductive Reachable : Device -> Prop :=
| Reachable_boot (t0 : Z) (nvs0 : gmap string string) (answers : list bool) :
    Reachable (power_on t0 nvs0 answers)
| Reachable_step (o : Op) (s : Device) :
    Reachable s -> Reachable (exec o s).

(** [n] passes of the loop, [period] milliseconds apart. *)
Fixpoint ticks (n : nat) (period : Z) (s : Device) : Device :=
  match n with
  | O => s
  | S n' => ticks n' period (updateTimer (advance period s))
  end.

(** Passes of the loop after the given waiting times. *)
Fixpoint run_ticks (waits : list Z) (s : Device) : Device :=
  match waits with
  | [] => s
  | w :: r => run_ticks r (updateTimer (advance w s))
  end.

(** The time a list of waits adds up to. *)
Definition total (waits : list Z) : Z := fold_right Z.add 0 waits.

(** A device in BLE provisioning, five seconds after power-on, that has
    received an identifier and a secret and whose WiFi link never comes up;
    nothing is stored in NVS. *)
Definition pending_example : Device :=
  set_ble (mkBle true true "PoolHouse" "hunter22" true false)
          (power_on 5000 ∅ []).

(** A timer started for five seconds in mode 1 right at power-on, seen one
    and a half seconds after the start. *)
Definition running_example : Device :=
  advance 1000 (startTimer 1 5 (power_on 0 ∅ [])).

(** ** Observations *)

(** What an observer of the equipment and of the timer can see. *)
Definition observable (s : Device) : bool * Z * (bool * Z * Z * Z) :=
  (pumpState s, valveMode s,
   (timerActive (timer s), timerMode (timer s),
    timerDuration (timer s), timerRemaining (timer s))).

(** A timer snapshot that reports the timer as stopped. *)
Definition is_stop_snapshot (e : Event) : bool :=
  match e with
  | EvPublish topic payload _ =>
      String.eqb topic TOPIC_TIMER_STATE
      && String.prefix ("{" +:+ jkey "active" +:+ "false") payload
  | _ => false
  end.

Definition is_valve_snapshot (e : Event) : bool :=
  match e with
  | EvPublish topic _ _ => String.eqb topic TOPIC_VALVE_STATE
  | _ => false
  end.

Definition is_valve_relay_write (e : Event) : bool :=
  match e with
  | EvDigitalWrite pin _ => pin =? VALVE_RELAY_PIN
  | _ => false
  end.

Definition is_pump_relay_write (e : Event) : bool :=
  match e with
  | EvDigitalWrite pin _ => pin =? PUMP_RELAY_PIN
  | _ => false
  end.

Definition is_wifi_begin (e : Event) : bool :=
  match e with
  | EvWiFiBegin _ _ => true
  | _ => false
  end.

Definition count (f : Event -> bool) (tr : list Event) : nat :=
  length (List.filter f tr).

(** The events recorded by [s'] after those of [s]. *)
Definition new_events (s s' : Device) : list Event :=
  drop (length (trace s)) (trace s').

(** Every valve-state publish of the trace carries "1" or "2". *)
Definition valve_payload_ok (e : Event) : Prop :=
  match e with
  | EvPublish topic payload _ =>
      topic = TOPIC_VALVE_STATE -> payload = "1" \/ payload = "2"
  | _ => True
  end.

(** The timer command of the scenario: mode 1, five seconds. *)
Definition TIMER_CMD_1_5 : string :=
  "{" +:+ jkey "mode" +:+ "1," +:+ jkey "duration" +:+ "5}".

(** ** Invariants and frames *)

(** The two values a mode variable may take. *)
Definition mode_ok (m : Z) : Prop := m = 1 \/ m = 2.

Record Inv (s : Device) : Prop := mkInv {
  inv_valve : mode_ok (valveMode s);
  inv_timer : mode_ok (timerMode (timer s));
  inv_trace : Forall valve_payload_ok (trace s)
}.

Create HintDb inv discriminated.
#[export] Hint Constants Opaque : inv.

(** What a connection attempt leaves alone, and what it appends. *)
Record wifi_frame (begins : nat) (s s' : Device) : Prop := mkWifiFrame {
  wf_nvs : nvs s' = nvs s;
  wf_ble : ble s' = ble s;
  wf_trace : exists l, trace s' = trace s ++ l /\ count is_wifi_begin l = begins
}.

(** The ten values of a decimal digit, case by case. *)
Ltac digit_cases d H :=
  assert (d = 0 \/ d = 1 \/ d = 2 \/ d = 3 \/ d = 4 \/ d = 5 \/ d = 6 \/ d = 7
          \/ d = 8 \/ d = 9) as H by lia;
  repeat (destruct H as [H | H]); subst d.

(** No byte of [s] is a lower-case letter. *)
Fixpoint no_lower (s : string) : bool :=
  match s with
  | EmptyString => true
  | String c r => negb (WString.islower c) && no_lower r
  end.

(** ** Further observations *)

(** The time a call of [delay] blocks for; other events take none. *)
Definition delay_of (e : Event) : Z :=
  match e with
  | EvDelay ms => ms
  | _ => 0
  end.

(** The time spent in [delay] over a stretch of the trace. *)
Definition delay_total (tr : list Event) : Z :=
  fold_right (fun e acc => delay_of e + acc) 0 tr.

(** The calls a connection attempt makes: [delay], [WiFi.mode(WIFI_STA)]
    and [WiFi.begin] with the given identifier and secret. *)
Definition is_connect_call (ssid password : string) (e : Event) : bool :=
  match e with
  | EvDelay _ => true
  | EvWiFiModeSta => true
  | EvWiFiBegin a b => String.eqb a ssid && String.eqb b password
  | _ => false
  end.

(** What a connection attempt leaves alone besides the stored credentials. *)
Record connect_frame (ssid password : string) (s s' : Device) : Prop := mkConnectFrame {
  cf_pump : pumpState s' = pumpState s;
  cf_valve : valveMode s' = valveMode s;
  cf_timer : timer s' = timer s;
  cf_nvs : nvs s' = nvs s;
  cf_ble : ble s' = ble s;
  cf_check : lastBLECheck s' = lastBLECheck s;
  cf_trace : exists l, trace s' = trace s ++ l
                       /\ forallb (is_connect_call ssid password) l = true
}.

(** Calls that reach the pool equipment or its dashboard: a relay write,
    a publication, or the bring-up of the network services, whose
    [connectMqtt()] publishes the current states (lines 850-857). *)
Definition is_equipment_call (e : Event) : bool :=
  match e with
  | EvDigitalWrite _ _ => true
  | EvPublish _ _ _ => true
  | EvBringUp => true
  | _ => false
  end.

(** Calls that give up the connection or the stored credentials. *)
Definition is_erase_call (e : Event) : bool :=
  match e with
  | EvNvsClear => true
  | EvWiFiDisconnect _ _ => true
  | EvMqttDisconnect => true
  | EvRestart => true
  | _ => false
  end.

Definition is_quiet (e : Event) : bool :=
  negb (is_equipment_call e) && negb (is_erase_call e).

(** ** WiFi state message ([main.cpp], lines 140-171) *)

Definition wifi_quality (rssi : Z) : string :=
  if rssi >=? -50 then "excellent"
  else if rssi >=? -60 then "good"
  else if rssi >=? -70 then "fair"
  else "weak".

(** What the driver reports about the current link: [WiFi.SSID()], the
    four bytes of [WiFi.localIP()] and [WiFi.RSSI()]. *)
Record Link : Type := mkLink {
  link_ssid : string;
  link_ip : Z * Z * Z * Z;
  link_rssi : Z
}.

(** [IPAddress::toString()]: the four bytes in decimal, dot-separated. *)
Definition ip_toString (ip : Z * Z * Z * Z) : string :=
  let '(a, b, c, d) := ip in
  WString.utoa a +:+ "." +:+ WString.utoa b +:+ "." +:+ WString.utoa c
    +:+ "." +:+ WString.utoa d.

(** The JSON text built for a connected link, one [json +=] per line. *)
Definition wifi_json (l : Link) : string :=
  "{"
    +:+ (jkey "status" +:+ quoted "connected" +:+ ",")
    +:+ (jkey "ssid" +:+ quoted (link_ssid l) +:+ ",")
    +:+ (jkey "ip" +:+ quoted (ip_toString (link_ip l)) +:+ ",")
    +:+ (jkey "rssi" +:+ WString.itoa (link_rssi l) +:+ ",")
    +:+ (jkey "quality" +:+ quoted (wifi_quality (link_rssi l)))
    +:+ "}".

(** A network name that closes its string and opens a member of its own:
    x","y":"z. *)
Definition injecting_name : string :=
  "x" +:+ String DQ "," +:+ jkey "y" +:+ String DQ "z".

Definition publishWiFiState (l : Link) (s : Device) : Device :=
  let (up, s) := WiFi_status s in
  if negb up then mqtt_publish TOPIC_WIFI_STATE DISCONNECTED_JSON true s
  else mqtt_publish TOPIC_WIFI_STATE (wifi_json l) true s.

(** ** BLE callbacks ([ble_provisioning.cpp], lines 42-131) *)

(** The characteristics of the provisioning service, by UUID. *)
Inductive Characteristic : Type :=
| SSID_CHAR
| PASSWORD_CHAR
| STATUS_CHAR
| NETWORKS_CHAR
| COMMAND_CHAR.

(** The values of the status and networks characteristics, and the
    notifications sent to the client, oldest first. *)
Record Gatt : Type := mkGatt {
  statusValue : string;
  networksValue : string;
  notified : list (Characteristic * string)
}.

(** The bytes of a [std::string] read as a C string: up to the first NUL. *)
Fixpoint c_str (v : string) : string :=
  match v with
  | EmptyString => EmptyString
  | String c r => if WString.code c =? 0 then EmptyString else String c (c_str r)
  end.

(** [pStatusCharacteristic->setValue(v); pStatusCharacteristic->notify();] *)
Definition notify_status (v : string) (g : Gatt) : Gatt :=
  mkGatt v (networksValue g) (notified g ++ [(STATUS_CHAR, v)]).

Definition onConnect (g : Gatt) (s : Device) : Gatt * Device :=
  let b := ble s in
  let s := set_ble (mkBle (bleActive b) (newCredentialsReceived b) (receivedSSID b)
                          (receivedPassword b) true (clearWiFiRequested b)) s in
  (notify_status "connected" g, s).

Definition onDisconnect (g : Gatt) (s : Device) : Gatt * Device :=
  let b := ble s in
  let s := set_ble (mkBle (bleActive b) (newCredentialsReceived b) (receivedSSID b)
                          (receivedPassword b) false (clearWiFiRequested b)) s in
  (g, s).

(** [onWrite] for a write of [value] to the characteristic [c]; [nets] is
    what a scan of the radio would find.  A callback runs as one step.
    The scan of the networks branch changes the radio mode and waits
    100 ms before scanning. *)
Definition onWrite (c : Characteristic) (value : string) (nets : list Network)
    (g : Gatt) (s : Device) : Gatt * Device :=
  match c with
  | SSID_CHAR =>
      let b := ble s in
      let s := set_ble (mkBle (bleActive b) (newCredentialsReceived b) (c_str value)
                              (receivedPassword b) (deviceConnected b)
                              (clearWiFiRequested b)) s in
      (notify_status "ssid_received" g, s)
  | PASSWORD_CHAR =>
      let b := ble s in
      let s := set_ble (mkBle (bleActive b) (newCredentialsReceived b) (receivedSSID b)
                              (c_str value) (deviceConnected b)
                              (clearWiFiRequested b)) s in
      let g := notify_status "password_received" g in
      let b := ble s in
      if (WString.len (receivedSSID b) >? 0) && (WString.len (receivedPassword b) >? 0)
      then
        let s := set_ble (mkBle (bleActive b) true (receivedSSID b)
                                (receivedPassword b) (deviceConnected b)
                                (clearWiFiRequested b)) s in
        (notify_status "credentials_ready" g, s)
      else (g, s)
  | NETWORKS_CHAR =>
      let s := emit EvWiFiModeSta s in
      let s := delay 100 s in
      let json := scanWiFiNetworks nets in
      (mkGatt (statusValue g) json (notified g ++ [(NETWORKS_CHAR, json)]), s)
  | COMMAND_CHAR =>
      if String.eqb value "clear_wifi" then
        let b := ble s in
        let s := set_ble (mkBle (bleActive b) (newCredentialsReceived b) (receivedSSID b)
                                (receivedPassword b) (deviceConnected b) true) s in
        (notify_status "clear_wifi_requested" g, s)
      else (g, s)
  | STATUS_CHAR => (g, s)
  end.

Definition isClearWiFiRequested (s : Device) : bool := clearWiFiRequested (ble s).

Definition resetClearWiFiRequest (s : Device) : Device :=
  let b := ble s in
  set_ble (mkBle (bleActive b) (newCredentialsReceived b) (receivedSSID b)
                 (receivedPassword b) (deviceConnected b) false) s.

(** One write of a BLE client. *)
Definition GattWrite : Type := Characteristic * string.

(** The writes of a client, delivered in order. *)
Fixpoint deliver (ws : list GattWrite) (nets : list Network) (g : Gatt) (s : Device)
    : Gatt * Device :=
  match ws with
  | [] => (g, s)
  | (c, v) :: r => let (g, s) := onWrite c v nets g s in deliver r nets g s
  end.

(** ** Boot and the head of the loop ([main.cpp], lines 875-926, 938-1037) *)

Definition WIFI_RECONNECT_INTERVAL : Z := 10000.

(** [setup()]: the state of [power_on], then provisioning and, when the
    WiFi link is up, the bring-up of the network services
    ([syncTimeNTP(); setupMqtt(); connectMqtt();], lines 910-914), which
    publishes the current states once MQTT is connected. *)
Definition setup (t0 : Z) (nvs0 : gmap string string) (answers : list bool) : Device :=
  let (wifiConnected, s) := initWiFiProvisioning (power_on t0 nvs0 answers) in
  if wifiConnected then emit EvBringUp s else s.

(** The function-level statics of [loop()] used before the timer is
    updated ([reconnectAttempts] is an [int], taken as unbounded). *)
Record LoopStatics : Type := mkLoopStatics {
  lastWiFiCheck : Z;
  reconnectAttempts : Z
}.

(** Where a pass of [loop()] goes: it returns before the timer is
    updated, it calls [connectMqtt()] and then returns, or it reaches the
    call of [updateTimer()] at line 1037. *)
Inductive LoopExit : Type :=
| Returned
| AtConnectMqtt
| AtUpdateTimer.

(** A pass of [loop()] up to its first call of [connectMqtt()] or of
    [updateTimer()]; [mqtt_connected] is the answer of [mqtt.connected()]. *)
Definition loop_head (mqtt_connected : bool) (st : LoopStatics) (s : Device)
    : LoopExit * LoopStatics * Device :=
  if isBLEProvisioningActive s then (Returned, st, loop_ble s)
  else
    let (up, s) := WiFi_status s in
    if negb up && (u32_sub (millis s) (lastWiFiCheck st) >? WIFI_RECONNECT_INTERVAL)
    then
      let st := mkLoopStatics (millis s) (reconnectAttempts st + 1) in
      match loadWiFiCredentials s with
      | Some (ssid, password) =>
          let (ok, s) := connectWiFi ssid password 1 s in
          if ok then
            let st := mkLoopStatics (lastWiFiCheck st) 0 in
            if negb mqtt_connected then (AtConnectMqtt, st, s) else (Returned, st, s)
          else (Returned, st, s)
      | None =>
          if negb (isBLEProvisioningActive s)
          then (Returned, mkLoopStatics (lastWiFiCheck st) 0, initBLEProvisioning s)
          else (Returned, st, s)
      end
    else
      let (up, s) := WiFi_status s in
      let st := if up && (reconnectAttempts st >? 0)
                then mkLoopStatics (lastWiFiCheck st) 0 else st in
      let (up, s) := WiFi_status s in
      if negb up then (Returned, st, delay 100 s)
      else (AtUpdateTimer, st, s).

(** Passes of [loop()] that all return before the timer is updated, each
    after the given waiting time; [None] when a pass goes further. *)
Fixpoint returning_passes (waits : list Z) (mqtt_connected : bool)
    (st : LoopStatics) (s : Device) : option (LoopStatics * Device) :=
  match waits with
  | [] => Some (st, s)
  | w :: r =>
      match loop_head mqtt_connected st (advance w s) with
      | (Returned, st, s) => returning_passes r mqtt_connected st s
      | _ => None
      end
  end.

(** ** What the relays and the dashboard last saw *)

(** The level last written to [pin], if any. *)
Definition last_write (pin : Z) (tr : list Event) : option bool :=
  fold_left (fun acc e =>
               match e with
               | EvDigitalWrite p high => if p =? pin then Some high else acc
               | _ => acc
               end) tr None.

(** The payload last published on [topic], if any. *)
Definition last_publish (topic : string) (tr : list Event) : option string :=
  fold_left (fun acc e =>
               match e with
               | EvPublish t payload _ => if String.eqb t topic then Some payload else acc
               | _ => acc
               end) tr None.

(** An event that is neither a relay write nor a pump report.  The
    bring-up counts as one: the report its [connectMqtt()] makes is
    [publishPumpState()] of the state as it is (line 850), which leaves
    the agreement below as it was. *)
Definition mirror_neutral (e : Event) : bool :=
  match e with
  | EvDigitalWrite _ _ => false
  | EvPublish t _ _ => negb (String.eqb t TOPIC_PUMP_STATE)
  | _ => true
  end.

(** The relays and the retained pump report agree with the state. *)
Record Mirror (s : Device) : Prop := mkMirror {
  mirror_pump : last_write PUMP_RELAY_PIN (trace s) = Some (pumpState s);
  mirror_valve : last_write VALVE_RELAY_PIN (trace s) = Some (valveMode s =? 2);
  mirror_report :
    match last_publish TOPIC_PUMP_STATE (trace s) with
    | None => pumpState s = false
    | Some p => p = if pumpState s then "ON" else "OFF"
    end
}.

Create HintDb mirror discriminated.
#[export] Hint Constants Opaque : mirror.

(** [s] with every byte upper-cased, also after a NUL byte. *)
Fixpoint upper_bytes (s : string) : string :=
  match s with
  | EmptyString => EmptyString
  | String c r => String (WString.toupper c) (upper_bytes r)
  end.

(** Every byte of [s] is white space. *)
Fixpoint all_space (s : string) : bool :=
  match s with
  | EmptyString => true
  | String c r => WString.isspace c && all_space r
  end.

(** An event that is not a timer snapshot.  The bring-up counts as one:
    the snapshot its [connectMqtt()] makes is [publishTimerState()] of the
    timer as it is (line 853). *)
Definition timer_neutral (e : Event) : bool :=
  match e with
  | EvPublish t _ _ => negb (String.eqb t TOPIC_TIMER_STATE)
  | _ => true
  end.

(** The retained timer snapshot agrees with the timer: it shows whether
    the timer is active, its mode and its duration, and a remaining time
    the timer has not yet gone below; without a snapshot the timer is idle. *)
Definition TimerMirror (s : Device) : Prop :=
  match last_publish TOPIC_TIMER_STATE (trace s) with
  | None => timerActive (timer s) = false
  | Some p =>
      exists r, p = timer_json (timerActive (timer s)) r (timerMode (timer s))
                               (timerDuration (timer s))
                /\ timerRemaining (timer s) <= r
  end.

Create HintDb tmirror discriminated.
#[export] Hint Constants Opaque : tmirror.

(** * Verified properties *)

(** ** Sanity checks of the [String] model *)

Example wstring_examples :
  WString.itoa (-50) = "-50" /\ WString.utoa 4294967295 = "4294967295"
  /\ WString.utoa 0 = "0" /\ WString.toInt " 42}" = 42
  /\ WString.indexOf "abcabc" "ca" = 2 /\ WString.substring "hello" 1 3 = "el"
  /\ WString.trim "  a b  " = "a b" /\ WString.toUpperCase "on1" = "ON1".
Proof. vm_compute. repeat split; reflexivity. Qed.

(** ** Sanity checks of the JSON recogniser *)

Example json_examples :
  Json.well_formed "[1,2,3]" = true
  /\ Json.well_formed " [ ] " = true
  /\ Json.well_formed "[1,]" = false
  /\ Json.well_formed "01" = false
  /\ Json.well_formed "-0.5e+3" = true
  /\ Json.well_formed "[[]" = false
  /\ Json.well_formed "nul" = false
  /\ Json.well_formed ("{" +:+ jkey "a" +:+ "[true,null,{}]}") = true
  /\ Json.well_formed ("{" +:+ quoted "a" +:+ "}") = false
  /\ Json.well_formed (quoted (String BSL "n")) = true
  /\ Json.well_formed (quoted (String BSL "x")) = false
  /\ Json.well_formed (quoted (quoted "Pool")) = false
  /\ Json.well_formed DISCONNECTED_JSON = true
  /\ Json.well_formed (timer_json false 0 1 5) = true.
Proof. vm_compute. repeat split; reflexivity. Qed.

(** The byte E9 alone (Latin-1 "e acute") is not UTF-8, C3 A9 is; overlong
    forms, surrogates and code points above U+10FFFF are refused. *)
Example utf8_examples :
  Json.utf8 ("Caf" +:+ String "195" (String "169" EmptyString)) = true
  /\ Json.utf8 ("Caf" +:+ String "233" EmptyString) = false
  /\ Json.utf8 (String "192" (String "128" EmptyString)) = false
  /\ Json.utf8 (String "237" (String "160" (String "128" EmptyString))) = false
  /\ Json.utf8 (String "244" (String "144" (String "128" (String "128" EmptyString))))
     = false
  /\ Json.utf8 (String "240" (String "159" (String "143" (String "138" EmptyString))))
     = true
  /\ Json.utf8 (String "226" (String "130" EmptyString)) = false
  /\ Json.well_formed (quoted ("Caf" +:+ String "233" EmptyString)) = false
  /\ Json.well_formed (quoted ("Caf" +:+ String "195" (String "169" EmptyString)))
     = true.
Proof. vm_compute. repeat split; reflexivity. Qed.

(** ** The state at the start of provisioning *)

(** [power_on] is what the first lines of [setup()] make of the reset
    state, 500 ms after [setup()] was entered. *)
Lemma power_on_setup_head (t0 : Z) (nvs0 : gmap string string) (answers : list bool) :
  500 <= t0 < U32_MOD ->
  power_on t0 nvs0 answers = setup_head (reset (t0 - 500) nvs0 answers).
Proof.
  intros Ht.
  assert (E : to_u32 (t0 - 500 + 500) = t0).
  { unfold to_u32. replace (t0 - 500 + 500) with t0 by lia. apply Z.mod_small. lia. }
  unfold power_on, setup_head, reset, digitalWrite, delay, emit, set_pumpState,
    set_valveMode, set_trace, set_clock.
  cbn [pumpState valveMode wifiProvisioned timer ble lastBLECheck clock nvs
       wifi_status trace app].
  rewrite E. reflexivity.
Qed.

(** ** Range of the mode variables *)

(** The validity check shared by [setValveRelay], [setValveMode] and
    [startTimer] lets exactly 1 and 2 through. *)
Lemma mode_check (m : Z) :
  negb (m =? 1) && negb (m =? 2) = false <-> m = 1 \/ m = 2.
Proof.
  destruct (Z.eqb_spec m 1), (Z.eqb_spec m 2); cbn; split; intros; try lia; auto;
    discriminate.
Qed.


Lemma inv_emit (e : Event) (s : Device) :
  valve_payload_ok e -> Inv s -> Inv (emit e s).
Proof.
  intros He [Hv Ht Htr]. split; cbn; auto.
  apply Forall_app; split; auto.
Qed.

Lemma inv_set_pumpState v s : Inv s -> Inv (set_pumpState v s).
Proof. intros [? ? ?]; split; auto. Qed.

Lemma inv_set_valveMode v s : mode_ok v -> Inv s -> Inv (set_valveMode v s).
Proof. intros ? [? ? ?]; split; auto. Qed.

Lemma inv_set_wifiProvisioned v s : Inv s -> Inv (set_wifiProvisioned v s).
Proof. intros [? ? ?]; split; auto. Qed.

Lemma inv_set_timer t s : mode_ok (timerMode t) -> Inv s -> Inv (set_timer t s).
Proof. intros ? [? ? ?]; split; auto. Qed.

Lemma inv_set_ble v s : Inv s -> Inv (set_ble v s).
Proof. intros [? ? ?]; split; auto. Qed.

Lemma inv_set_lastBLECheck v s : Inv s -> Inv (set_lastBLECheck v s).
Proof. intros [? ? ?]; split; auto. Qed.

Lemma inv_set_clock v s : Inv s -> Inv (set_clock v s).
Proof. intros [? ? ?]; split; auto. Qed.

Lemma inv_set_nvs v s : Inv s -> Inv (set_nvs v s).
Proof. intros [? ? ?]; split; auto. Qed.

Lemma inv_set_wifi_status v s : Inv s -> Inv (set_wifi_status v s).
Proof. intros [? ? ?]; split; auto. Qed.

#[export] Hint Resolve inv_set_pumpState inv_set_valveMode inv_set_wifiProvisioned
  inv_set_timer inv_set_ble inv_set_lastBLECheck inv_set_clock inv_set_nvs
  inv_set_wifi_status : inv.

Lemma inv_delay ms s : Inv s -> Inv (delay ms s).
Proof. intros; apply inv_emit; cbn; auto with inv. Qed.

Lemma inv_advance ms s : Inv s -> Inv (advance ms s).
Proof. unfold advance; auto with inv. Qed.

Lemma inv_digitalWrite pin v s : Inv s -> Inv (digitalWrite pin v s).
Proof. intros; apply inv_emit; cbn; auto. Qed.

Lemma valve_msg_ok (m : Z) :
  mode_ok m -> valve_msg m = "1" \/ valve_msg m = "2".
Proof. intros [-> | ->]; [left | right]; reflexivity. Qed.

Lemma inv_publishValveState s : Inv s -> Inv (publishValveState s).
Proof.
  intros H. apply inv_emit; auto. cbn. intros _.
  apply valve_msg_ok, H.
Qed.

Lemma topics_differ :
  TOPIC_PUMP_STATE <> TOPIC_VALVE_STATE /\ TOPIC_TIMER_STATE <> TOPIC_VALVE_STATE
  /\ TOPIC_WIFI_STATE <> TOPIC_VALVE_STATE.
Proof. repeat split; discriminate. Qed.

Lemma inv_publishPumpState s : Inv s -> Inv (publishPumpState s).
Proof.
  intros H. apply inv_emit; auto. cbn. intros E.
  exfalso. now apply (proj1 topics_differ).
Qed.

Lemma inv_publishTimerState s : Inv s -> Inv (publishTimerState s).
Proof.
  intros H. apply inv_emit; auto. cbn. intros E.
  exfalso. now apply (proj1 (proj2 topics_differ)).
Qed.

#[export] Hint Resolve inv_delay inv_advance inv_digitalWrite inv_publishValveState
  inv_publishPumpState inv_publishTimerState : inv.

Lemma inv_setPumpState b s : Inv s -> Inv (setPumpState b s).
Proof. unfold setPumpState, setPumpRelay; auto with inv. Qed.

Lemma inv_setValveRelay m s : Inv s -> Inv (setValveRelay m s).
Proof.
  unfold setValveRelay; intros H.
  destruct (negb (m =? 1) && negb (m =? 2)) eqn:E; auto.
  apply mode_check in E. auto with inv.
Qed.

#[export] Hint Resolve inv_setPumpState inv_setValveRelay : inv.

Lemma inv_setValveMode m s : Inv s -> Inv (setValveMode m s).
Proof.
  unfold setValveMode; intros H.
  destruct (negb (m =? 1) && negb (m =? 2)); auto.
  destruct (valveMode s =? m); auto with inv.
Qed.

#[export] Hint Resolve inv_setValveMode : inv.

Lemma inv_startTimer m d s : Inv s -> Inv (startTimer m d s).
Proof.
  unfold startTimer; intros H.
  destruct (negb (m =? 1) && negb (m =? 2)) eqn:E; auto.
  apply mode_check in E.
  destruct (d =? 0); auto 10 with inv.
Qed.

Lemma inv_stopTimer s : Inv s -> Inv (stopTimer s).
Proof.
  unfold stopTimer; intros H.
  destruct (negb (timerActive (timer s))); auto.
  apply inv_publishTimerState, inv_setPumpState, inv_set_timer; auto.
  apply H.
Qed.

#[export] Hint Resolve inv_startTimer inv_stopTimer : inv.

Lemma inv_updateTimer s : Inv s -> Inv (updateTimer s).
Proof.
  unfold updateTimer; intros H.
  pose proof (inv_timer _ H) as Hm.
  repeat (match goal with
          | |- Inv (if ?c then _ else _) => destruct c
          | |- Inv (let _ := _ in _) => cbv zeta
          end; cbn [timer set_timer timerMode timerActive timerDuration
                    timerRemaining timerLastUpdate lastPublish]);
    auto 10 with inv.
Qed.

#[export] Hint Resolve inv_updateTimer : inv.

Lemma inv_onMqttMessage topic payload s : Inv s -> Inv (onMqttMessage topic payload s).
Proof.
  unfold onMqttMessage; intros H.
  repeat (match goal with
          | |- Inv (if ?c then _ else _) => destruct c
          | |- Inv (let _ := _ in _) => cbv zeta
          end); auto with inv.
  unfold clearWiFiCredentials, preferences_clear.
  repeat match goal with
         | |- Inv (emit _ _) => apply inv_emit; [exact I |]
         | |- Inv (delay _ _) => apply inv_delay
         | |- Inv (set_nvs _ _) => apply inv_set_nvs
         end.
  apply inv_emit; auto. cbn. intros E. exfalso.
  now apply (proj2 (proj2 topics_differ)).
Qed.

Lemma inv_WiFi_status s : Inv s -> Inv (snd (WiFi_status s)).
Proof. unfold WiFi_status; destruct (wifi_status s); cbn; auto with inv. Qed.

Lemma inv_wait_connected fuel start s : Inv s -> Inv (wait_connected fuel start s).
Proof.
  revert s; induction fuel as [|f IH]; intros s H; cbn; auto.
  pose proof (inv_WiFi_status s H) as H1.
  destruct (WiFi_status s) as [up s1]; cbn in H1.
  destruct (negb up && _); auto with inv.
Qed.

Lemma inv_connect_attempts n attempt ssid password s :
  Inv s -> Inv (snd (connect_attempts n attempt ssid password s)).
Proof.
  revert attempt s; induction n as [|n IH]; intros attempt s H; cbn; auto.
  set (s1 := if attempt >? 1 then delay WIFI_RETRY_DELAY s else s).
  assert (H1 : Inv s1) by (unfold s1; destruct (attempt >? 1); auto with inv).
  set (s2 := emit (EvWiFiBegin ssid password) (emit EvWiFiModeSta s1)).
  assert (H2 : Inv s2) by (unfold s2; repeat apply inv_emit; cbn; auto).
  pose proof (inv_WiFi_status _ (inv_wait_connected WAIT_FUEL (millis s2) s2 H2)) as H3.
  destruct (WiFi_status _) as [up s3]; cbn in H3.
  destruct up; cbn; auto with inv.
Qed.

Lemma inv_connectWiFi ssid password r s :
  Inv s -> Inv (snd (connectWiFi ssid password r s)).
Proof. apply inv_connect_attempts. Qed.

Lemma inv_initBLEProvisioning s : Inv s -> Inv (initBLEProvisioning s).
Proof. unfold initBLEProvisioning; intros; apply inv_set_ble, inv_emit; cbn; auto. Qed.

Lemma inv_stopBLEProvisioning s : Inv s -> Inv (stopBLEProvisioning s).
Proof.
  unfold stopBLEProvisioning; intros.
  destruct (negb _); auto. apply inv_set_ble, inv_emit; cbn; auto.
Qed.

Lemma inv_saveWiFiCredentials a b s : Inv s -> Inv (saveWiFiCredentials a b s).
Proof.
  unfold saveWiFiCredentials, putString; intros.
  repeat (apply inv_emit; [exact I |]; apply inv_set_nvs). auto.
Qed.

Lemma inv_clearBLECredentials s : Inv s -> Inv (clearBLECredentials s).
Proof. unfold clearBLECredentials; auto with inv. Qed.

#[export] Hint Resolve inv_onMqttMessage inv_connectWiFi inv_initBLEProvisioning
  inv_stopBLEProvisioning inv_saveWiFiCredentials inv_clearBLECredentials : inv.

Lemma inv_initWiFiProvisioning s : Inv s -> Inv (snd (initWiFiProvisioning s)).
Proof.
  unfold initWiFiProvisioning; intros H.
  destruct (loadWiFiCredentials s) as [[ssid password]|]; cbn; auto with inv.
  pose proof (inv_connectWiFi ssid password WIFI_RETRY_ATTEMPTS s H) as H1.
  destruct (connectWiFi _ _ _ _) as [[] s1]; cbn in *; auto with inv.
Qed.

Lemma inv_loop_ble s : Inv s -> Inv (loop_ble s).
Proof.
  unfold loop_ble; intros H. cbv zeta.
  destruct (_ >? BLE_CHECK_INTERVAL); auto with inv.
  destruct (hasNewWiFiCredentials _); auto with inv.
  destruct (getBLEWiFiSSID _) as [ssid|]; auto with inv.
  destruct (getBLEWiFiPassword _) as [password|]; auto with inv.
  match goal with
  | |- Inv (let (_, _) := connectWiFi ?a ?b ?c ?d in _) =>
      assert (H1 : Inv (snd (connectWiFi a b c d))) by auto 10 with inv;
      destruct (connectWiFi a b c d) as [[] s1]; cbn in H1
  end.
  - apply inv_emit; [exact I | auto with inv].
  - auto with inv.
Qed.

Lemma inv_exec o s : Inv s -> Inv (exec o s).
Proof.
  destruct o; cbn; intros H; auto with inv.
  - destruct (isBLEProvisioningActive s); auto using inv_loop_ble.
  - now apply inv_initWiFiProvisioning.
Qed.

Lemma inv_power_on t0 nvs0 answers : Inv (power_on t0 nvs0 answers).
Proof. split; cbn; try (left; reflexivity). repeat constructor. Qed.

Lemma reachable_inv s : Reachable s -> Inv s.
Proof. induction 1; auto using inv_power_on, inv_exec. Qed.

(** C10: in every reachable state [valveMode] and [timerMode] are 1 or 2,
    every valve-state publish made so far carried exactly "1" or "2" (and so
    does the next one), and [setValveRelay], [setValveMode] and
    [startTimer] return the state unchanged on a mode other than 1 and 2. *)
Theorem modes_stay_in_range (s : Device) :
  Reachable s ->
  (valveMode s = 1 \/ valveMode s = 2)
  /\ (timerMode (timer s) = 1 \/ timerMode (timer s) = 2)
  /\ (forall payload retain,
        In (EvPublish TOPIC_VALVE_STATE payload retain) (trace (publishValveState s)) ->
        payload = "1" \/ payload = "2")
  /\ (forall m d, m <> 1 -> m <> 2 ->
        setValveRelay m s = s /\ setValveMode m s = s /\ startTimer m d s = s).
Proof.
  intros R. apply reachable_inv in R.
  pose proof (inv_publishValveState s R) as [_ _ Htr].
  destruct R as [Hv Ht _].
  repeat split; auto.
  - intros payload retain Hin.
    rewrite Forall_forall in Htr. apply list_elem_of_In in Hin.
    apply (Htr _ Hin). reflexivity.
  - unfold setValveRelay.
    destruct (negb (m =? 1) && negb (m =? 2)) eqn:E; auto.
    apply mode_check in E; lia.
  - unfold setValveMode.
    destruct (negb (m =? 1) && negb (m =? 2)) eqn:E; auto.
    apply mode_check in E; lia.
  - unfold startTimer.
    destruct (negb (m =? 1) && negb (m =? 2)) eqn:E; auto.
    apply mode_check in E; lia.
Qed.

Lemma modes_stay_in_range_witness :
  let s := exec (OpStartTimer 2 60) (exec (OpSetValveMode 7) (power_on 0 ∅ [])) in
  Reachable s
  /\ ((valveMode s = 1 \/ valveMode s = 2)
      /\ (timerMode (timer s) = 1 \/ timerMode (timer s) = 2)
      /\ (forall payload retain,
            In (EvPublish TOPIC_VALVE_STATE payload retain)
               (trace (publishValveState s)) ->
            payload = "1" \/ payload = "2")
      /\ (forall m d, m <> 1 -> m <> 2 ->
            setValveRelay m s = s /\ setValveMode m s = s /\ startTimer m d s = s)).
Proof.
  intros s.
  assert (R : Reachable s) by (unfold s; repeat constructor).
  split; [exact R | exact (modes_stay_in_range s R)].
Defined.

(** ** Traces *)

Lemma new_events_app (s s' : Device) (l : list Event) :
  trace s' = trace s ++ l -> new_events s s' = l.
Proof. unfold new_events; intros ->. apply drop_app_length. Qed.

Lemma count_app f (l1 l2 : list Event) :
  count f (l1 ++ l2) = (count f l1 + count f l2)%nat.
Proof. unfold count. now rewrite List.filter_app, length_app. Qed.

(** ** Remote credential wipe *)

(** C8: on a message on the wifi-clear topic the handler, whatever the
    payload, first publishes the retained disconnected status, then
    disconnects the MQTT session, then erases the credentials (driver and
    NVS) and only then restarts; afterwards no credentials can be loaded. *)
Theorem wifi_clear_sequence (payload : string) (s : Device) :
  let s' := onMqttMessage TOPIC_WIFI_CLEAR payload s in
  trace s' =
    trace s ++ [EvPublish TOPIC_WIFI_STATE DISCONNECTED_JSON true;
                EvDelay 100;
                EvMqttDisconnect;
                EvWiFiDisconnect true true;
                EvNvsClear;
                EvDelay 2000;
                EvRestart]
  /\ nvs s' = ∅
  /\ loadWiFiCredentials s' = None.
Proof.
  assert (E1 : String.eqb TOPIC_WIFI_CLEAR TOPIC_PUMP_SET = false) by reflexivity.
  assert (E2 : String.eqb TOPIC_WIFI_CLEAR TOPIC_VALVE_SET = false) by reflexivity.
  assert (E3 : String.eqb TOPIC_WIFI_CLEAR TOPIC_TIMER_SET = false) by reflexivity.
  assert (E4 : String.eqb TOPIC_WIFI_CLEAR TOPIC_WIFI_CLEAR = true) by reflexivity.
  unfold onMqttMessage; cbv zeta. rewrite E1, E2, E3, E4.
  split; [| split].
  - cbn. now rewrite <- !app_assoc.
  - cbn. reflexivity.
  - unfold loadWiFiCredentials, getString; cbn. now rewrite lookup_empty.
Qed.

(** ** Valve idempotence *)

Lemma setValveMode_same (m : Z) (s : Device) :
  mode_ok m -> valveMode s = m ->
  setValveMode m s = publishValveState s.
Proof.
  intros Hm E. unfold setValveMode.
  rewrite (proj2 (mode_check m) Hm), E, Z.eqb_refl. reflexivity.
Qed.

Lemma setValveMode_valveMode (m : Z) (s : Device) :
  mode_ok m -> valveMode (setValveMode m s) = m.
Proof.
  intros Hm. unfold setValveMode, setValveRelay.
  rewrite (proj2 (mode_check m) Hm).
  destruct (Z.eqb_spec (valveMode s) m); cbn; auto.
Qed.

(** C6, as the code has it: for [m] in {1,2}, two calls of
    [setValveMode m] in a row drive the valve relay exactly once when the
    valve was in the other mode and not at all when it already was in mode
    [m]; the second call never drives the relay; and the two calls publish
    exactly two valve snapshots, both reporting [m]. *)
Theorem setValveMode_twice (m : Z) (s : Device) :
  m = 1 \/ m = 2 ->
  let s1 := setValveMode m s in
  let s2 := setValveMode m s1 in
  count is_valve_relay_write (new_events s s2)
    = (if valveMode s =? m then 0%nat else 1%nat)
  /\ new_events s1 s2 = [EvPublish TOPIC_VALVE_STATE (WString.itoa m) true]
  /\ List.filter is_valve_snapshot (new_events s s2)
     = [EvPublish TOPIC_VALVE_STATE (WString.itoa m) true;
        EvPublish TOPIC_VALVE_STATE (WString.itoa m) true]
  /\ valveMode s2 = m.
Proof.
  intros Hm s1 s2.
  assert (Hmsg : valve_msg m = WString.itoa m) by (destruct Hm; subst; vm_compute; reflexivity).
  assert (E2 : trace s2 = trace s1 ++ [EvPublish TOPIC_VALVE_STATE (WString.itoa m) true]).
  { assert (V1 : valveMode s1 = m) by (apply setValveMode_valveMode; exact Hm).
    unfold s2. rewrite (setValveMode_same m s1 Hm V1).
    cbn. now rewrite V1, Hmsg. }
  assert (E1 : trace s1 = trace s
                 ++ (if valveMode s =? m then []
                     else [EvDigitalWrite VALVE_RELAY_PIN (m =? 2)])
                 ++ [EvPublish TOPIC_VALVE_STATE (WString.itoa m) true]).
  { unfold s1, setValveMode, setValveRelay.
    rewrite (proj2 (mode_check m) Hm).
    destruct (Z.eqb_spec (valveMode s) m) as [E|E]; cbn.
    - now rewrite E, Hmsg.
    - now rewrite Hmsg, <- app_assoc. }
  assert (E : trace s2 = trace s
                ++ (if valveMode s =? m then []
                    else [EvDigitalWrite VALVE_RELAY_PIN (m =? 2)])
                ++ [EvPublish TOPIC_VALVE_STATE (WString.itoa m) true;
                    EvPublish TOPIC_VALVE_STATE (WString.itoa m) true]).
  { rewrite E2, E1, <- !app_assoc. reflexivity. }
  repeat split.
  - rewrite (new_events_app _ _ _ E). destruct (valveMode s =? m); reflexivity.
  - apply new_events_app, E2.
  - rewrite (new_events_app _ _ _ E). destruct (valveMode s =? m); reflexivity.
  - apply setValveMode_valveMode; auto.
Qed.

Lemma setValveMode_twice_witness :
  (2 = 1 \/ 2 = 2)
  /\ (let s := power_on 0 ∅ [] in
      let s1 := setValveMode 2 s in
      let s2 := setValveMode 2 s1 in
      count is_valve_relay_write (new_events s s2)
        = (if valveMode s =? 2 then 0%nat else 1%nat)
      /\ new_events s1 s2 = [EvPublish TOPIC_VALVE_STATE (WString.itoa 2) true]
      /\ List.filter is_valve_snapshot (new_events s s2)
         = [EvPublish TOPIC_VALVE_STATE (WString.itoa 2) true;
            EvPublish TOPIC_VALVE_STATE (WString.itoa 2) true]
      /\ valveMode s2 = 2).
Proof.
  assert (H : 2 = 1 \/ 2 = 2) by (right; reflexivity).
  split; [exact H | exact (setValveMode_twice 2 (power_on 0 ∅ []) H)].
Defined.

(** C6 as stated fails for the mode the valve is already in: from power-on
    (valve in mode 1) two calls of [setValveMode 1] publish two snapshots
    but never write to the valve relay. *)
Lemma setValveMode_twice_no_transition :
  let s := power_on 0 ∅ [] in
  let s2 := setValveMode 1 (setValveMode 1 s) in
  count is_valve_relay_write (new_events s s2) = 0%nat
  /\ count is_valve_relay_write (new_events s s2) <> 1%nat
  /\ count is_valve_snapshot (new_events s s2) = 2%nat.
Proof. vm_compute. repeat split. discriminate. Qed.

(** ** Stored credentials *)

Lemma take_drop (n : nat) (x : string) :
  WString.take n x +:+ WString.drop n x = x.
Proof.
  revert x; induction n as [|n IH]; intros [|c r]; auto.
  change (String c (WString.take n r +:+ WString.drop n r) = String c r).
  now rewrite IH.
Qed.

Lemma take_length (n : nat) (x : string) :
  String.length (WString.take n x) = Nat.min n (String.length x).
Proof.
  revert x; induction n as [|n IH]; intros [|c r]; cbn; auto.
Qed.

Lemma take_all (n : nat) (x : string) :
  WString.take n x = x <-> (String.length x <= n)%nat.
Proof.
  split.
  - intros E. pose proof (take_length n x) as L. rewrite E in L. lia.
  - revert x; induction n as [|n IH]; intros [|c r]; cbn; intros L; auto; try lia.
    f_equal. apply IH. lia.
Qed.

Lemma len_zero (x : string) : (WString.len x =? 0) = String.eqb x EmptyString.
Proof. destruct x; reflexivity. Qed.

Lemma getString_saved (ssid password : string) (s : Device) :
  getString "ssid" EmptyString (saveWiFiCredentials ssid password s) = ssid
  /\ getString "password" EmptyString (saveWiFiCredentials ssid password s) = password.
Proof.
  unfold getString, saveWiFiCredentials, putString; cbn. split.
  - rewrite lookup_insert_ne by discriminate. now rewrite lookup_insert_eq.
  - now rewrite lookup_insert_eq.
Qed.

Lemma load_after_save (ssid password : string) (s : Device) :
  loadWiFiCredentials (saveWiFiCredentials ssid password s)
  = if String.eqb ssid EmptyString then None
    else Some (WString.take 32 ssid, WString.take 63 password).
Proof.
  unfold loadWiFiCredentials.
  destruct (getString_saved ssid password s) as [-> ->].
  now rewrite len_zero.
Qed.

Lemma load_after_clear (s : Device) :
  loadWiFiCredentials (clearWiFiCredentials s) = None.
Proof.
  unfold loadWiFiCredentials, getString; cbn. now rewrite lookup_empty.
Qed.

(** C5, within the bounds of the data model: a pair with a non-empty
    identifier of at most 32 bytes and a secret of at most 63 bytes is
    loaded back unchanged after it was saved, and nothing is loaded after a
    clear (also when a pair had been saved before). *)
Theorem credentials_round_trip (ssid password : string) (s : Device) :
  ssid <> EmptyString ->
  (String.length ssid <= 32)%nat ->
  (String.length password <= 63)%nat ->
  loadWiFiCredentials (saveWiFiCredentials ssid password s) = Some (ssid, password)
  /\ loadWiFiCredentials (clearWiFiCredentials s) = None
  /\ loadWiFiCredentials (clearWiFiCredentials (saveWiFiCredentials ssid password s))
     = None.
Proof.
  intros Hne Hs Hp. rewrite load_after_save, !load_after_clear.
  repeat split.
  destruct (String.eqb_spec ssid EmptyString) as [E|_]; [contradiction|].
  now rewrite (proj2 (take_all 32 ssid) Hs), (proj2 (take_all 63 password) Hp).
Qed.

Lemma credentials_round_trip_witness :
  let s := power_on 0 ∅ [] in
  ("PoolHouse" <> EmptyString
   /\ (String.length "PoolHouse" <= 32)%nat
   /\ (String.length "hunter22" <= 63)%nat)
  /\ (loadWiFiCredentials (saveWiFiCredentials "PoolHouse" "hunter22" s)
        = Some ("PoolHouse", "hunter22")
      /\ loadWiFiCredentials (clearWiFiCredentials s) = None
      /\ loadWiFiCredentials
           (clearWiFiCredentials (saveWiFiCredentials "PoolHouse" "hunter22" s))
         = None).
Proof.
  intros s.
  assert (H1 : "PoolHouse" <> EmptyString) by discriminate.
  assert (H2 : (String.length "PoolHouse" <= 32)%nat) by (cbn; lia).
  assert (H3 : (String.length "hunter22" <= 63)%nat) by (cbn; lia).
  split; [auto | exact (credentials_round_trip "PoolHouse" "hunter22" s H1 H2 H3)].
Defined.

(** C5 as stated fails: a pair whose identifier is empty is saved but not
    loaded back, and an identifier of 33 bytes comes back cut to 32. *)
Lemma credentials_round_trip_fails :
  let s := power_on 0 ∅ [] in
  loadWiFiCredentials (saveWiFiCredentials EmptyString "hunter22" s)
    <> Some (EmptyString, "hunter22")
  /\ loadWiFiCredentials
       (saveWiFiCredentials "0123456789abcdef0123456789abcdefX" "hunter22" s)
     <> Some ("0123456789abcdef0123456789abcdefX", "hunter22").
Proof. cbv zeta. rewrite !load_after_save. split; vm_compute; discriminate. Qed.

(** C9: what [loadWiFiCredentials] returns after a save is the first 32
    bytes of the identifier and the first 63 bytes of the secret (so the
    saved pair itself exactly when its identifier is not empty and both
    fields are within those bounds), it returns
    nothing exactly when the stored identifier reads as the empty string,
    and the provisioning getters cut the received identifier and secret to
    32 and 63 bytes in the same way. *)
Theorem load_truncates :
  (forall ssid password s,
     loadWiFiCredentials (saveWiFiCredentials ssid password s)
     = if String.eqb ssid EmptyString then None
       else Some (WString.take 32 ssid, WString.take 63 password))
  /\ (forall n x,
        WString.take n x +:+ WString.drop n x = x
        /\ String.length (WString.take n x) = Nat.min n (String.length x))
  /\ (forall ssid password s,
        loadWiFiCredentials (saveWiFiCredentials ssid password s) = Some (ssid, password)
        <-> ssid <> EmptyString
            /\ (String.length ssid <= 32)%nat /\ (String.length password <= 63)%nat)
  /\ (forall s,
        loadWiFiCredentials s = None <-> getString "ssid" EmptyString s = EmptyString)
  /\ (forall s,
        getBLEWiFiSSID s
        = if String.eqb (receivedSSID (ble s)) EmptyString then None
          else Some (WString.take 32 (receivedSSID (ble s))))
  /\ (forall s,
        getBLEWiFiPassword s
        = if String.eqb (receivedPassword (ble s)) EmptyString then None
          else Some (WString.take 63 (receivedPassword (ble s)))).
Proof.
  split; [exact load_after_save |].
  split; [intros; split; [apply take_drop | apply take_length] |].
  split.
  { intros ssid password s. rewrite load_after_save, <- !take_all.
    destruct (String.eqb_spec ssid EmptyString) as [-> | Hne]; split.
    - discriminate.
    - intros [Hne _]. contradiction.
    - intros E; inversion E as [[E1 E2]]. rewrite E1, E2. auto.
    - intros (_ & -> & ->); reflexivity. }
  split.
  { intros s. unfold loadWiFiCredentials. rewrite len_zero.
    destruct (String.eqb_spec (getString "ssid" EmptyString s) EmptyString);
      split; intros H; auto; try discriminate; contradiction. }
  split; intros s.
  - unfold getBLEWiFiSSID. now rewrite len_zero.
  - unfold getBLEWiFiPassword. now rewrite len_zero.
Qed.

(** The theorem at work: an identifier of 33 bytes is loaded back without
    its last byte, an empty one is not loaded back at all, and a received
    identifier of 33 bytes is handed over cut in the same way. *)
Lemma load_truncates_witness :
  let long := "0123456789abcdef0123456789abcdefX" in
  let s := power_on 0 ∅ [] in
  loadWiFiCredentials (saveWiFiCredentials long "hunter22" s)
    = Some ("0123456789abcdef0123456789abcdef", "hunter22")
  /\ loadWiFiCredentials (saveWiFiCredentials long "hunter22" s)
     <> Some (long, "hunter22")
  /\ loadWiFiCredentials (saveWiFiCredentials EmptyString "hunter22" s) = None
  /\ getBLEWiFiSSID (set_ble (mkBle true true long "hunter22" true false) s)
     = Some "0123456789abcdef0123456789abcdef".
Proof.
  intros long s.
  destruct load_truncates as (Hsave & _ & Hid & _ & Hble & _).
  split; [rewrite Hsave; reflexivity |].
  split; [rewrite Hid; intros (_ & H & _); cbn in H; lia |].
  split; [rewrite Hsave; reflexivity |].
  rewrite Hble. reflexivity.
Defined.

(** ** Connection attempts *)


Lemma wifi_frame_refl s : wifi_frame 0 s s.
Proof. split; auto. exists []. now rewrite app_nil_r. Qed.

Lemma wifi_frame_trans a b s1 s2 s3 :
  wifi_frame a s1 s2 -> wifi_frame b s2 s3 -> wifi_frame (a + b) s1 s3.
Proof.
  intros [N1 B1 (l1 & T1 & C1)] [N2 B2 (l2 & T2 & C2)].
  split; try congruence.
  exists (l1 ++ l2). rewrite T2, T1, app_assoc, count_app. auto.
Qed.

Lemma wifi_frame_emit e s :
  wifi_frame (if is_wifi_begin e then 1 else 0) s (emit e s).
Proof. split; auto. exists [e]. split; auto. unfold count; cbn. now destruct (is_wifi_begin e). Qed.

Lemma wifi_frame_delay ms s : wifi_frame 0 s (delay ms s).
Proof. split; auto. exists [EvDelay ms]. split; auto. Qed.

Lemma wifi_frame_WiFi_status s : wifi_frame 0 s (snd (WiFi_status s)).
Proof.
  unfold WiFi_status. destruct (wifi_status s); cbn; [apply wifi_frame_refl |].
  split; auto. exists []. now rewrite app_nil_r.
Qed.

Lemma wifi_frame_wait fuel start s : wifi_frame 0 s (wait_connected fuel start s).
Proof.
  revert s; induction fuel as [|f IH]; intros s; cbn; [apply wifi_frame_refl |].
  pose proof (wifi_frame_WiFi_status s) as H1.
  destruct (WiFi_status s) as [up s1]; cbn in H1.
  destruct (negb up && _); auto.
  apply (wifi_frame_trans 0 0 _ _ _ H1).
  apply (wifi_frame_trans 0 0 _ _ _ (wifi_frame_delay 500 s1)), IH.
Qed.

(** One pass of the body of the [for] loop, up to the test of the result. *)
Lemma wifi_frame_attempt attempt ssid password s :
  let s1 := if attempt >? 1 then delay WIFI_RETRY_DELAY s else s in
  let s2 := emit (EvWiFiBegin ssid password) (emit EvWiFiModeSta s1) in
  wifi_frame 1 s (snd (WiFi_status (wait_connected WAIT_FUEL (millis s2) s2))).
Proof.
  intros s1 s2.
  assert (H1 : wifi_frame 0 s s1).
  { unfold s1. destruct (attempt >? 1); [apply wifi_frame_delay | apply wifi_frame_refl]. }
  assert (H2 : wifi_frame 1 s1 s2).
  { apply (wifi_frame_trans 0 1 _ _ _ (wifi_frame_emit EvWiFiModeSta s1)).
    apply (wifi_frame_emit (EvWiFiBegin ssid password)). }
  apply (wifi_frame_trans 0 1 _ _ _ H1).
  apply (wifi_frame_trans 1 0 _ _ _ H2).
  apply (wifi_frame_trans 0 0 _ _ _ (wifi_frame_wait WAIT_FUEL (millis s2) s2)).
  apply wifi_frame_WiFi_status.
Qed.

Lemma connect_attempts_fail n attempt ssid password s :
  fst (connect_attempts n attempt ssid password s) = false ->
  wifi_frame n s (snd (connect_attempts n attempt ssid password s)).
Proof.
  revert attempt s; induction n as [|n IH]; intros attempt s; cbn.
  - intros _. apply wifi_frame_refl.
  - pose proof (wifi_frame_attempt attempt ssid password s) as H. cbv zeta in H.
    destruct (WiFi_status _) as [up s3]; cbn in H.
    destruct up; cbn; [discriminate |].
    intros F. apply (wifi_frame_trans 1 n _ _ _ H), IH, F.
Qed.

Lemma connect_attempts_nvs n attempt ssid password s :
  nvs (snd (connect_attempts n attempt ssid password s)) = nvs s.
Proof.
  revert attempt s; induction n as [|n IH]; intros attempt s; cbn; auto.
  pose proof (wifi_frame_attempt attempt ssid password s) as H. cbv zeta in H.
  destruct (WiFi_status _) as [up s3]; cbn in H.
  destruct up; cbn; [apply H |].
  rewrite IH. apply H.
Qed.

Lemma connectWiFi_fail ssid password retryAttempts s :
  fst (connectWiFi ssid password retryAttempts s) = false ->
  wifi_frame (Z.to_nat retryAttempts) s (snd (connectWiFi ssid password retryAttempts s)).
Proof. apply connect_attempts_fail. Qed.

Lemma load_same_nvs s s' : nvs s' = nvs s -> loadWiFiCredentials s' = loadWiFiCredentials s.
Proof. unfold loadWiFiCredentials, getString. now intros ->. Qed.

Lemma u32_sub_add (c ms start : Z) :
  u32_sub (to_u32 (c + ms)) start = to_u32 (u32_sub c start + ms).
Proof.
  unfold u32_sub, to_u32.
  rewrite Zminus_mod_idemp_l, Zplus_mod_idemp_l. f_equal. lia.
Qed.

Lemma WiFi_status_clock s : clock (snd (WiFi_status s)) = clock s.
Proof. unfold WiFi_status. now destruct (wifi_status s). Qed.

(** The polling loop ends on its own: once [j] more delays reach the
    timeout, any fuel above [j] gives the same result. *)
Lemma wait_connected_enough (j f extra : nat) (start : Z) (s : Device) :
  u32_sub (millis s) start = WIFI_CONNECT_TIMEOUT - 500 * Z.of_nat j ->
  (j <= 30)%nat -> (j < f)%nat ->
  wait_connected (f + extra) start s = wait_connected f start s.
Proof.
  revert f s; induction j as [|j IH]; intros f s He Hj Hf;
    (destruct f as [|f]; [lia |]); cbn [wait_connected Nat.add];
    pose proof (WiFi_status_clock s) as Hc;
    destruct (WiFi_status s) as [up s1]; cbn in Hc;
    unfold millis in *; rewrite Hc, He.
  - replace (WIFI_CONNECT_TIMEOUT - 500 * Z.of_nat 0 <? WIFI_CONNECT_TIMEOUT)
      with false by (symmetry; apply Z.ltb_ge; unfold WIFI_CONNECT_TIMEOUT; lia).
    now rewrite andb_false_r.
  - destruct (negb up && _); auto.
    apply IH; try lia.
    cbn [delay emit set_trace set_clock clock]. rewrite Hc, u32_sub_add, He.
    unfold to_u32, WIFI_CONNECT_TIMEOUT, U32_MOD.
    rewrite Z.mod_small; lia.
Qed.

Lemma wait_connected_total (extra : nat) (s : Device) :
  wait_connected (WAIT_FUEL + extra) (millis s) s = wait_connected WAIT_FUEL (millis s) s.
Proof.
  apply (wait_connected_enough 30); unfold WAIT_FUEL; try lia.
  unfold u32_sub, to_u32. rewrite Z.sub_diag. reflexivity.
Qed.

(** C7, as the code has it.  A connection attempt that fails has called
    [WiFi.begin] once per allowed try and leaves the stored credentials as
    they were, so that loading them gives the same result as before; the
    same holds for the boot sequence, which then starts BLE provisioning
    with the stored credentials kept.  When
    the provisioning pass of the loop finds complete pending credentials
    and their connection attempt fails - an attempt of up to
    [WIFI_RETRY_ATTEMPTS] = 3 tries, the default of [connectWiFi] - the
    pending identifier and secret are emptied, BLE provisioning runs
    again, and the stored credentials are as they were. *)
Theorem failed_connect_keeps_credentials :
  (forall (s : Device) (ssid password : string) (retryAttempts : Z),
     fst (connectWiFi ssid password retryAttempts s) = false ->
     let s' := snd (connectWiFi ssid password retryAttempts s) in
     nvs s' = nvs s
     /\ loadWiFiCredentials s' = loadWiFiCredentials s
     /\ count is_wifi_begin (new_events s s') = Z.to_nat retryAttempts)
  /\ (forall s : Device,
        fst (initWiFiProvisioning s) = false ->
        let s' := snd (initWiFiProvisioning s) in
        nvs s' = nvs s
        /\ loadWiFiCredentials s' = loadWiFiCredentials s
        /\ isBLEProvisioningActive s' = true)
  /\ (forall (s : Device) (ssid password : string),
        isBLEProvisioningActive s = true ->
        hasNewWiFiCredentials s = true ->
        getBLEWiFiSSID s = Some ssid ->
        getBLEWiFiPassword s = Some password ->
        u32_sub (millis (delay 10 s)) (lastBLECheck s) > BLE_CHECK_INTERVAL ->
        fst (connectWiFi ssid password WIFI_RETRY_ATTEMPTS
               (stopBLEProvisioning
                  (set_lastBLECheck (millis (delay 10 s)) (delay 10 s)))) = false ->
        let s' := loop_ble s in
        receivedSSID (ble s') = EmptyString
        /\ receivedPassword (ble s') = EmptyString
        /\ newCredentialsReceived (ble s') = false
        /\ isBLEProvisioningActive s' = true
        /\ nvs s' = nvs s
        /\ loadWiFiCredentials s' = loadWiFiCredentials s
        /\ count is_wifi_begin (new_events s s') = 3%nat).
Proof.
  split; [| split].
  - intros s ssid password r F s'.
    pose proof (connectWiFi_fail _ _ _ _ F) as [N _ (l & T & C)].
    fold s' in N, T.
    repeat split; auto using load_same_nvs.
    now rewrite (new_events_app _ _ _ T).
  - intros s F s'.
    assert (N : nvs s' = nvs s /\ isBLEProvisioningActive s' = true).
    { unfold s', initWiFiProvisioning in *.
      destruct (loadWiFiCredentials s) as [[ssid password]|]; [| split; reflexivity].
      pose proof (connect_attempts_nvs (Z.to_nat WIFI_RETRY_ATTEMPTS) 1 ssid password s)
        as N.
      change (connect_attempts (Z.to_nat WIFI_RETRY_ATTEMPTS) 1 ssid password s)
        with (connectWiFi ssid password WIFI_RETRY_ATTEMPTS s) in N.
      remember (connectWiFi ssid password WIFI_RETRY_ATTEMPTS s) as r eqn:Er.
      destruct r as [[] s2]; [discriminate |]. split; [exact N | reflexivity]. }
    destruct N as [N A]. repeat split; auto using load_same_nvs.
  - intros s ssid password Hact Hnew Hs Hp Hint F s'.
    unfold s', loop_ble. cbv zeta.
    change (lastBLECheck (delay 10 s)) with (lastBLECheck s).
    apply Z.gt_lt, Z.ltb_lt in Hint. rewrite Z.gtb_ltb, Hint.
    replace (hasNewWiFiCredentials _) with true.
    replace (getBLEWiFiSSID _) with (Some ssid).
    replace (getBLEWiFiPassword _) with (Some password).
    remember (stopBLEProvisioning _) as s1 eqn:Es1.
    pose proof (connectWiFi_fail _ _ _ _ F) as [N B (l & T & C)].
    remember (connectWiFi ssid password WIFI_RETRY_ATTEMPTS s1) as r eqn:Er.
    destruct r as [ok s2]. clear Er.
    cbn in F, N, B, T; subst ok.
    assert (N1 : nvs s1 = nvs s).
    { rewrite Es1. unfold stopBLEProvisioning. now destruct (negb _). }
    assert (T1 : trace s1 = trace s ++ [EvDelay 10; EvBleDeinit]).
    { rewrite Es1. unfold stopBLEProvisioning, isBLEProvisioningActive in *.
      cbn. rewrite Hact. cbn. now rewrite <- app_assoc. }
    assert (E : trace (initBLEProvisioning (clearBLECredentials s2))
                = trace s ++ [EvDelay 10; EvBleDeinit] ++ l ++ [EvBleInit]).
    { cbn. rewrite T, T1, <- !app_assoc. reflexivity. }
    repeat split; cbn; try congruence.
    + apply load_same_nvs. cbn. congruence.
    + rewrite (new_events_app _ _ _ E), !count_app, C. reflexivity.
Qed.

Lemma failed_connect_keeps_credentials_witness :
  (let s := saveWiFiCredentials "PoolHouse" "hunter22" (power_on 0 ∅ [true; false]) in
   fst (connectWiFi "PoolHouse" "hunter22" 3 s) = false
   /\ (let s' := snd (connectWiFi "PoolHouse" "hunter22" 3 s) in
       nvs s' = nvs s
       /\ loadWiFiCredentials s' = loadWiFiCredentials s
       /\ count is_wifi_begin (new_events s s') = Z.to_nat 3))
  /\ (let s := saveWiFiCredentials "PoolHouse" "hunter22" (power_on 0 ∅ []) in
      fst (initWiFiProvisioning s) = false
      /\ (let s' := snd (initWiFiProvisioning s) in
          nvs s' = nvs s
          /\ loadWiFiCredentials s' = loadWiFiCredentials s
          /\ isBLEProvisioningActive s' = true))
  /\ (let s := pending_example in
      (isBLEProvisioningActive s = true
       /\ hasNewWiFiCredentials s = true
       /\ getBLEWiFiSSID s = Some "PoolHouse"
       /\ getBLEWiFiPassword s = Some "hunter22"
       /\ u32_sub (millis (delay 10 s)) (lastBLECheck s) > BLE_CHECK_INTERVAL
       /\ fst (connectWiFi "PoolHouse" "hunter22" WIFI_RETRY_ATTEMPTS
                 (stopBLEProvisioning
                    (set_lastBLECheck (millis (delay 10 s)) (delay 10 s)))) = false)
      /\ (let s' := loop_ble s in
          receivedSSID (ble s') = EmptyString
          /\ receivedPassword (ble s') = EmptyString
          /\ newCredentialsReceived (ble s') = false
          /\ isBLEProvisioningActive s' = true
          /\ nvs s' = nvs s
          /\ loadWiFiCredentials s' = loadWiFiCredentials s
          /\ count is_wifi_begin (new_events s s') = 3%nat)).
Proof.
  split; [| split].
  - intros s.
    assert (F : fst (connectWiFi "PoolHouse" "hunter22" 3 s) = false)
      by (vm_compute; reflexivity).
    split; [exact F |].
    exact (proj1 failed_connect_keeps_credentials s "PoolHouse" "hunter22" 3 F).
  - intros s.
    assert (F : fst (initWiFiProvisioning s) = false) by (vm_compute; reflexivity).
    split; [exact F |].
    exact (proj1 (proj2 failed_connect_keeps_credentials) s F).
  - intros s.
    assert (H1 : isBLEProvisioningActive s = true) by reflexivity.
    assert (H2 : hasNewWiFiCredentials s = true) by reflexivity.
    assert (H3 : getBLEWiFiSSID s = Some "PoolHouse") by (vm_compute; reflexivity).
    assert (H4 : getBLEWiFiPassword s = Some "hunter22") by (vm_compute; reflexivity).
    assert (H5 : u32_sub (millis (delay 10 s)) (lastBLECheck s) > BLE_CHECK_INTERVAL)
      by (vm_compute; reflexivity).
    assert (H6 : fst (connectWiFi "PoolHouse" "hunter22" WIFI_RETRY_ATTEMPTS
                        (stopBLEProvisioning
                           (set_lastBLECheck (millis (delay 10 s)) (delay 10 s))))
                 = false) by (vm_compute; reflexivity).
    split; [repeat split; assumption |].
    exact (proj2 (proj2 failed_connect_keeps_credentials) s "PoolHouse" "hunter22"
                 H1 H2 H3 H4 H5 H6).
Defined.

(** C7 as stated fails in one detail: the attempt made with freshly
    provisioned credentials is not a single try.  With a link that never
    comes up, one provisioning pass calls [WiFi.begin] three times. *)
Lemma provisioned_attempt_not_single :
  let s := pending_example in
  count is_wifi_begin (new_events s (loop_ble s)) = 3%nat
  /\ count is_wifi_begin (new_events s (loop_ble s)) <> 1%nat.
Proof. vm_compute. split; [reflexivity | discriminate]. Qed.

(** ** The timer tick *)

Lemma stop_snapshot_active r m d :
  is_stop_snapshot (EvPublish TOPIC_TIMER_STATE (timer_json true r m d) true) = false.
Proof. reflexivity. Qed.

Lemma stop_snapshot_inactive r m d :
  is_stop_snapshot (EvPublish TOPIC_TIMER_STATE (timer_json false r m d) true) = true.
Proof. reflexivity. Qed.

Lemma updateTimer_idle (s : Device) :
  timerActive (timer s) = false -> updateTimer s = s.
Proof. unfold updateTimer. now intros ->. Qed.

(** The state in which [updateTimer] leaves a running timer that it finds
    with time left. *)
Lemma updateTimer_decrement (s : Device) :
  timerActive (timer s) = true ->
  1 <= u32_sub (millis s) (timerLastUpdate (timer s)) / 1000 ->
  0 < timerRemaining (timer s) ->
  let s' := updateTimer s in
  timer s' = mkTimer true (timerMode (timer s)) (timerDuration (timer s))
                     (timerRemaining (timer s) - 1) (millis s) (lastPublish (timer s'))
  /\ pumpState s' = pumpState s /\ valveMode s' = valveMode s
  /\ clock s' = clock s /\ nvs s' = nvs s
  /\ (trace s' = trace s
      \/ trace s' = trace s
           ++ [EvPublish TOPIC_TIMER_STATE
                 (timer_json true (timerRemaining (timer s) - 1)
                    (timerMode (timer s)) (timerDuration (timer s))) true]).
Proof.
  intros Ha He Hr. unfold updateTimer. rewrite Ha. cbv zeta. cbn [negb].
  replace (_ >=? 1) with true by (symmetry; apply Z.geb_le; exact He).
  cbn [timer set_timer timerRemaining timerActive timerMode timerDuration
       timerLastUpdate lastPublish].
  replace (timerRemaining (timer s) >? 0) with true
    by (symmetry; apply Z.gtb_lt; exact Hr).
  destruct (_ || _); cbn; rewrite ?Ha; auto 10.
Qed.

Lemma updateTimer_expire (s : Device) :
  timerActive (timer s) = true ->
  1 <= u32_sub (millis s) (timerLastUpdate (timer s)) / 1000 ->
  timerRemaining (timer s) <= 0 ->
  updateTimer s
  = stopTimer (set_timer (mkTimer true (timerMode (timer s)) (timerDuration (timer s))
                                  (timerRemaining (timer s)) (millis s)
                                  (lastPublish (timer s))) s).
Proof.
  intros Ha He Hr. unfold updateTimer. rewrite Ha. cbv zeta. cbn [negb].
  replace (_ >=? 1) with true by (symmetry; apply Z.geb_le; exact He).
  cbn [timer set_timer timerRemaining timerActive timerMode timerDuration
       timerLastUpdate lastPublish].
  replace (timerRemaining (timer s) >? 0) with false
    by (symmetry; rewrite Z.gtb_ltb; apply Z.ltb_ge; exact Hr).
  rewrite <- Ha. reflexivity.
Qed.

(** What [stopTimer] does to a running timer: the only write that switches
    the pump off, then the pump and timer snapshots. *)
Lemma stopTimer_running (s : Device) :
  timerActive (timer s) = true ->
  let s' := stopTimer s in
  timer s' = mkTimer false (timerMode (timer s)) (timerDuration (timer s)) 0
                     (timerLastUpdate (timer s)) (lastPublish (timer s))
  /\ pumpState s' = false /\ valveMode s' = valveMode s
  /\ trace s' = trace s
       ++ [EvDigitalWrite PUMP_RELAY_PIN false;
           EvPublish TOPIC_PUMP_STATE "OFF" true;
           EvPublish TOPIC_TIMER_STATE
             (timer_json false 0 (timerMode (timer s)) (timerDuration (timer s))) true].
Proof.
  intros Ha. unfold stopTimer. rewrite Ha. cbn.
  repeat split. now rewrite <- !app_assoc.
Qed.

Lemma updateTimer_idle_or_early (s : Device) :
  u32_sub (millis s) (timerLastUpdate (timer s)) / 1000 < 1 -> updateTimer s = s.
Proof.
  intros He. unfold updateTimer. destruct (negb _); auto. cbv zeta.
  replace (_ >=? 1) with false; auto.
  symmetry. rewrite Z.geb_leb. apply Z.leb_gt. exact He.
Qed.

(** C3, as the code has it: the tick does nothing while the timer is
    Idle, and nothing while less than one whole second has passed since the
    last acting tick; a tick that sees one elapsed second on a running
    timer with more than one second left takes one second off, leaves the
    pump alone and publishes no stop snapshot; and a tick ends the run only
    by doing exactly [stopTimer] - the one place that switches the pump
    off - while a tick after which the timer still runs has not written to
    the pump relay. *)
Theorem updateTimer_cases (s : Device) :
  (timerActive (timer s) = false -> updateTimer s = s)
  /\ (timerActive (timer s) = true ->
      u32_sub (millis s) (timerLastUpdate (timer s)) / 1000 < 1 ->
      updateTimer s = s)
  /\ (timerActive (timer s) = true ->
      u32_sub (millis s) (timerLastUpdate (timer s)) / 1000 = 1 ->
      1 < timerRemaining (timer s) ->
      let s' := updateTimer s in
      timerRemaining (timer s') = timerRemaining (timer s) - 1
      /\ timerLastUpdate (timer s') = millis s
      /\ timerActive (timer s') = true
      /\ pumpState s' = pumpState s
      /\ count is_stop_snapshot (new_events s s') = 0%nat)
  /\ (timerActive (timer s) = true ->
      timerActive (timer (updateTimer s)) = false ->
      let s1 := set_timer (mkTimer true (timerMode (timer s)) (timerDuration (timer s))
                                   (timerRemaining (timer s)) (millis s)
                                   (lastPublish (timer s))) s in
      updateTimer s = stopTimer s1
      /\ pumpState (updateTimer s) = false
      /\ new_events s (updateTimer s)
         = [EvDigitalWrite PUMP_RELAY_PIN false;
            EvPublish TOPIC_PUMP_STATE "OFF" true;
            EvPublish TOPIC_TIMER_STATE
              (timer_json false 0 (timerMode (timer s)) (timerDuration (timer s)))
              true])
  /\ (timerActive (timer (updateTimer s)) = true ->
      count is_pump_relay_write (new_events s (updateTimer s)) = 0%nat).
Proof.
  split; [apply updateTimer_idle |].
  split; [intros _; apply updateTimer_idle_or_early |].
  split.
  { intros Ha He Hr s'.
    destruct (updateTimer_decrement s Ha ltac:(lia) ltac:(lia))
      as (Ht & Hp & _ & _ & _ & Htr).
    fold s' in Ht, Hp, Htr. rewrite Ht. cbn. repeat split; auto.
    destruct Htr as [E | E].
    - rewrite (new_events_app s s' []); auto. now rewrite app_nil_r.
    - rewrite (new_events_app _ _ _ E). reflexivity. }
  assert (Cases : updateTimer s = s
                  \/ (timerActive (timer s) = true
                      /\ 1 <= u32_sub (millis s) (timerLastUpdate (timer s)) / 1000
                      /\ (0 < timerRemaining (timer s) \/ timerRemaining (timer s) <= 0))).
  { destruct (timerActive (timer s)) eqn:Ha; [| left; now apply updateTimer_idle].
    destruct (Z_lt_le_dec (u32_sub (millis s) (timerLastUpdate (timer s)) / 1000) 1);
      [left; now apply updateTimer_idle_or_early |].
    right. repeat split; auto. lia. }
  split.
  { intros Ha Hoff s1.
    destruct Cases as [E | (_ & He & [Hr | Hr])].
    - rewrite E in Hoff. congruence.
    - destruct (updateTimer_decrement s Ha He Hr) as (Ht & _).
      rewrite Ht in Hoff. discriminate.
    - pose proof (updateTimer_expire s Ha He Hr) as E. fold s1 in E. rewrite E.
      destruct (stopTimer_running s1 eq_refl) as (Ht & Hp & _ & Htr).
      repeat split; auto.
      apply new_events_app. exact Htr. }
  intros Hon.
  destruct Cases as [E | (Ha & He & [Hr | Hr])].
  - rewrite E. rewrite (new_events_app s s []); auto. now rewrite app_nil_r.
  - destruct (updateTimer_decrement s Ha He Hr) as (_ & _ & _ & _ & _ & [E | E]).
    + rewrite (new_events_app _ _ [] ); auto. now rewrite app_nil_r.
    + rewrite (new_events_app _ _ _ E). reflexivity.
  - rewrite (updateTimer_expire s Ha He Hr) in Hon.
    match type of Hon with timerActive (timer (stopTimer ?x)) = _ =>
      destruct (stopTimer_running x eq_refl) as (Ht & _) end.
    rewrite Ht in Hon. discriminate.
Qed.

Lemma updateTimer_cases_witness :
  (let s := power_on 0 ∅ [] in
   timerActive (timer s) = false /\ updateTimer s = s)
  /\ (let s := startTimer 1 5 (power_on 0 ∅ []) in
      (timerActive (timer s) = true
       /\ u32_sub (millis s) (timerLastUpdate (timer s)) / 1000 < 1)
      /\ updateTimer s = s)
  /\ (let s := running_example in
      (timerActive (timer s) = true
       /\ u32_sub (millis s) (timerLastUpdate (timer s)) / 1000 = 1
       /\ 1 < timerRemaining (timer s))
      /\ (let s' := updateTimer s in
          timerRemaining (timer s') = timerRemaining (timer s) - 1
          /\ timerLastUpdate (timer s') = millis s
          /\ timerActive (timer s') = true
          /\ pumpState s' = pumpState s
          /\ count is_stop_snapshot (new_events s s') = 0%nat))
  /\ (let s := advance 1000 (ticks 5 1000 (startTimer 1 5 (power_on 0 ∅ []))) in
      (timerActive (timer s) = true
       /\ timerActive (timer (updateTimer s)) = false)
      /\ (let s1 := set_timer (mkTimer true (timerMode (timer s))
                                       (timerDuration (timer s))
                                       (timerRemaining (timer s)) (millis s)
                                       (lastPublish (timer s))) s in
          updateTimer s = stopTimer s1
          /\ pumpState (updateTimer s) = false
          /\ new_events s (updateTimer s)
             = [EvDigitalWrite PUMP_RELAY_PIN false;
                EvPublish TOPIC_PUMP_STATE "OFF" true;
                EvPublish TOPIC_TIMER_STATE
                  (timer_json false 0 (timerMode (timer s)) (timerDuration (timer s)))
                  true]))
  /\ (let s := running_example in
      timerActive (timer (updateTimer s)) = true
      /\ count is_pump_relay_write (new_events s (updateTimer s)) = 0%nat).
Proof.
  split; [| split; [| split; [| split]]]; intros s.
  - assert (Ha : timerActive (timer s) = false) by reflexivity.
    split; [exact Ha | exact (proj1 (updateTimer_cases s) Ha)].
  - assert (Ha : timerActive (timer s) = true) by reflexivity.
    assert (He : u32_sub (millis s) (timerLastUpdate (timer s)) / 1000 < 1)
      by (vm_compute; reflexivity).
    split; [split; assumption |].
    exact (proj1 (proj2 (updateTimer_cases s)) Ha He).
  - assert (Ha : timerActive (timer s) = true) by reflexivity.
    assert (He : u32_sub (millis s) (timerLastUpdate (timer s)) / 1000 = 1)
      by (vm_compute; reflexivity).
    assert (Hr : 1 < timerRemaining (timer s)) by (vm_compute; reflexivity).
    split; [repeat split; assumption |].
    exact (proj1 (proj2 (proj2 (updateTimer_cases s))) Ha He Hr).
  - assert (Ha : timerActive (timer s) = true) by (vm_compute; reflexivity).
    assert (Hoff : timerActive (timer (updateTimer s)) = false)
      by (vm_compute; reflexivity).
    split; [split; assumption |].
    exact (proj1 (proj2 (proj2 (proj2 (updateTimer_cases s)))) Ha Hoff).
  - assert (Hon : timerActive (timer (updateTimer s)) = true)
      by (vm_compute; reflexivity).
    split; [exact Hon |].
    exact (proj2 (proj2 (proj2 (proj2 (updateTimer_cases s)))) Hon).
Defined.

(** C3 as stated has the phases the wrong way round: the tick is not a
    no-op on a timer that is not Idle.  On a running timer it takes a
    second off, while on an Idle one it does nothing even after an hour. *)
Lemma updateTimer_acts_when_running :
  (let s := running_example in
   timerActive (timer s) = true
   /\ updateTimer s <> s
   /\ timerRemaining (timer s) = 5
   /\ timerRemaining (timer (updateTimer s)) = 4)
  /\ (let s := advance 3600000 (power_on 0 ∅ []) in
      timerActive (timer s) = false /\ updateTimer s = s).
Proof.
  split; cbv zeta.
  - repeat split; try (vm_compute; reflexivity).
    intros E. apply (f_equal (fun x => timerRemaining (timer x))) in E.
    vm_compute in E. discriminate.
  - split; reflexivity.
Qed.

(** ** The timer command *)

Lemma toupper_not_lower (c : ascii) : WString.islower (WString.toupper c) = false.
Proof. destruct c as [[] [] [] [] [] [] [] []]; reflexivity. Qed.

Lemma toupper_not_nul (c : ascii) :
  (WString.code (WString.toupper c) =? 0) = (WString.code c =? 0).
Proof. destruct c as [[] [] [] [] [] [] [] []]; reflexivity. Qed.

(** What the C functions see of an upper-cased [String] has no lower-case
    letter. *)
Lemma toUpperCase_no_lower (x : string) :
  no_lower (WString.c_str (WString.toUpperCase x)) = true.
Proof.
  induction x as [|c r IH]; cbn [WString.toUpperCase]; [reflexivity |].
  destruct (WString.code c =? 0) eqn:E; cbn [WString.c_str].
  - rewrite E. reflexivity.
  - rewrite toupper_not_nul, E. cbn [no_lower].
    now rewrite toupper_not_lower, IH.
Qed.

(** A needle whose second byte is a lower-case letter does not occur in a
    text without lower-case letters. *)
Lemma strstr_lower_needle (hay : string) (c1 c2 : ascii) (rest : string) :
  WString.islower c2 = true -> no_lower hay = true ->
  WString.strstr hay (String c1 (String c2 rest)) = None.
Proof.
  intros Hl. induction hay as [|a h IH]; intros Hn; [reflexivity |].
  cbn [no_lower] in Hn. apply andb_prop in Hn as [_ Hh].
  cbn [WString.strstr String.prefix].
  assert (P : String.prefix (String c2 rest) h = false).
  { destruct h as [|b h']; [reflexivity |]. cbn [String.prefix].
    destruct (ascii_dec c2 b) as [<- |]; auto.
    cbn [no_lower] in Hh. rewrite Hl in Hh. discriminate. }
  rewrite P. destruct (ascii_dec c1 a); rewrite (IH Hh); reflexivity.
Qed.

Lemma indexOf_mode_upper (x : string) :
  WString.indexOf (WString.toUpperCase x) (jkey "mode") = -1.
Proof.
  unfold WString.indexOf, WString.indexOf_from.
  destruct (_ <=? 0); auto.
  change (Z.to_nat 0) with O. cbn [WString.drop].
  change (jkey "mode") with (String DQ (String "m" ("ode" +:+ String DQ ":"))).
  rewrite strstr_lower_needle; auto using toUpperCase_no_lower.
Qed.

(** Since the handler upper-cases the payload before it looks for the
    lower-case keys, no message on the timer topic ever reaches
    [startTimer] or [stopTimer]: the state is returned as it was. *)
Lemma timer_command_never_parsed (payload : string) (s : Device) :
  onMqttMessage TOPIC_TIMER_SET payload s = s.
Proof.
  assert (E1 : String.eqb TOPIC_TIMER_SET TOPIC_PUMP_SET = false) by reflexivity.
  assert (E2 : String.eqb TOPIC_TIMER_SET TOPIC_VALVE_SET = false) by reflexivity.
  assert (E3 : String.eqb TOPIC_TIMER_SET TOPIC_TIMER_SET = true) by reflexivity.
  unfold onMqttMessage. cbv zeta. rewrite E1, E2, E3, indexOf_mode_upper.
  reflexivity.
Qed.

Lemma run_ticks_idle (waits : list Z) (s : Device) :
  timerActive (timer s) = false ->
  let s' := run_ticks waits s in
  timer s' = timer s /\ pumpState s' = pumpState s /\ valveMode s' = valveMode s
  /\ trace s' = trace s.
Proof.
  revert s; induction waits as [|w r IH]; intros s Ha; cbn; auto.
  rewrite (updateTimer_idle (advance w s) Ha).
  apply (IH (advance w s) Ha).
Qed.

(** C1, evaluated on the code: the scenario's command, delivered on the
    timer topic while the timer is Idle, changes nothing - the timer is not
    started - and however the loop ticks afterwards, the timer stays Idle
    and nothing at all is published, so no stop snapshot either. *)
Theorem timer_command_is_dropped (s : Device) (waits : list Z) :
  timerActive (timer s) = false ->
  let s1 := onMqttMessage TOPIC_TIMER_SET TIMER_CMD_1_5 s in
  let s2 := run_ticks waits s1 in
  s1 = s
  /\ timerActive (timer s2) = false
  /\ pumpState s2 = pumpState s
  /\ new_events s s2 = []
  /\ count is_stop_snapshot (new_events s s2) = 0%nat.
Proof.
  intros Ha s1 s2. unfold s2, s1. rewrite timer_command_never_parsed.
  destruct (run_ticks_idle waits s Ha) as (Ht & Hp & _ & Htr).
  assert (E : new_events s (run_ticks waits s) = []).
  { apply new_events_app. now rewrite app_nil_r. }
  rewrite Ht, E. auto.
Qed.

Lemma timer_command_is_dropped_witness :
  let s := power_on 0 ∅ [] in
  let waits := [1000; 1000; 1000; 1000; 1000; 1000] in
  timerActive (timer s) = false
  /\ (let s1 := onMqttMessage TOPIC_TIMER_SET TIMER_CMD_1_5 s in
      let s2 := run_ticks waits s1 in
      s1 = s
      /\ timerActive (timer s2) = false
      /\ pumpState s2 = pumpState s
      /\ new_events s s2 = []
      /\ count is_stop_snapshot (new_events s s2) = 0%nat).
Proof.
  intros s waits.
  assert (Ha : timerActive (timer s) = false) by reflexivity.
  split; [exact Ha | exact (timer_command_is_dropped s waits Ha)].
Defined.

(** ** Expiry of the timer *)

Lemma startTimer_state (m d : Z) (s : Device) :
  mode_ok m -> d <> 0 ->
  let s1 := startTimer m d s in
  timer s1 = mkTimer true m d d (millis s) (lastPublish (timer s))
  /\ pumpState s1 = true
  /\ valveMode s1 = m
  /\ clock s1 = to_u32 (clock s + VALVE_SWITCH_DELAY).
Proof.
  intros Hm Hd. unfold startTimer.
  rewrite (proj2 (mode_check m) Hm).
  replace (d =? 0) with false by (symmetry; now apply Z.eqb_neq).
  cbv zeta. unfold setValveMode, setValveRelay.
  rewrite (proj2 (mode_check m) Hm). cbn [valveMode set_timer].
  destruct (Z.eqb_spec (valveMode s) m) as [E | E]; cbn; auto.
Qed.

Lemma u32_sub_diag (c : Z) : u32_sub c c = 0.
Proof. unfold u32_sub, to_u32. now rewrite Z.sub_diag. Qed.

(** A tick one second after a state whose last acting tick is less than a
    second old sees exactly one elapsed second. *)
Lemma elapsed_after_second (s : Device) :
  0 <= u32_sub (clock s) (timerLastUpdate (timer s)) < 1000 ->
  u32_sub (millis (advance 1000 s)) (timerLastUpdate (timer (advance 1000 s))) / 1000 = 1.
Proof.
  intros H. cbn [advance millis clock set_clock timer].
  rewrite u32_sub_add. unfold to_u32, U32_MOD.
  rewrite Z.mod_small by lia.
  symmetry. apply (Z.div_unique _ 1000 1 (u32_sub (clock s) (timerLastUpdate (timer s)))); lia.
Qed.

(** Counting down: [k] ticks, one second apart, take a running timer with
    [k] seconds left to 0 seconds left - still running, pump untouched, and
    without any stop snapshot. *)
Lemma countdown (k : nat) (s : Device) :
  timerActive (timer s) = true ->
  timerRemaining (timer s) = Z.of_nat k ->
  0 <= u32_sub (clock s) (timerLastUpdate (timer s)) < 1000 ->
  let s' := ticks k 1000 s in
  timerActive (timer s') = true
  /\ timerRemaining (timer s') = 0
  /\ timerMode (timer s') = timerMode (timer s)
  /\ timerDuration (timer s') = timerDuration (timer s)
  /\ pumpState s' = pumpState s
  /\ valveMode s' = valveMode s
  /\ 0 <= u32_sub (clock s') (timerLastUpdate (timer s')) < 1000
  /\ exists l, trace s' = trace s ++ l /\ count is_stop_snapshot l = 0%nat.
Proof.
  revert s; induction k as [|k IH]; intros s Ha Hr Hc; cbn [ticks].
  - repeat split; auto; try lia. exists []. now rewrite app_nil_r.
  - set (sa := advance 1000 s).
    assert (He : 1 <= u32_sub (millis sa) (timerLastUpdate (timer sa)) / 1000)
      by (unfold sa; rewrite elapsed_after_second; auto; lia).
    assert (Hra : 0 < timerRemaining (timer sa)) by (cbn; lia).
    destruct (updateTimer_decrement sa Ha He Hra) as (Ht & Hp & Hv & Hck & _ & Htr).
    set (sb := updateTimer sa) in *.
    assert (Hab : timerActive (timer sb) = true) by (rewrite Ht; reflexivity).
    assert (Hrb : timerRemaining (timer sb) = Z.of_nat k) by (rewrite Ht; cbn; lia).
    assert (Hcb : 0 <= u32_sub (clock sb) (timerLastUpdate (timer sb)) < 1000).
    { rewrite Ht. cbn [timerLastUpdate]. unfold millis. rewrite Hck, u32_sub_diag. lia. }
    destruct (IH sb Hab Hrb Hcb) as (A & R & M & D & P & V & C & l & T & N).
    repeat split; auto; try lia.
    + rewrite M, Ht. reflexivity.
    + rewrite D, Ht. reflexivity.
    + now rewrite P, Hp.
    + now rewrite V, Hv.
    + destruct Htr as [E | E].
      * exists l. split; auto. rewrite T, E. reflexivity.
      * eexists. split; [rewrite T, E, <- app_assoc; reflexivity |].
        rewrite count_app, N. reflexivity.
Qed.

(** X16: for every mode and duration the timer is still running, with the
    pump on, after as many one-second ticks as its duration has seconds; the
    tick after those performs the stop, and leaves the device as an
    explicit [stopTimer] right after the start would have. *)
Lemma expiry_after_one_more_tick (m d : Z) (s : Device) :
  mode_ok m -> 0 < d ->
  let s1 := startTimer m d s in
  let sd := ticks (Z.to_nat d) 1000 s1 in
  let se := ticks (S (Z.to_nat d)) 1000 s1 in
  (timerActive (timer sd) = true /\ pumpState sd = true
   /\ timerRemaining (timer sd) = 0
   /\ count is_stop_snapshot (new_events s1 sd) = 0%nat)
  /\ observable se = observable (stopTimer s1)
  /\ observable se = (false, m, (false, m, d, 0))
  /\ count is_stop_snapshot (new_events s1 se) = 1%nat.
Proof.
  intros Hm Hd s1 sd se.
  assert (Hse : se = updateTimer (advance 1000 sd)).
  { unfold se, sd. generalize (Z.to_nat d) as k. generalize s1 as x.
    intros x k; revert x; induction k as [|k IH]; intros x; [reflexivity |].
    change (ticks (S (S k)) 1000 x) with (ticks (S k) 1000 (updateTimer (advance 1000 x))).
    rewrite IH. reflexivity. }
  clearbody se.
  destruct (startTimer_state m d s Hm) as (Ht & Hp & Hv & Hc); [lia |].
  fold s1 in Ht, Hp, Hv, Hc.
  assert (Ha1 : timerActive (timer s1) = true) by (rewrite Ht; reflexivity).
  assert (Hr1 : timerRemaining (timer s1) = Z.of_nat (Z.to_nat d))
    by (rewrite Ht; cbn; lia).
  assert (Hc1 : 0 <= u32_sub (clock s1) (timerLastUpdate (timer s1)) < 1000).
  { rewrite Ht, Hc. cbn [timerLastUpdate]. unfold millis.
    rewrite u32_sub_add, u32_sub_diag. vm_compute. split; [discriminate | reflexivity]. }
  destruct (countdown _ s1 Ha1 Hr1 Hc1) as (A & R & M & D & P & V & C & l & T & N).
  fold sd in A, R, M, D, P, V, C, T.
  clearbody sd. clearbody s1.
  assert (He : 1 <= u32_sub (millis (advance 1000 sd))
                       (timerLastUpdate (timer (advance 1000 sd))) / 1000)
    by (rewrite elapsed_after_second; auto; lia).
  assert (R0 : timerRemaining (timer (advance 1000 sd)) <= 0)
    by (change (timer (advance 1000 sd)) with (timer sd); lia).
  pose proof (updateTimer_expire (advance 1000 sd) A He R0) as E.
  rewrite <- Hse in E.
  match type of E with _ = stopTimer ?x =>
    destruct (stopTimer_running x eq_refl) as (Ht' & Hp' & Hv' & Htr')
  end.
  rewrite <- E in Ht', Hp', Hv', Htr'. cbn in Ht', Hv', Htr'.
  destruct (stopTimer_running s1 Ha1) as (Ht2 & Hp2 & Hv2 & _).
  assert (Ose : observable se = (false, m, (false, m, d, 0))).
  { unfold observable. rewrite Hp', Hv', Ht', V, Hv, M, D, Ht. reflexivity. }
  split; [| split; [| split]]; auto.
  - repeat split; auto; try congruence.
    now rewrite (new_events_app _ _ _ T).
  - rewrite Ose. unfold observable. rewrite Hp2, Hv2, Ht2, Hv, Ht. reflexivity.
  - assert (T' : trace se = trace s1 ++ l
                   ++ [EvDigitalWrite PUMP_RELAY_PIN false;
                       EvPublish TOPIC_PUMP_STATE "OFF" true;
                       EvPublish TOPIC_TIMER_STATE
                         (timer_json false 0 (timerMode (timer sd))
                                     (timerDuration (timer sd))) true])
      by (rewrite Htr', T, <- app_assoc; reflexivity).
    rewrite (new_events_app _ _ _ T'), count_app, N. reflexivity.
Qed.

Lemma whole_second (x : Z) : 0 <= x -> 1 <= x / 1000 -> 1000 <= x.
Proof.
  intros H0 H. destruct (Z_lt_le_dec x 1000) as [L | L]; auto.
  rewrite Z.div_small in H by lia. lia.
Qed.

(** However the loop ticks, a running timer cannot stop before its last
    acting tick is [remaining + 1] whole seconds old (clock not wrapping). *)
Lemma run_ticks_too_early (waits : list Z) (s : Device) :
  timerActive (timer s) = true ->
  0 <= timerRemaining (timer s) ->
  Forall (fun w => 0 <= w) waits ->
  0 <= timerLastUpdate (timer s) <= clock s ->
  clock s + total waits
    < timerLastUpdate (timer s) + 1000 * (timerRemaining (timer s) + 1) ->
  clock s + total waits < U32_MOD ->
  let s' := run_ticks waits s in
  timerActive (timer s') = true
  /\ pumpState s' = pumpState s
  /\ exists l, trace s' = trace s ++ l /\ count is_stop_snapshot l = 0%nat.
Proof.
  revert s; induction waits as [|w r IH]; intros s Ha Hr Hw HL Hb HM; cbn [run_ticks].
  - repeat split; auto. exists []. now rewrite app_nil_r.
  - apply Forall_cons in Hw as [Hw0 Hw].
    assert (Hsum : 0 <= total r).
    { clear -Hw. unfold total. induction Hw; cbn [fold_right]; lia. }
    change (total (w :: r)) with (w + total r) in Hb, HM.
    set (sa := advance w s).
    assert (Hca : clock sa = clock s + w).
    { cbn. unfold to_u32. apply Z.mod_small. lia. }
    assert (Hsub : u32_sub (millis sa) (timerLastUpdate (timer sa))
                   = clock s + w - timerLastUpdate (timer s)).
    { unfold millis. rewrite Hca. cbn [sa advance timer set_clock].
      unfold u32_sub, to_u32. apply Z.mod_small. lia. }
    destruct (Z_lt_le_dec (u32_sub (millis sa) (timerLastUpdate (timer sa)) / 1000) 1)
      as [He | He].
    + rewrite (updateTimer_idle_or_early sa He).
      apply (IH sa); auto; rewrite ?Hca; cbn [sa advance timer set_clock]; lia.
    + assert (Hs : 1000 <= clock s + w - timerLastUpdate (timer s))
        by (rewrite <- Hsub; apply whole_second; [rewrite Hsub; lia | exact He]).
      destruct (Z_lt_le_dec 0 (timerRemaining (timer s))) as [Hp | Hz].
      * destruct (updateTimer_decrement sa Ha He Hp) as (Ht & Hpu & _ & Hck & _ & Htr).
        set (sb := updateTimer sa) in *.
        assert (Hta : timer sa = timer s) by reflexivity.
        rewrite Hta in Ht.
        assert (B1 : timerActive (timer sb) = true) by (rewrite Ht; reflexivity).
        assert (B2 : 0 <= timerRemaining (timer sb))
          by (rewrite Ht; cbn [timerRemaining]; lia).
        assert (B3 : 0 <= timerLastUpdate (timer sb) <= clock sb)
          by (rewrite Ht; cbn [timerLastUpdate]; unfold millis; rewrite Hck, Hca; lia).
        assert (B4 : clock sb + total r
                     < timerLastUpdate (timer sb)
                       + 1000 * (timerRemaining (timer sb) + 1))
          by (rewrite Ht; cbn [timerLastUpdate timerRemaining]; unfold millis;
              rewrite Hck, Hca; lia).
        assert (B5 : clock sb + total r < U32_MOD) by (rewrite Hck, Hca; lia).
        destruct (IH sb B1 B2 Hw B3 B4 B5) as (A & P & l & T & N).
        repeat split; auto.
        { now rewrite P, Hpu. }
        destruct Htr as [E | E].
        { exists l. split; auto. rewrite T, E. reflexivity. }
        { eexists. split; [rewrite T, E, <- app_assoc; reflexivity |].
          rewrite count_app, N. reflexivity. }
      * exfalso. lia.
Qed.

(** X15: whatever the loop does during the [d] seconds that follow
    [startTimer m d] - any number of ticks, any spacing - the timer is
    still running and the pump still on at the end of them, and no stop
    snapshot has been published: the timer never ends early. *)
Lemma still_running_after_duration (m d : Z) (s : Device) (waits : list Z) :
  mode_ok m -> 0 < d ->
  0 <= clock s ->
  Forall (fun w => 0 <= w) waits ->
  total waits <= 1000 * d ->
  clock s + VALVE_SWITCH_DELAY + 1000 * d < U32_MOD ->
  let s1 := startTimer m d s in
  let s2 := run_ticks waits s1 in
  timerActive (timer s2) = true
  /\ pumpState s2 = true
  /\ count is_stop_snapshot (new_events s1 s2) = 0%nat.
Proof.
  intros Hm Hd Hc Hw Ht HM s1 s2.
  destruct (startTimer_state m d s Hm) as (Htm & Hp & _ & Hck); [lia |].
  fold s1 in Htm, Hp, Hck.
  assert (Hc1 : clock s1 = clock s + VALVE_SWITCH_DELAY).
  { rewrite Hck. unfold to_u32. apply Z.mod_small. unfold VALVE_SWITCH_DELAY in *. lia. }
  unfold VALVE_SWITCH_DELAY in *.
  assert (B1 : timerActive (timer s1) = true) by (rewrite Htm; reflexivity).
  assert (B2 : 0 <= timerRemaining (timer s1))
    by (rewrite Htm; cbn [timerRemaining]; lia).
  assert (B3 : 0 <= timerLastUpdate (timer s1) <= clock s1)
    by (rewrite Htm; cbn [timerLastUpdate]; unfold millis; rewrite Hc1; lia).
  assert (B4 : clock s1 + total waits
               < timerLastUpdate (timer s1) + 1000 * (timerRemaining (timer s1) + 1))
    by (rewrite Htm; cbn [timerLastUpdate timerRemaining]; unfold millis;
        rewrite Hc1; lia).
  assert (B5 : clock s1 + total waits < U32_MOD) by (rewrite Hc1; lia).
  destruct (run_ticks_too_early waits s1 B1 B2 Hw B3 B4 B5) as (A & P & l & T & N).
  fold s2 in A, P, T.
  repeat split; auto; try congruence.
  now rewrite (new_events_app _ _ _ T).
Qed.

(** C2, evaluated on the code for mode 1 and five seconds, started at
    power-on.  After five seconds of ticks - one per second, ten per
    second, or a single late one - the timer is still active and the pump
    still on, and no stop snapshot has been published.  The stop comes
    with the sixth one-second tick, and only then does the device agree
    with an explicit [stopTimer]. *)
Theorem expiry_is_one_second_late :
  let s1 := startTimer 1 5 (power_on 0 ∅ []) in
  let after5 := ticks 5 1000 s1 in
  let after6 := ticks 6 1000 s1 in
  (timerActive (timer after5) = true
   /\ pumpState after5 = true
   /\ timerRemaining (timer after5) = 0
   /\ count is_stop_snapshot (new_events s1 after5) = 0%nat
   /\ observable after5 <> observable (stopTimer s1))
  /\ (timerActive (timer (ticks 50 100 s1)) = true
      /\ pumpState (ticks 50 100 s1) = true)
  /\ (timerActive (timer (ticks 1 5000 s1)) = true
      /\ timerRemaining (timer (ticks 1 5000 s1)) = 4)
  /\ (observable after6 = observable (stopTimer s1)
      /\ observable after6 = (false, 1, (false, 1, 5, 0))
      /\ count is_stop_snapshot (new_events s1 after6) = 1%nat
      /\ List.filter is_stop_snapshot (new_events s1 after6)
         = [EvPublish TOPIC_TIMER_STATE (timer_json false 0 1 5) true]).
Proof.
  vm_compute. repeat split; discriminate.
Qed.

(** ** The network listing is JSON *)

Lemma append_nil_l (b : string) : EmptyString +:+ b = b.
Proof. reflexivity. Qed.

Lemma append_cons (c : ascii) (a b : string) : String c a +:+ b = String c (a +:+ b).
Proof. reflexivity. Qed.

Lemma length_append (a b : string) :
  String.length (a +:+ b) = (String.length a + String.length b)%nat.
Proof.
  induction a as [|c a IH]; [reflexivity |].
  rewrite append_cons. cbn [String.length Nat.add]. now rewrite IH.
Qed.

Lemma len_append (a b : string) :
  WString.len (a +:+ b) = WString.len a + WString.len b.
Proof. unfold WString.len. rewrite length_append. lia. Qed.

Lemma append_assoc (a b c : string) : (a +:+ b) +:+ c = a +:+ (b +:+ c).
Proof.
  induction a as [|x a IH]; [reflexivity |].
  rewrite !append_cons. now rewrite IH.
Qed.

Lemma append_nil_r (a : string) : a +:+ EmptyString = a.
Proof.
  induction a as [|x a IH]; [reflexivity |].
  rewrite append_cons. now rewrite IH.
Qed.

Section Recogniser.

Import Json.

(** Reading a text is reading its first part, then its second. *)
Lemma run_app (m : Mode) (stk : list Ctx) (a b : string) :
  run m stk (a +:+ b)
  = match run m stk a with
    | Some (m', stk') => run m' stk' b
    | None => None
    end.
Proof.
  revert m stk; induction a as [|c a IH]; intros m stk.
  - rewrite append_nil_l. reflexivity.
  - rewrite append_cons. cbn [run].
    destruct (step m stk c) as [[m' stk']|]; auto.
Qed.

Lemma run_app_some (m m' : Mode) (stk stk' : list Ctx) (a b : string) :
  run m stk a = Some (m', stk') -> run m stk (a +:+ b) = run m' stk' b.
Proof. intros H. now rewrite run_app, H. Qed.

(** Safe bytes stay inside the string. *)
Lemma run_safe (k : bool) (stk : list Ctx) (s : string) :
  safe s = true -> run (MStr k) stk s = Some (MStr k, stk).
Proof.
  induction s as [|c s IH]; cbn [safe run]; auto.
  intros H. apply andb_prop in H as [Hc Hs].
  unfold safe_char in Hc.
  apply andb_prop in Hc as [Hc Hb]. apply andb_prop in Hc as [Hc Hq].
  unfold step.
  destruct (Ascii.eqb c DQ); [discriminate |].
  destruct (Ascii.eqb c BSL); [discriminate |].
  rewrite Hc. auto.
Qed.



Lemma digit_start_value : digit_start MValue.
Proof. intros stk d Hd. digit_cases d H; reflexivity. Qed.

Lemma digit_start_minus : digit_start MMinus.
Proof. intros stk d Hd. digit_cases d H; reflexivity. Qed.

Lemma step_int_digit (stk : list Ctx) (d : Z) :
  0 <= d <= 9 -> step MInt stk (WString.digit_char d) = Some (MInt, stk).
Proof. intros Hd. digit_cases d H; reflexivity. Qed.

Lemma run_utoa_aux (m0 : Mode) (fuel : nat) (n : Z) (stk : list Ctx) :
  digit_start m0 -> (0 < fuel)%nat -> 0 <= n < 2 ^ Z.of_nat fuel ->
  run m0 stk (WString.utoa_aux fuel n) = Some (num_mode n, stk).
Proof.
  intros Hm0. revert n; induction fuel as [|f IH]; intros n Hf Hn; [lia |].
  - cbn [WString.utoa_aux].
    destruct (Z.ltb_spec n 10) as [L | L].
    + cbn [run]. rewrite Hm0 by lia. reflexivity.
    + assert (Hq : 0 < n / 10) by (apply Z.div_str_pos; lia).
      assert (Hb : n / 10 < 2 ^ Z.of_nat f).
      { rewrite Nat2Z.inj_succ, Z.pow_succ_r in Hn by lia.
        apply Z.div_lt_upper_bound; lia. }
      assert (Hf' : (0 < f)%nat).
      { destruct f; [| lia]. change (2 ^ Z.of_nat 0) with 1 in Hb. lia. }
      rewrite (run_app_some _ _ _ _ _ _ (IH (n / 10) Hf' ltac:(lia))).
      unfold num_mode at 1.
      replace (n / 10 =? 0) with false by (symmetry; apply Z.eqb_neq; lia).
      cbn [run].
      rewrite step_int_digit by (pose proof (Z.mod_pos_bound n 10); lia).
      unfold num_mode. replace (n =? 0) with false by (symmetry; apply Z.eqb_neq; lia).
      reflexivity.
Qed.

Lemma run_utoa (m0 : Mode) (n : Z) (stk : list Ctx) :
  digit_start m0 -> 0 <= n ->
  run m0 stk (WString.utoa n) = Some (num_mode n, stk).
Proof.
  intros Hm0 Hn. unfold WString.utoa. apply run_utoa_aux; auto; [lia |].
  split; auto.
  destruct (Z.eq_dec n 0) as [-> | Hz]; [reflexivity |].
  rewrite Nat2Z.inj_succ, Z2Nat.id by apply Z.log2_nonneg.
  apply Z.log2_spec. lia.
Qed.

(** The text of any [int] is a JSON number. *)
Lemma run_itoa (n : Z) (stk : list Ctx) :
  run MValue stk (WString.itoa n) = Some (num_mode n, stk).
Proof.
  unfold WString.itoa. destruct (Z.ltb_spec n 0) as [L | L].
  - change (run MValue stk (String "-" (WString.utoa (- n))))
      with (run MMinus stk (WString.utoa (- n))).
    rewrite run_utoa by (auto using digit_start_minus; lia).
    unfold num_mode.
    replace (- n =? 0) with false by (symmetry; apply Z.eqb_neq; lia).
    replace (n =? 0) with false by (symmetry; apply Z.eqb_neq; lia).
    reflexivity.
  - apply run_utoa; auto using digit_start_value.
Qed.

(** One entry is a complete JSON object, wherever a value may start. *)
Lemma run_entry (m0 : Mode) (stk : list Ctx) (n : Network) :
  m0 = MValue \/ m0 = MValueOrEnd ->
  safe (net_ssid n) = true ->
  run m0 stk (scan_entry n) = Some (MAfter, stk).
Proof.
  intros Hm0 Hs. unfold scan_entry. cbv zeta.
  rewrite (run_app_some m0 MKeyOrEnd stk (InObject :: stk))
    by (destruct Hm0; subst m0; reflexivity).
  rewrite (run_app_some MKeyOrEnd MValue (InObject :: stk) (InObject :: stk))
    by reflexivity.
  rewrite (run_app_some MValue (MStr false) (InObject :: stk) (InObject :: stk))
    by (cbn [run]; change (step MValue (InObject :: stk) DQ)
                     with (Some (MStr false, InObject :: stk));
        apply run_safe; exact Hs).
  rewrite (run_app_some (MStr false) MValue (InObject :: stk) (InObject :: stk))
    by reflexivity.
  rewrite (run_app_some _ _ _ _ _ _ (run_itoa (net_rssi n) (InObject :: stk))).
  rewrite (run_app_some (num_mode (net_rssi n)) MKey (InObject :: stk) (InObject :: stk))
    by (unfold num_mode; destruct (net_rssi n =? 0); reflexivity).
  rewrite (run_app_some MKey MValue (InObject :: stk) (InObject :: stk))
    by reflexivity.
  rewrite (run_app_some MValue MAfter (InObject :: stk) (InObject :: stk))
    by (destruct (net_encryption n =? WIFI_AUTH_OPEN); reflexivity).
  reflexivity.
Qed.

Lemma run_entries (m0 : Mode) (l : list Network) :
  m0 = MValue \/ m0 = MValueOrEnd ->
  l <> [] ->
  Forall (fun n => safe (net_ssid n) = true) l ->
  run m0 [InArray] (entries l) = Some (MAfter, [InArray]).
Proof.
  revert m0; induction l as [|n l IH]; intros m0 Hm0 Hne Hs; [contradiction |].
  apply Forall_cons in Hs as [Hn Hl].
  destruct l as [|n2 l]; [now apply run_entry |].
  change (entries (n :: n2 :: l))
    with (scan_entry n +:+ "," +:+ entries (n2 :: l)).
  rewrite (run_app_some _ _ _ _ _ _ (run_entry m0 [InArray] n Hm0 Hn)).
  rewrite (run_app_some MAfter MValue [InArray] [InArray]) by reflexivity.
  apply IH; auto; discriminate.
Qed.

(** Every listing of networks with safe names follows the grammar. *)
Lemma listing_grammatical (l : list Network) :
  Forall (fun n => safe (net_ssid n) = true) l ->
  grammatical (listing l) = true.
Proof.
  intros Hs. unfold grammatical, listing.
  rewrite (run_app_some MValue MValueOrEnd [] [InArray]) by reflexivity.
  destruct l as [|n l]; [reflexivity |].
  rewrite (run_app_some _ _ _ _ _ _
             (run_entries MValueOrEnd (n :: l) (or_intror eq_refl)
                          ltac:(discriminate) Hs)).
  reflexivity.
Qed.

Lemma urun_app (m : UMode) (a b : string) :
  urun m (a +:+ b)
  = match urun m a with
    | Some m' => urun m' b
    | None => None
    end.
Proof.
  revert m; induction a as [|c a IH]; intros m.
  - rewrite append_nil_l. reflexivity.
  - rewrite append_cons. cbn [urun]. destruct (ustep m c); auto.
Qed.

Lemma utf8_run (x : string) : utf8 x = true <-> urun U0 x = Some U0.
Proof.
  unfold utf8. destruct (urun U0 x) as [[]|]; split; congruence.
Qed.

Lemma utf8_app (a b : string) : utf8 a = true -> utf8 b = true -> utf8 (a +:+ b) = true.
Proof.
  rewrite !utf8_run. intros Ha Hb. now rewrite urun_app, Ha.
Qed.

Lemma utf8_ascii7 (x : string) : ascii7 x = true -> utf8 x = true.
Proof.
  rewrite utf8_run. induction x as [|c x IH]; [reflexivity |].
  cbn [ascii7 urun]. intros H. apply andb_prop in H as [Hc Hx].
  unfold ustep. rewrite Hc. auto.
Qed.

Lemma utf8_cons (c : ascii) (x : string) :
  (WString.code c <? 128) = true -> utf8 x = true -> utf8 (String c x) = true.
Proof.
  intros Hc Hx. change (String c x) with (String c EmptyString +:+ x).
  apply utf8_app; [| exact Hx]. apply utf8_ascii7. cbn [ascii7]. now rewrite Hc.
Qed.

Lemma ascii7_app (a b : string) : ascii7 (a +:+ b) = ascii7 a && ascii7 b.
Proof.
  induction a as [|c a IH]; [now rewrite append_nil_l |].
  rewrite append_cons. cbn [ascii7]. now rewrite IH, andb_assoc.
Qed.

Lemma ascii7_digit (n : Z) :
  n < 10 -> ascii7 (String (WString.digit_char n) EmptyString) = true.
Proof.
  intros Hn. cbn [ascii7]. rewrite andb_true_r. apply Z.ltb_lt.
  unfold WString.digit_char, WString.code.
  destruct (Z.to_N (48 + n)) eqn:E; [reflexivity |].
  rewrite N_ascii_embedding by lia. lia.
Qed.

Lemma ascii7_utoa_aux (fuel : nat) (n : Z) : ascii7 (WString.utoa_aux fuel n) = true.
Proof.
  revert n; induction fuel as [|f IH]; intros n; cbn [WString.utoa_aux];
    [reflexivity |].
  destruct (Z.ltb_spec n 10) as [L | L]; [now apply ascii7_digit |].
  rewrite ascii7_app, IH. apply ascii7_digit.
  pose proof (Z.mod_pos_bound n 10). lia.
Qed.

Lemma utf8_itoa (n : Z) : utf8 (WString.itoa n) = true.
Proof.
  apply utf8_ascii7. unfold WString.itoa, WString.utoa.
  destruct (n <? 0); [cbn [ascii7] |]; now rewrite ?ascii7_utoa_aux.
Qed.

Lemma utf8_utoa (n : Z) : utf8 (WString.utoa n) = true.
Proof. apply utf8_ascii7, ascii7_utoa_aux. Qed.

Lemma utf8_entry (n : Network) :
  utf8 (net_ssid n) = true -> utf8 (scan_entry n) = true.
Proof.
  intros Hs. unfold scan_entry. cbv zeta.
  apply utf8_app; [reflexivity |].
  apply utf8_app; [reflexivity |].
  apply utf8_app; [now apply utf8_cons |].
  apply utf8_app; [reflexivity |].
  apply utf8_app; [apply utf8_itoa |].
  apply utf8_app; [reflexivity |].
  apply utf8_app; [reflexivity |].
  apply utf8_app; [destruct (net_encryption n =? WIFI_AUTH_OPEN); reflexivity |].
  reflexivity.
Qed.

Lemma utf8_entries (l : list Network) :
  Forall (fun n => utf8 (net_ssid n) = true) l -> utf8 (entries l) = true.
Proof.
  induction 1 as [|n l Hn Hl IH]; [reflexivity |].
  destruct l as [|n2 l]; [now apply utf8_entry |].
  change (entries (n :: n2 :: l)) with (scan_entry n +:+ "," +:+ entries (n2 :: l)).
  apply utf8_app; [now apply utf8_entry |].
  apply utf8_app; [reflexivity | exact IH].
Qed.

(** Every listing of networks whose names are valid UTF-8 and need no
    escaping is well-formed JSON. *)
Lemma listing_well_formed (l : list Network) :
  Forall (fun n => safe (net_ssid n) = true /\ utf8 (net_ssid n) = true) l ->
  well_formed (listing l) = true.
Proof.
  intros H. unfold well_formed. apply andb_true_intro. split.
  - apply listing_grammatical. eapply Forall_impl; [exact H |]. now intros n [? ?].
  - unfold listing. apply utf8_app; [reflexivity |].
    apply utf8_app; [| reflexivity].
    apply utf8_entries. eapply Forall_impl; [exact H |]. now intros n [? ?].
Qed.

End Recogniser.

(** ** The scan returns a whole-entry prefix that fits the budget *)

Lemma entries_snoc (l : list Network) (n : Network) :
  l <> [] -> entries (l ++ [n]) = entries l +:+ "," +:+ scan_entry n.
Proof.
  induction l as [|a l IH]; intros Hne; [contradiction |].
  destruct l as [|b l]; [reflexivity |].
  change (entries ((a :: b :: l) ++ [n]))
    with (scan_entry a +:+ "," +:+ entries ((b :: l) ++ [n])).
  rewrite IH by discriminate.
  change (entries (a :: b :: l)) with (scan_entry a +:+ "," +:+ entries (b :: l)).
  now rewrite !append_assoc.
Qed.

Lemma len_listing (l : list Network) :
  WString.len (listing l) = WString.len (entries l) + 2.
Proof.
  unfold listing. rewrite !len_append.
  change (WString.len "[") with 1. change (WString.len "]") with 1. lia.
Qed.

(** The text and the projected size that the loop computes for the next
    named network are those of the listing extended by it. *)
Lemma scan_step (done : list Network) (n : Network) :
  let json := "[" +:+ entries done in
  let count := Z.of_nat (length done) in
  (if count >? 0 then json +:+ "," else json) +:+ scan_entry n
    = "[" +:+ entries (done ++ [n])
  /\ WString.len json + WString.len (scan_entry n) + (if count >? 0 then 1 else 0) + 1
     = WString.len (listing (done ++ [n])).
Proof.
  cbv zeta. rewrite len_listing.
  destruct done as [|a done].
  - change (Z.of_nat (length [])) with 0. cbn [Z.gtb Z.compare app].
    change (entries [n]) with (scan_entry n).
    change (entries []) with EmptyString. rewrite !append_nil_r.
    change (WString.len "[") with 1. split; [reflexivity | lia].
  - replace (Z.of_nat (length (a :: done)) >? 0) with true
      by (symmetry; apply Z.gtb_lt; cbn [length]; lia).
    rewrite entries_snoc by discriminate.
    rewrite !len_append, !append_assoc.
    change (WString.len "[") with 1. change (WString.len ",") with 1.
    split; [reflexivity | lia].
Qed.

Lemma scan_loop_spec (nets done : list Network) :
  exists k : nat,
    scan_loop nets ("[" +:+ entries done) (Z.of_nat (length done))
      = "[" +:+ entries (done ++ firstn k (named nets))
    /\ (k <= length (named nets))%nat
    /\ (k = O \/ WString.len (listing (done ++ firstn k (named nets))) <= SCAN_BUDGET)
    /\ ((k < length (named nets))%nat ->
        SCAN_BUDGET < WString.len (listing (done ++ firstn (S k) (named nets)))).
Proof.
  revert done; induction nets as [|n rest IH]; intros done.
  - exists O. cbn. rewrite app_nil_r. repeat split; auto; lia.
  - cbn [scan_loop named List.filter].
    destruct (WString.len (net_ssid n) =? 0) eqn:Ename; cbn [negb].
    + apply IH.
    + destruct (scan_step done n) as [Etext Esize]. cbv zeta in Etext, Esize.
      cbv zeta. rewrite Esize.
      destruct (Z.gtb_spec (WString.len (listing (done ++ [n]))) SCAN_BUDGET) as [G | G].
      * exists O. cbn [firstn]. rewrite app_nil_r.
        repeat split; auto; cbn [length]; lia.
      * rewrite Etext.
        replace (Z.of_nat (length done) + 1) with (Z.of_nat (length (done ++ [n])))
          by (rewrite length_app; cbn [length]; lia).
        destruct (IH (done ++ [n])) as (k & E & Hk & Hfit & Hmax).
        fold (named rest) in *.
        exists (S k). cbn [firstn length].
        replace (done ++ n :: firstn k (named rest))
          with ((done ++ [n]) ++ firstn k (named rest))
          by (now rewrite <- app_assoc).
        repeat split; auto; try lia.
        { right. destruct Hfit as [-> | Hfit]; auto.
          cbn [firstn]. rewrite app_nil_r. lia. }
        { intros Hlt.
          replace (done ++ n :: firstn (S k) (named rest))
            with ((done ++ [n]) ++ firstn (S k) (named rest))
            by (now rewrite <- app_assoc).
          apply Hmax. lia. }
Qed.

Lemma Forall_firstn_named (P : Network -> Prop) (k : nat) (nets : list Network) :
  Forall P nets -> Forall P (firstn k (named nets)).
Proof.
  intros H. revert k; induction H as [|n l Hn Hl IH]; intros k.
  - destruct k; constructor.
  - cbn [named List.filter]. destruct (negb _); [| apply IH].
    destruct k; cbn [firstn]; constructor; auto.
Qed.




(** * Further properties of the firmware *)

(** ** Starting and stopping the timer *)

(** X1: [startTimer] with a valid mode and a duration other than 0 first
    positions the valve (writing to the valve relay only when the mode
    changes) and publishes the valve state, then waits the 500 ms settle
    delay, and only then switches the pump on and publishes the pump and
    timer snapshots - whatever the timer was doing before, it now runs for
    the full duration. *)
Theorem startTimer_sequence (m d : Z) (s : Device) :
  m = 1 \/ m = 2 -> d <> 0 ->
  let s1 := startTimer m d s in
  new_events s s1
  = (if valveMode s =? m then [] else [EvDigitalWrite VALVE_RELAY_PIN (m =? 2)])
    ++ [EvPublish TOPIC_VALVE_STATE (WString.itoa m) true;
        EvDelay VALVE_SWITCH_DELAY;
        EvDigitalWrite PUMP_RELAY_PIN true;
        EvPublish TOPIC_PUMP_STATE "ON" true;
        EvPublish TOPIC_TIMER_STATE (timer_json true d m d) true]
  /\ timerActive (timer s1) = true
  /\ timerRemaining (timer s1) = d
  /\ timerDuration (timer s1) = d.
Proof.
  intros Hm Hd s1.
  destruct (startTimer_state m d s Hm Hd) as (Ht & _).
  fold s1 in Ht. rewrite Ht. repeat split.
  apply new_events_app. unfold s1, startTimer.
  rewrite (proj2 (mode_check m) Hm).
  replace (d =? 0) with false by (symmetry; now apply Z.eqb_neq).
  assert (Hmsg : valve_msg m = WString.itoa m)
    by (destruct Hm; subst; vm_compute; reflexivity).
  cbv zeta. unfold setValveMode, setValveRelay.
  rewrite (proj2 (mode_check m) Hm). cbn [valveMode set_timer].
  destruct (Z.eqb_spec (valveMode s) m) as [E | E]; cbn;
    rewrite ?E, Hmsg, <- ?app_assoc; reflexivity.
Qed.

Lemma startTimer_sequence_witness :
  (2 = 1 \/ 2 = 2) /\ 90 <> 0
  /\ (let s := power_on 0 ∅ [] in
      let s1 := startTimer 2 90 s in
      new_events s s1
      = (if valveMode s =? 2 then [] else [EvDigitalWrite VALVE_RELAY_PIN (2 =? 2)])
        ++ [EvPublish TOPIC_VALVE_STATE (WString.itoa 2) true;
            EvDelay VALVE_SWITCH_DELAY;
            EvDigitalWrite PUMP_RELAY_PIN true;
            EvPublish TOPIC_PUMP_STATE "ON" true;
            EvPublish TOPIC_TIMER_STATE (timer_json true 90 2 90) true]
      /\ timerActive (timer s1) = true
      /\ timerRemaining (timer s1) = 90
      /\ timerDuration (timer s1) = 90).
Proof.
  assert (H1 : 2 = 1 \/ 2 = 2) by (right; reflexivity).
  assert (H2 : 90 <> 0) by discriminate.
  split; [exact H1 |]. split; [exact H2 |].
  exact (startTimer_sequence 2 90 (power_on 0 ∅ []) H1 H2).
Defined.

(** X2: [stopTimer] is idempotent and always leaves the timer Idle; on a
    running timer it switches the pump off and clears the remaining time,
    while on an Idle timer it changes nothing - in particular it does not
    switch off a pump that was switched on by command. *)
Theorem stopTimer_idempotent (s : Device) :
  stopTimer (stopTimer s) = stopTimer s
  /\ timerActive (timer (stopTimer s)) = false
  /\ pumpState (stopTimer s) = (if timerActive (timer s) then false else pumpState s)
  /\ timerRemaining (timer (stopTimer s))
     = (if timerActive (timer s) then 0 else timerRemaining (timer s))
  /\ new_events s (stopTimer s)
     = (if timerActive (timer s)
        then [EvDigitalWrite PUMP_RELAY_PIN false;
              EvPublish TOPIC_PUMP_STATE "OFF" true;
              EvPublish TOPIC_TIMER_STATE
                (timer_json false 0 (timerMode (timer s)) (timerDuration (timer s)))
                true]
        else []).
Proof.
  destruct (timerActive (timer s)) eqn:Ha.
  - destruct (stopTimer_running s Ha) as (Ht & Hp & _ & Htr).
    assert (Hoff : timerActive (timer (stopTimer s)) = false) by (now rewrite Ht).
    repeat split; auto.
    + unfold stopTimer at 1. now rewrite Hoff.
    + now rewrite Ht.
    + now apply new_events_app.
  - assert (E : stopTimer s = s) by (unfold stopTimer; now rewrite Ha).
    rewrite !E. repeat split; auto.
    apply new_events_app. now rewrite app_nil_r.
Qed.

(** ** Pump and valve commands *)

Lemma pump_command (payload : string) (s : Device) :
  onMqttMessage TOPIC_PUMP_SET payload s
  = let msg := WString.toUpperCase (payloadToString payload) in
    if WString.equals msg "ON" || WString.equals msg "1" then setPumpState true s
    else if WString.equals msg "OFF" || WString.equals msg "0" then
      setPumpState false s
    else if WString.equals msg "TOGGLE" then setPumpState (negb (pumpState s)) s
    else s.
Proof. reflexivity. Qed.

Lemma valve_command (payload : string) (s : Device) :
  onMqttMessage TOPIC_VALVE_SET payload s
  = let msg := WString.toUpperCase (payloadToString payload) in
    if WString.equals msg "1" then setValveMode 1 s
    else if WString.equals msg "2" then setValveMode 2 s
    else if WString.equals msg "TOGGLE" then
      setValveMode (if valveMode s =? 1 then 2 else 1) s
    else s.
Proof. reflexivity. Qed.

(** The text [publishPumpState] sends for a pump state. *)
Lemma setPumpState_events (b : bool) (s : Device) :
  trace (setPumpState b s)
  = trace s ++ [EvDigitalWrite PUMP_RELAY_PIN b;
                EvPublish TOPIC_PUMP_STATE (if b then "ON" else "OFF") true]
  /\ pumpState (setPumpState b s) = b.
Proof. cbn. now rewrite <- app_assoc. Qed.

(** X3: a pump command that reads TOGGLE once trimmed and upper-cased,
    received twice in a row, drives the pump relay to the opposite state and
    back, publishing the two states in that order (retained): "ON" then
    "OFF" from a pump that was off, and the pump ends as it started. *)
Theorem pump_toggle_twice (payload : string) (s : Device) :
  WString.toUpperCase (payloadToString payload) = "TOGGLE" ->
  let s1 := onMqttMessage TOPIC_PUMP_SET payload s in
  let s2 := onMqttMessage TOPIC_PUMP_SET payload s1 in
  pumpState s1 = negb (pumpState s)
  /\ pumpState s2 = pumpState s
  /\ new_events s s2
     = [EvDigitalWrite PUMP_RELAY_PIN (negb (pumpState s));
        EvPublish TOPIC_PUMP_STATE (if pumpState s then "OFF" else "ON") true;
        EvDigitalWrite PUMP_RELAY_PIN (pumpState s);
        EvPublish TOPIC_PUMP_STATE (if pumpState s then "ON" else "OFF") true].
Proof.
  intros Hmsg s1 s2.
  assert (E1 : s1 = setPumpState (negb (pumpState s)) s).
  { unfold s1. rewrite pump_command. cbv zeta. rewrite Hmsg. reflexivity. }
  assert (E2 : s2 = setPumpState (negb (pumpState s1)) s1).
  { unfold s2. rewrite pump_command. cbv zeta. rewrite Hmsg. reflexivity. }
  clearbody s1 s2.
  destruct (setPumpState_events (negb (pumpState s)) s) as [T1 P1].
  rewrite <- E1 in T1, P1.
  destruct (setPumpState_events (negb (pumpState s1)) s1) as [T2 P2].
  rewrite <- E2 in T2, P2.
  rewrite P1, negb_involutive in T2, P2.
  repeat split; auto.
  apply new_events_app. rewrite T2, T1, <- app_assoc.
  destruct (pumpState s); reflexivity.
Qed.

Lemma pump_toggle_twice_witness :
  let payload := "  toggle " in
  let s := power_on 0 ∅ [] in
  WString.toUpperCase (payloadToString payload) = "TOGGLE"
  /\ (let s1 := onMqttMessage TOPIC_PUMP_SET payload s in
      let s2 := onMqttMessage TOPIC_PUMP_SET payload s1 in
      pumpState s1 = negb (pumpState s)
      /\ pumpState s2 = pumpState s
      /\ new_events s s2
         = [EvDigitalWrite PUMP_RELAY_PIN (negb (pumpState s));
            EvPublish TOPIC_PUMP_STATE (if pumpState s then "OFF" else "ON") true;
            EvDigitalWrite PUMP_RELAY_PIN (pumpState s);
            EvPublish TOPIC_PUMP_STATE (if pumpState s then "ON" else "OFF") true]).
Proof.
  intros payload s.
  assert (H : WString.toUpperCase (payloadToString payload) = "TOGGLE")
    by (vm_compute; reflexivity).
  split; [exact H | exact (pump_toggle_twice payload s H)].
Defined.

(** X4: a valve command that reads TOGGLE once trimmed and upper-cased
    moves a valve that is in mode 1 or 2 to the other mode with one write
    to the valve relay (high for mode 2) and one retained snapshot of the
    new mode; a second one brings the valve back. *)
Theorem valve_toggle (payload : string) (s : Device) :
  WString.toUpperCase (payloadToString payload) = "TOGGLE" ->
  valveMode s = 1 \/ valveMode s = 2 ->
  let s1 := onMqttMessage TOPIC_VALVE_SET payload s in
  let s2 := onMqttMessage TOPIC_VALVE_SET payload s1 in
  valveMode s1 = 3 - valveMode s
  /\ new_events s s1
     = [EvDigitalWrite VALVE_RELAY_PIN (valveMode s =? 1);
        EvPublish TOPIC_VALVE_STATE (WString.itoa (3 - valveMode s)) true]
  /\ valveMode s2 = valveMode s
  /\ count is_valve_relay_write (new_events s s2) = 2%nat.
Proof.
  intros Hmsg Hv s1 s2.
  assert (E1 : s1 = setValveMode (if valveMode s =? 1 then 2 else 1) s).
  { unfold s1. rewrite valve_command. cbv zeta. rewrite Hmsg. reflexivity. }
  assert (E2 : s2 = setValveMode (if valveMode s1 =? 1 then 2 else 1) s1).
  { unfold s2. rewrite valve_command. cbv zeta. rewrite Hmsg. reflexivity. }
  clearbody s1 s2. subst s2 s1.
  destruct s as [p v w t b l c n a tr]. cbn in Hv.
  destruct Hv as [-> | ->]; cbn; repeat split;
    unfold new_events; cbn; rewrite <- ?app_assoc, drop_app_length; reflexivity.
Qed.

Lemma valve_toggle_witness :
  let payload := "Toggle" in
  let s := power_on 0 ∅ [] in
  WString.toUpperCase (payloadToString payload) = "TOGGLE"
  /\ (valveMode s = 1 \/ valveMode s = 2)
  /\ (let s1 := onMqttMessage TOPIC_VALVE_SET payload s in
      let s2 := onMqttMessage TOPIC_VALVE_SET payload s1 in
      valveMode s1 = 3 - valveMode s
      /\ new_events s s1
         = [EvDigitalWrite VALVE_RELAY_PIN (valveMode s =? 1);
            EvPublish TOPIC_VALVE_STATE (WString.itoa (3 - valveMode s)) true]
      /\ valveMode s2 = valveMode s
      /\ count is_valve_relay_write (new_events s s2) = 2%nat).
Proof.
  intros payload s.
  assert (H1 : WString.toUpperCase (payloadToString payload) = "TOGGLE")
    by (vm_compute; reflexivity).
  assert (H2 : valveMode s = 1 \/ valveMode s = 2) by (left; reflexivity).
  split; [exact H1 |]. split; [exact H2 |].
  exact (valve_toggle payload s H1 H2).
Defined.

Lemma rtrim_nul (a junk : string) :
  WString.rtrim (a +:+ String "000" junk) = a +:+ String "000" (WString.rtrim junk).
Proof.
  induction a as [|c a IH].
  - rewrite !append_nil_l. cbn [WString.rtrim].
    destruct (WString.rtrim junk); reflexivity.
  - rewrite !append_cons. cbn [WString.rtrim]. rewrite IH.
    destruct a; reflexivity.
Qed.

(** X5: input the handler does not recognise is dropped without any
    effect.  The command text of a message is what the comparisons read:
    the bytes of the trimmed payload up to its first NUL byte, upper-cased.
    A message on a topic other than the four command topics, a pump
    command whose text is other than ON, 1, OFF, 0 and TOGGLE, and a valve
    command whose text is other than 1, 2 and TOGGLE all return the state
    unchanged - nothing is switched and nothing is published.  What
    follows a NUL byte is not read: ON, a NUL byte and any further bytes
    switch the pump on. *)
Theorem unknown_input_dropped (topic payload : string) (s : Device) :
  let msg := WString.c_str (WString.toUpperCase (payloadToString payload)) in
  (topic <> TOPIC_PUMP_SET -> topic <> TOPIC_VALVE_SET ->
   topic <> TOPIC_TIMER_SET -> topic <> TOPIC_WIFI_CLEAR ->
   onMqttMessage topic payload s = s)
  /\ (msg <> "ON" -> msg <> "1" -> msg <> "OFF" -> msg <> "0" -> msg <> "TOGGLE" ->
      onMqttMessage TOPIC_PUMP_SET payload s = s)
  /\ (msg <> "1" -> msg <> "2" -> msg <> "TOGGLE" ->
      onMqttMessage TOPIC_VALVE_SET payload s = s)
  /\ (forall junk : string,
        onMqttMessage TOPIC_PUMP_SET ("ON" +:+ String "000" junk) s
        = setPumpState true s).
Proof.
  intros msg. split; [| split; [| split]].
  - intros H1 H2 H3 H4. unfold onMqttMessage. cbv zeta.
    apply String.eqb_neq in H1, H2, H3, H4. now rewrite H1, H2, H3, H4.
  - intros H1 H2 H3 H4 H5. rewrite pump_command. cbv zeta.
    unfold WString.equals. fold msg.
    apply String.eqb_neq in H1, H2, H3, H4, H5. now rewrite H1, H2, H3, H4, H5.
  - intros H1 H2 H3. rewrite valve_command. cbv zeta.
    unfold WString.equals. fold msg.
    apply String.eqb_neq in H1, H2, H3. now rewrite H1, H2, H3.
  - intros junk. rewrite pump_command. cbv zeta.
    unfold payloadToString, WString.trim.
    change (WString.ltrim ("ON" +:+ String "000" junk))
      with ("ON" +:+ String "000" junk).
    rewrite rtrim_nul. reflexivity.
Qed.

Lemma unknown_input_dropped_witness :
  let s := startTimer 1 60 (power_on 0 ∅ []) in
  ("devices/esp32-pool-01/light/set" <> TOPIC_PUMP_SET
   /\ "devices/esp32-pool-01/light/set" <> TOPIC_VALVE_SET
   /\ "devices/esp32-pool-01/light/set" <> TOPIC_TIMER_SET
   /\ "devices/esp32-pool-01/light/set" <> TOPIC_WIFI_CLEAR
   /\ onMqttMessage "devices/esp32-pool-01/light/set" "ON" s = s)
  /\ (let msg := WString.c_str
                   (WString.toUpperCase
                      (payloadToString ("start" +:+ String "000" "on"))) in
      (msg <> "ON" /\ msg <> "1" /\ msg <> "OFF" /\ msg <> "0" /\ msg <> "TOGGLE")
      /\ onMqttMessage TOPIC_PUMP_SET ("start" +:+ String "000" "on") s = s)
  /\ (let msg := WString.c_str (WString.toUpperCase (payloadToString "3")) in
      (msg <> "1" /\ msg <> "2" /\ msg <> "TOGGLE")
      /\ onMqttMessage TOPIC_VALVE_SET "3" s = s).
Proof.
  intros s. split; [| split].
  - assert (H1 : "devices/esp32-pool-01/light/set" <> TOPIC_PUMP_SET) by discriminate.
    assert (H2 : "devices/esp32-pool-01/light/set" <> TOPIC_VALVE_SET) by discriminate.
    assert (H3 : "devices/esp32-pool-01/light/set" <> TOPIC_TIMER_SET) by discriminate.
    assert (H4 : "devices/esp32-pool-01/light/set" <> TOPIC_WIFI_CLEAR) by discriminate.
    repeat (split; [assumption |]).
    exact (proj1 (unknown_input_dropped _ "ON" s) H1 H2 H3 H4).
  - intros msg.
    assert (H1 : msg <> "ON") by (vm_compute; discriminate).
    assert (H2 : msg <> "1") by (vm_compute; discriminate).
    assert (H3 : msg <> "OFF") by (vm_compute; discriminate).
    assert (H4 : msg <> "0") by (vm_compute; discriminate).
    assert (H5 : msg <> "TOGGLE") by (vm_compute; discriminate).
    split; [repeat split; assumption |].
    exact (proj1 (proj2 (unknown_input_dropped TOPIC_PUMP_SET
                           ("start" +:+ String "000" "on") s))
                 H1 H2 H3 H4 H5).
  - intros msg.
    assert (H1 : msg <> "1") by (vm_compute; discriminate).
    assert (H2 : msg <> "2") by (vm_compute; discriminate).
    assert (H3 : msg <> "TOGGLE") by (vm_compute; discriminate).
    split; [repeat split; assumption |].
    exact (proj1 (proj2 (proj2 (unknown_input_dropped TOPIC_VALVE_SET "3" s)))
                 H1 H2 H3).
Defined.

Lemma setValveMode_frame (m : Z) (s : Device) :
  timer (setValveMode m s) = timer s
  /\ pumpState (setValveMode m s) = pumpState s
  /\ nvs (setValveMode m s) = nvs s
  /\ ble (setValveMode m s) = ble s.
Proof.
  unfold setValveMode, setValveRelay.
  destruct (negb (m =? 1) && negb (m =? 2)); auto.
  destruct (valveMode s =? m); cbn; auto.
Qed.

(** X6: pump and valve commands act on the equipment only.  Whatever the
    payload, a message on the pump topic leaves the timer, the valve and
    the stored and pending credentials as they were, and a message on the
    valve topic leaves the timer, the pump and the credentials as they
    were: switching the pump off by command does not stop a running timer,
    which goes on counting down. *)
Theorem equipment_commands_frame (payload : string) (s : Device) :
  (let s' := onMqttMessage TOPIC_PUMP_SET payload s in
   timer s' = timer s /\ valveMode s' = valveMode s
   /\ nvs s' = nvs s /\ ble s' = ble s)
  /\ (let s' := onMqttMessage TOPIC_VALVE_SET payload s in
      timer s' = timer s /\ pumpState s' = pumpState s
      /\ nvs s' = nvs s /\ ble s' = ble s).
Proof.
  split; cbv zeta.
  - rewrite pump_command. cbv zeta.
    repeat (destruct (_ || _) || destruct (WString.equals _ _));
      repeat split; reflexivity.
  - rewrite valve_command. cbv zeta.
    repeat (destruct (WString.equals _ _)); try (repeat split; reflexivity);
      apply setValveMode_frame.
Qed.

(** ** More on stored credentials *)

(** X7: saving overwrites: after two saves the store holds exactly what it
    would hold after the second alone, so loading returns the pair saved
    last. *)
Theorem save_overwrites (ssid1 password1 ssid2 password2 : string) (s : Device) :
  nvs (saveWiFiCredentials ssid2 password2 (saveWiFiCredentials ssid1 password1 s))
  = nvs (saveWiFiCredentials ssid2 password2 s)
  /\ loadWiFiCredentials
       (saveWiFiCredentials ssid2 password2 (saveWiFiCredentials ssid1 password1 s))
     = loadWiFiCredentials (saveWiFiCredentials ssid2 password2 s).
Proof.
  assert (N : nvs (saveWiFiCredentials ssid2 password2
                     (saveWiFiCredentials ssid1 password1 s))
              = nvs (saveWiFiCredentials ssid2 password2 s)).
  { cbn. apply map_eq. intros k.
    destruct (decide (k = "password")) as [-> | Hp];
      [now rewrite !lookup_insert_eq |].
    destruct (decide (k = "ssid")) as [-> | Hs].
    - rewrite !(lookup_insert_ne _ "password" "ssid") by discriminate.
      now rewrite !lookup_insert_eq.
    - now rewrite !lookup_insert_ne by congruence. }
  split; [exact N | now apply load_same_nvs].
Qed.

(** X8: what is loaded depends on the two keys only.  Without an "ssid"
    key nothing is loaded, whatever else is stored; with a non-empty
    identifier but no "password" key the pair is loaded with an empty
    secret; and writing any other key does not change what is loaded. *)
Theorem load_reads_two_keys (s : Device) :
  (nvs s !! "ssid" = None -> loadWiFiCredentials s = None)
  /\ (forall x, nvs s !! "ssid" = Some x -> x <> EmptyString ->
                nvs s !! "password" = None ->
                loadWiFiCredentials s = Some (WString.take 32 x, EmptyString))
  /\ (forall key value, key <> "ssid" -> key <> "password" ->
                        loadWiFiCredentials (putString key value s)
                        = loadWiFiCredentials s).
Proof.
  unfold loadWiFiCredentials, getString. split; [| split].
  - intros ->. reflexivity.
  - intros x -> Hx ->. cbn [default]. rewrite len_zero. unfold id.
    apply String.eqb_neq in Hx. rewrite Hx. reflexivity.
  - intros key value H1 H2. cbn [putString nvs emit set_nvs set_trace].
    now rewrite !lookup_insert_ne by congruence.
Qed.

Lemma load_reads_two_keys_witness :
  (let s := putString "password" "hunter22" (power_on 0 ∅ []) in
   nvs s !! "ssid" = None /\ loadWiFiCredentials s = None)
  /\ (let s := putString "ssid" "PoolHouse" (power_on 0 ∅ []) in
      (nvs s !! "ssid" = Some "PoolHouse" /\ "PoolHouse" <> EmptyString
       /\ nvs s !! "password" = None)
      /\ loadWiFiCredentials s = Some (WString.take 32 "PoolHouse", EmptyString))
  /\ (let s := saveWiFiCredentials "PoolHouse" "hunter22" (power_on 0 ∅ []) in
      ("boot_count" <> "ssid" /\ "boot_count" <> "password")
      /\ loadWiFiCredentials (putString "boot_count" "7" s) = loadWiFiCredentials s).
Proof.
  split; [| split]; intros s.
  - assert (H : nvs s !! "ssid" = None) by (vm_compute; reflexivity).
    split; [exact H | exact (proj1 (load_reads_two_keys s) H)].
  - assert (H1 : nvs s !! "ssid" = Some "PoolHouse") by (vm_compute; reflexivity).
    assert (H2 : "PoolHouse" <> EmptyString) by discriminate.
    assert (H3 : nvs s !! "password" = None) by (vm_compute; reflexivity).
    split; [repeat split; assumption |].
    exact (proj1 (proj2 (load_reads_two_keys s)) "PoolHouse" H1 H2 H3).
  - assert (H1 : "boot_count" <> "ssid") by discriminate.
    assert (H2 : "boot_count" <> "password") by discriminate.
    split; [split; assumption |].
    exact (proj2 (proj2 (load_reads_two_keys s)) "boot_count" "7" H1 H2).
Defined.

(** ** How long a connection attempt blocks *)

Lemma delay_total_app (a b : list Event) :
  delay_total (a ++ b) = delay_total a + delay_total b.
Proof. induction a as [|e a IH]; cbn; [reflexivity |]. unfold delay_total in *. cbn. lia. Qed.

(** What the polling loop appends, [j] delays before its timeout. *)
Lemma wait_connected_delay (fuel j : nat) (start : Z) (s : Device) :
  u32_sub (millis s) start = WIFI_CONNECT_TIMEOUT - 500 * Z.of_nat j ->
  (j <= 30)%nat ->
  exists l, trace (wait_connected fuel start s) = trace s ++ l
            /\ delay_total l <= 500 * Z.of_nat j
            /\ count is_wifi_begin l = 0%nat.
Proof.
  revert j s; induction fuel as [|f IH]; intros j s He Hj; cbn [wait_connected].
  - exists []. rewrite app_nil_r. cbn. repeat split; auto; lia.
  - pose proof (WiFi_status_clock s) as Hc.
    pose proof (wifi_frame_WiFi_status s) as [_ _ (l0 & T0 & _)].
    assert (T1 : trace (snd (WiFi_status s)) = trace s).
    { unfold WiFi_status. now destruct (wifi_status s). }
    destruct (WiFi_status s) as [up s1]; cbn in Hc, T1.
    unfold millis in *. rewrite Hc, He.
    destruct (negb up && _) eqn:Econd.
    + apply andb_prop in Econd as [_ Hlt]. apply Z.ltb_lt in Hlt.
      destruct j as [|j]; [unfold WIFI_CONNECT_TIMEOUT in Hlt; lia |].
      destruct (IH j (delay 500 s1)) as (l & T & D & C); [| lia |].
      { cbn [delay emit set_trace set_clock clock]. rewrite u32_sub_add, Hc, He.
        unfold to_u32, WIFI_CONNECT_TIMEOUT, U32_MOD. rewrite Z.mod_small; lia. }
      exists (EvDelay 500 :: l). rewrite T. cbn [delay emit set_trace trace set_clock].
      rewrite T1, <- app_assoc. repeat split; auto.
      change (delay_total (EvDelay 500 :: l)) with (500 + delay_total l). lia.
    + exists []. rewrite app_nil_r, T1. cbn. repeat split; auto; lia.
Qed.

Lemma connect_attempts_delay (n : nat) (attempt : Z) (ssid password : string)
    (s : Device) :
  exists l,
    trace (snd (connect_attempts n attempt ssid password s)) = trace s ++ l
    /\ delay_total l + (if attempt >? 1 then 0 else if (n =? 0)%nat then 0 else 5000)
       <= 20000 * Z.of_nat n
    /\ (count is_wifi_begin l <= n)%nat
    /\ ((0 < n)%nat -> (0 < count is_wifi_begin l)%nat).
Proof.
  revert attempt s; induction n as [|n IH]; intros attempt s; cbn [connect_attempts].
  - exists []. rewrite app_nil_r. cbn. destruct (attempt >? 1); repeat split; auto; lia.
  - set (s1 := if attempt >? 1 then delay WIFI_RETRY_DELAY s else s).
    set (s2 := emit (EvWiFiBegin ssid password) (emit EvWiFiModeSta s1)).
    assert (T2 : trace s2
                 = trace s ++ (if attempt >? 1 then [EvDelay WIFI_RETRY_DELAY] else [])
                     ++ [EvWiFiModeSta; EvWiFiBegin ssid password]).
    { unfold s2, s1. destruct (attempt >? 1); cbn; rewrite <- ?app_assoc; reflexivity. }
    destruct (wait_connected_delay WAIT_FUEL 30 (millis s2) s2) as (lw & Tw & Dw & Cw);
      [rewrite u32_sub_diag; reflexivity | lia |].
    assert (T3 : trace (snd (WiFi_status (wait_connected WAIT_FUEL (millis s2) s2)))
                 = trace (wait_connected WAIT_FUEL (millis s2) s2)).
    { unfold WiFi_status. now destruct (wifi_status _). }
    destruct (WiFi_status (wait_connected WAIT_FUEL (millis s2) s2)) as [up s3].
    cbn [snd] in T3.
    assert (T : trace s3
                = trace s ++ (if attempt >? 1 then [EvDelay WIFI_RETRY_DELAY] else [])
                    ++ [EvWiFiModeSta; EvWiFiBegin ssid password] ++ lw).
    { rewrite T3, Tw, T2, <- !app_assoc. reflexivity. }
    assert (D : delay_total ((if attempt >? 1 then [EvDelay WIFI_RETRY_DELAY] else [])
                             ++ [EvWiFiModeSta; EvWiFiBegin ssid password] ++ lw)
                + (if attempt >? 1 then 0 else 5000) <= 20000).
    { rewrite !delay_total_app.
      destruct (attempt >? 1); cbn; unfold WIFI_RETRY_DELAY; lia. }
    assert (C : count is_wifi_begin
                  ((if attempt >? 1 then [EvDelay WIFI_RETRY_DELAY] else [])
                   ++ [EvWiFiModeSta; EvWiFiBegin ssid password] ++ lw) = 1%nat).
    { rewrite !count_app, Cw. destruct (attempt >? 1); reflexivity. }
    destruct up.
    + eexists. split; [exact T |]. cbn [Nat.eqb]. rewrite C.
      repeat split; try lia.
    + destruct (IH (attempt + 1) s3) as (l & Tl & Dl & Cl & Pl).
      eexists. split; [rewrite Tl, T, <- !app_assoc; reflexivity |].
      rewrite !app_assoc, delay_total_app, count_app, <- !app_assoc, C.
      cbn [Nat.eqb].
      assert (0 <= if attempt + 1 >? 1 then 0 else if (n =? 0)%nat then 0 else 5000)
        by (destruct (attempt + 1 >? 1), (n =? 0)%nat; lia).
      repeat split; try lia.
Qed.

(** X9: a call of [connectWiFi] blocks for a bounded time.  With
    [retryAttempts] at least 1 it calls [WiFi.begin] at least once and at
    most [retryAttempts] times, and the delays it waits add up to at most
    15 s per try plus 5 s between tries (55 s for the default of 3); with
    [retryAttempts] below 1 it returns [false] at once, without any call. *)
Theorem connectWiFi_bounded (ssid password : string) (retryAttempts : Z) (s : Device) :
  (1 <= retryAttempts ->
   let l := new_events s (snd (connectWiFi ssid password retryAttempts s)) in
   (1 <= count is_wifi_begin l)%nat
   /\ Z.of_nat (count is_wifi_begin l) <= retryAttempts
   /\ delay_total l
      <= WIFI_CONNECT_TIMEOUT * retryAttempts + WIFI_RETRY_DELAY * (retryAttempts - 1))
  /\ (retryAttempts < 1 -> connectWiFi ssid password retryAttempts s = (false, s)).
Proof.
  split.
  - intros Hr l.
    destruct (connect_attempts_delay (Z.to_nat retryAttempts) 1 ssid password s)
      as (l' & T & D & C & P).
    assert (E : l = l') by (apply new_events_app; exact T).
    rewrite E. change (1 >? 1) with false in D.
    replace (Z.to_nat retryAttempts =? 0)%nat with false in D
      by (symmetry; apply Nat.eqb_neq; lia).
    rewrite Z2Nat.id in D by lia.
    unfold WIFI_CONNECT_TIMEOUT, WIFI_RETRY_DELAY. repeat split; lia.
  - intros Hr. unfold connectWiFi.
    replace (Z.to_nat retryAttempts) with O by lia. reflexivity.
Qed.

Lemma connectWiFi_bounded_witness :
  (1 <= WIFI_RETRY_ATTEMPTS
   /\ (1 <= count is_wifi_begin
              (new_events (power_on 0 ∅ [])
                 (snd (connectWiFi "PoolHouse" "hunter22" WIFI_RETRY_ATTEMPTS
                         (power_on 0 ∅ [])))))%nat
   /\ delay_total
        (new_events (power_on 0 ∅ [])
           (snd (connectWiFi "PoolHouse" "hunter22" WIFI_RETRY_ATTEMPTS
                   (power_on 0 ∅ []))))
      <= 55000)
  /\ (0 < 1
      /\ connectWiFi "PoolHouse" "hunter22" 0 (power_on 0 ∅ [])
         = (false, power_on 0 ∅ [])).
Proof.
  assert (H : 1 <= WIFI_RETRY_ATTEMPTS) by (vm_compute; discriminate).
  assert (H0 : 0 < 1) by reflexivity.
  pose proof (connectWiFi_bounded "PoolHouse" "hunter22" WIFI_RETRY_ATTEMPTS
                (power_on 0 ∅ [])) as [P _].
  pose proof (connectWiFi_bounded "PoolHouse" "hunter22" 0 (power_on 0 ∅ []))
    as [_ Q].
  specialize (P H) as (P1 & _ & P3). specialize (Q H0).
  split; [split; [exact H | split; [exact P1 | exact P3]] | split; [exact H0 | exact Q]].
Defined.

(** ** What a connection attempt changes *)

Lemma connect_frame_refl ssid password s : connect_frame ssid password s s.
Proof. split; auto. exists []. now rewrite app_nil_r. Qed.

Lemma connect_frame_trans ssid password s1 s2 s3 :
  connect_frame ssid password s1 s2 -> connect_frame ssid password s2 s3 ->
  connect_frame ssid password s1 s3.
Proof.
  intros [P1 V1 T1 N1 B1 K1 (l1 & E1 & F1)] [P2 V2 T2 N2 B2 K2 (l2 & E2 & F2)].
  split; try congruence.
  exists (l1 ++ l2). rewrite E2, E1, app_assoc, forallb_app, F1, F2. auto.
Qed.

Lemma connect_frame_emit ssid password e s :
  is_connect_call ssid password e = true -> connect_frame ssid password s (emit e s).
Proof. intros H. split; auto. exists [e]. cbn. now rewrite H. Qed.

Lemma connect_frame_delay ssid password ms s :
  connect_frame ssid password s (delay ms s).
Proof. split; auto. exists [EvDelay ms]. auto. Qed.

Lemma connect_frame_WiFi_status ssid password s :
  connect_frame ssid password s (snd (WiFi_status s)).
Proof.
  unfold WiFi_status. destruct (wifi_status s); cbn; [apply connect_frame_refl |].
  split; auto. exists []. now rewrite app_nil_r.
Qed.

Lemma WiFi_status_provisioned s :
  wifiProvisioned (snd (WiFi_status s)) = wifiProvisioned s.
Proof. unfold WiFi_status. now destruct (wifi_status s). Qed.

Lemma connect_frame_wait ssid password fuel start s :
  connect_frame ssid password s (wait_connected fuel start s)
  /\ wifiProvisioned (wait_connected fuel start s) = wifiProvisioned s.
Proof.
  revert s; induction fuel as [|f IH]; intros s; cbn [wait_connected];
    [split; [apply connect_frame_refl | reflexivity] |].
  pose proof (connect_frame_WiFi_status ssid password s) as H1.
  pose proof (WiFi_status_provisioned s) as W1.
  destruct (WiFi_status s) as [up s1]; cbn [snd] in H1, W1.
  destruct (negb up && _); [| split; assumption].
  destruct (IH (delay 500 s1)) as [H2 W2]. split.
  - apply (connect_frame_trans _ _ _ _ _ H1).
    apply (connect_frame_trans _ _ _ _ _ (connect_frame_delay _ _ 500 s1)), H2.
  - rewrite W2. exact W1.
Qed.

Lemma connect_attempts_frame n attempt ssid password s :
  connect_frame ssid password s (snd (connect_attempts n attempt ssid password s))
  /\ wifiProvisioned (snd (connect_attempts n attempt ssid password s))
     = fst (connect_attempts n attempt ssid password s) || wifiProvisioned s.
Proof.
  revert attempt s; induction n as [|n IH]; intros attempt s; cbn [connect_attempts].
  - split; [apply connect_frame_refl | reflexivity].
  - set (s1 := if attempt >? 1 then delay WIFI_RETRY_DELAY s else s).
    set (s2 := emit (EvWiFiBegin ssid password) (emit EvWiFiModeSta s1)).
    assert (H1 : connect_frame ssid password s s1 /\ wifiProvisioned s1 = wifiProvisioned s).
    { unfold s1. destruct (attempt >? 1);
        [split; [apply connect_frame_delay | reflexivity]
        | split; [apply connect_frame_refl | reflexivity]]. }
    assert (H2 : connect_frame ssid password s1 s2).
    { apply (connect_frame_trans _ _ _ (emit EvWiFiModeSta s1));
        apply connect_frame_emit; cbn; [reflexivity |].
      now rewrite !String.eqb_refl. }
    destruct (connect_frame_wait ssid password WAIT_FUEL (millis s2) s2) as [H3 W3].
    pose proof (connect_frame_WiFi_status ssid password
                  (wait_connected WAIT_FUEL (millis s2) s2)) as H4.
    pose proof (WiFi_status_provisioned (wait_connected WAIT_FUEL (millis s2) s2)) as W4.
    destruct (WiFi_status (wait_connected WAIT_FUEL (millis s2) s2)) as [up s3].
    cbn [snd] in H4, W4.
    assert (H : connect_frame ssid password s s3).
    { apply (connect_frame_trans _ _ _ _ _ (proj1 H1)).
      apply (connect_frame_trans _ _ _ _ _ H2).
      apply (connect_frame_trans _ _ _ _ _ H3), H4. }
    assert (W : wifiProvisioned s3 = wifiProvisioned s).
    { rewrite W4, W3. exact (proj2 H1). }
    destruct up; cbn [fst snd].
    + split; [| reflexivity].
      destruct H as [P V T N B K L]. split; auto.
    + destruct (IH (attempt + 1) s3) as [H5 W5]. split.
      * apply (connect_frame_trans _ _ _ _ _ H), H5.
      * rewrite W5, W. reflexivity.
Qed.

(** X10: whatever its arguments and result, [connectWiFi] leaves the pump,
    the valve mode, the timer, the stored credentials and the provisioning
    state as they were; it only calls [delay], [WiFi.mode] and [WiFi.begin]
    with the identifier and secret it was given (no relay is written and
    nothing is published); and the device counts as provisioned afterwards
    exactly when the call returned [true] or it already did before. *)
Theorem connectWiFi_outcome (ssid password : string) (retryAttempts : Z) (s : Device) :
  let r := connectWiFi ssid password retryAttempts s in
  pumpState (snd r) = pumpState s
  /\ valveMode (snd r) = valveMode s
  /\ timer (snd r) = timer s
  /\ nvs (snd r) = nvs s
  /\ ble (snd r) = ble s
  /\ forallb (is_connect_call ssid password) (new_events s (snd r)) = true
  /\ wifiProvisioned (snd r) = fst r || wifiProvisioned s.
Proof.
  intros r.
  destruct (connect_attempts_frame (Z.to_nat retryAttempts) 1 ssid password s)
    as [[P V T N B K (l & E & F)] W].
  fold (connectWiFi ssid password retryAttempts s) in *. fold r in P, V, T, N, B, K, E, W.
  repeat split; auto.
  rewrite (new_events_app _ _ _ E). exact F.
Qed.

(** ** The two extremes of the driver *)

Lemma WiFi_status_silent s :
  forallb negb (wifi_status s) = true ->
  fst (WiFi_status s) = false
  /\ forallb negb (wifi_status (snd (WiFi_status s))) = true
  /\ trace (snd (WiFi_status s)) = trace s.
Proof.
  unfold WiFi_status. destruct (wifi_status s) as [|b r] eqn:E; cbn.
  - intros _. now rewrite E.
  - intros H. apply andb_prop in H as [Hb Hr]. destruct b; [discriminate |]. auto.
Qed.

Lemma wait_connected_silent (fuel j : nat) (start : Z) (s : Device) :
  u32_sub (millis s) start = WIFI_CONNECT_TIMEOUT - 500 * Z.of_nat j ->
  (j <= 30)%nat -> (j < fuel)%nat ->
  forallb negb (wifi_status s) = true ->
  trace (wait_connected fuel start s) = trace s ++ repeat (EvDelay 500) j
  /\ forallb negb (wifi_status (wait_connected fuel start s)) = true.
Proof.
  revert j s; induction fuel as [|f IH]; intros j s He Hj Hf Hs; [lia |].
  cbn [wait_connected].
  pose proof (WiFi_status_clock s) as Hc.
  destruct (WiFi_status_silent s Hs) as (U & S1 & T1).
  destruct (WiFi_status s) as [up s1]; cbn [fst snd] in Hc, U, S1, T1. subst up.
  unfold millis in *. rewrite Hc, He. cbn [negb andb].
  destruct j as [|j].
  - replace (WIFI_CONNECT_TIMEOUT - 500 * Z.of_nat 0 <? WIFI_CONNECT_TIMEOUT)
      with false by (symmetry; apply Z.ltb_ge; unfold WIFI_CONNECT_TIMEOUT; lia).
    cbn [repeat]. rewrite app_nil_r. auto.
  - replace (WIFI_CONNECT_TIMEOUT - 500 * Z.of_nat (S j) <? WIFI_CONNECT_TIMEOUT)
      with true by (symmetry; apply Z.ltb_lt; unfold WIFI_CONNECT_TIMEOUT; lia).
    destruct (IH j (delay 500 s1)) as [T S2]; try lia; [| exact S1 |].
    { cbn [delay emit set_trace set_clock clock]. rewrite u32_sub_add, Hc, He.
      unfold to_u32, WIFI_CONNECT_TIMEOUT, U32_MOD. rewrite Z.mod_small; lia. }
    split; [| exact S2].
    rewrite T. cbn [delay emit set_trace trace set_clock repeat].
    rewrite T1, <- app_assoc. reflexivity.
Qed.

Lemma wait_connected_up (f : nat) (start : Z) (s : Device) (r : list bool) :
  wifi_status s = true :: r ->
  wait_connected (S f) start s = set_wifi_status r s.
Proof. intros H. cbn [wait_connected]. unfold WiFi_status. rewrite H. reflexivity. Qed.

Lemma delay_total_repeat (ms : Z) (n : nat) :
  delay_total (repeat (EvDelay ms) n) = ms * Z.of_nat n.
Proof.
  induction n as [|n IH]; [cbn; lia |].
  change (repeat (EvDelay ms) (S n)) with ([EvDelay ms] ++ repeat (EvDelay ms) n).
  rewrite delay_total_app, IH. cbn. lia.
Qed.

Lemma count_begin_repeat (ms : Z) (n : nat) :
  count is_wifi_begin (repeat (EvDelay ms) n) = 0%nat.
Proof. induction n as [|n IH]; [reflexivity | exact IH]. Qed.

Lemma connect_attempts_silent n attempt ssid password s :
  1 <= attempt ->
  forallb negb (wifi_status s) = true ->
  fst (connect_attempts n attempt ssid password s) = false
  /\ exists l,
       trace (snd (connect_attempts n attempt ssid password s)) = trace s ++ l
       /\ delay_total l
          = (WIFI_CONNECT_TIMEOUT + WIFI_RETRY_DELAY) * Z.of_nat n
            - (if (attempt >? 1) || (n =? 0)%nat then 0 else WIFI_RETRY_DELAY)
       /\ count is_wifi_begin l = n.
Proof.
  revert attempt s; induction n as [|n IH]; intros attempt s Ha Hs;
    cbn [connect_attempts].
  - split; [reflexivity |]. exists []. rewrite app_nil_r, orb_true_r. auto.
  - set (s1 := if attempt >? 1 then delay WIFI_RETRY_DELAY s else s).
    set (s2 := emit (EvWiFiBegin ssid password) (emit EvWiFiModeSta s1)).
    assert (T2 : trace s2
                 = trace s ++ (if attempt >? 1 then [EvDelay WIFI_RETRY_DELAY] else [])
                     ++ [EvWiFiModeSta; EvWiFiBegin ssid password]).
    { unfold s2, s1. destruct (attempt >? 1); cbn; rewrite <- ?app_assoc; reflexivity. }
    assert (S2 : forallb negb (wifi_status s2) = true).
    { unfold s2, s1. destruct (attempt >? 1); exact Hs. }
    destruct (wait_connected_silent WAIT_FUEL 30 (millis s2) s2) as [Tw Sw];
      [rewrite u32_sub_diag; reflexivity | lia | unfold WAIT_FUEL; lia | exact S2 |].
    destruct (WiFi_status_silent _ Sw) as (U & S3 & T3).
    destruct (WiFi_status (wait_connected WAIT_FUEL (millis s2) s2)) as [up s3].
    cbn [fst snd] in U, S3, T3. subst up.
    destruct (IH (attempt + 1) s3 ltac:(lia) S3) as (F & l & Tl & Dl & Cl).
    split; [exact F |].
    eexists. split; [rewrite Tl, T3, Tw, T2, <- !app_assoc; reflexivity |].
    rewrite !delay_total_app, !count_app, delay_total_repeat, count_begin_repeat, Dl, Cl.
    split.
    + cbn [Nat.eqb]. rewrite orb_false_r.
      unfold WIFI_CONNECT_TIMEOUT, WIFI_RETRY_DELAY.
      replace (attempt + 1 >? 1) with true by (symmetry; apply Z.gtb_lt; lia).
      destruct (attempt >? 1) eqn:Ea; cbn [orb]; cbn; lia.
    + destruct (attempt >? 1); cbn; lia.
Qed.

(** X11: the two extremes of [connectWiFi].  When the driver never reports
    a connection, the call fails after exactly [retryAttempts] calls of
    [WiFi.begin] and blocks for the full 15 s of every try plus the 5 s
    between tries (55 s for the default of 3 tries), so the bound of X9 is
    attained.  When the driver reports a connection at once, the call
    returns [true] after one [WiFi.mode] and one [WiFi.begin], without
    waiting, and marks the device as provisioned. *)
Theorem connectWiFi_extremes (ssid password : string) (retryAttempts : Z) (s : Device) :
  1 <= retryAttempts ->
  (forallb negb (wifi_status s) = true ->
   let r := connectWiFi ssid password retryAttempts s in
   fst r = false
   /\ Z.of_nat (count is_wifi_begin (new_events s (snd r))) = retryAttempts
   /\ delay_total (new_events s (snd r))
      = WIFI_CONNECT_TIMEOUT * retryAttempts + WIFI_RETRY_DELAY * (retryAttempts - 1))
  /\ (forall rest, wifi_status s = true :: true :: rest ->
      let r := connectWiFi ssid password retryAttempts s in
      fst r = true
      /\ new_events s (snd r) = [EvWiFiModeSta; EvWiFiBegin ssid password]
      /\ wifiProvisioned (snd r) = true).
Proof.
  intros Hr. split.
  - intros Hs r.
    destruct (connect_attempts_silent (Z.to_nat retryAttempts) 1 ssid password s
                ltac:(lia) Hs) as (F & l & T & D & C).
    fold (connectWiFi ssid password retryAttempts s) in *. fold r in F, T.
    rewrite (new_events_app _ _ _ T), D, C.
    change (1 >? 1) with false.
    replace (Z.to_nat retryAttempts =? 0)%nat with false
      by (symmetry; apply Nat.eqb_neq; lia).
    cbn [orb]. rewrite Z2Nat.id by lia. repeat split; auto; lia.
  - intros rest Hw r. unfold r, connectWiFi.
    destruct (Z.to_nat retryAttempts) as [|n] eqn:En; [lia |].
    cbn [connect_attempts]. change (1 >? 1) with false. cbv iota.
    unfold WAIT_FUEL.
    rewrite (wait_connected_up 30 _ _ (true :: rest)) by exact Hw.
    unfold WiFi_status. cbn [set_wifi_status wifi_status fst snd].
    repeat split.
    apply new_events_app. cbn. rewrite <- app_assoc. reflexivity.
Qed.

Lemma connectWiFi_extremes_witness :
  1 <= WIFI_RETRY_ATTEMPTS
  /\ (forallb negb (wifi_status (power_on 0 ∅ [false; false])) = true
      /\ fst (connectWiFi "PoolHouse" "hunter22" WIFI_RETRY_ATTEMPTS
                (power_on 0 ∅ [false; false])) = false
      /\ delay_total
           (new_events (power_on 0 ∅ [false; false])
              (snd (connectWiFi "PoolHouse" "hunter22" WIFI_RETRY_ATTEMPTS
                      (power_on 0 ∅ [false; false])))) = 55000)
  /\ (wifi_status (power_on 0 ∅ [true; true; false]) = [true; true; false]
      /\ fst (connectWiFi "PoolHouse" "hunter22" WIFI_RETRY_ATTEMPTS
                (power_on 0 ∅ [true; true; false])) = true).
Proof.
  assert (H : 1 <= WIFI_RETRY_ATTEMPTS) by (vm_compute; discriminate).
  assert (H1 : forallb negb (wifi_status (power_on 0 ∅ [false; false])) = true)
    by reflexivity.
  assert (H2 : wifi_status (power_on 0 ∅ [true; true; false]) = [true; true; false])
    by reflexivity.
  destruct (connectWiFi_extremes "PoolHouse" "hunter22" WIFI_RETRY_ATTEMPTS
              (power_on 0 ∅ [false; false]) H) as [P _].
  destruct (connectWiFi_extremes "PoolHouse" "hunter22" WIFI_RETRY_ATTEMPTS
              (power_on 0 ∅ [true; true; false]) H) as [_ Q].
  destruct (P H1) as (P1 & _ & P3). destruct (Q [false] H2) as (Q1 & _).
  split; [exact H |].
  split; [split; [exact H1 | split; [exact P1 | exact P3]] | split; [exact H2 | exact Q1]].
Defined.

(** ** The provisioning pass of the loop *)

Lemma take_take (n : nat) (x : string) :
  WString.take n (WString.take n x) = WString.take n x.
Proof. apply take_all. rewrite take_length. lia. Qed.

Lemma connect_call_quiet ssid password (l : list Event) :
  forallb (is_connect_call ssid password) l = true -> forallb is_quiet l = true.
Proof.
  induction l as [|e l IH]; cbn; [reflexivity |].
  intros H. apply andb_prop in H as [He Hl]. rewrite (IH Hl), andb_true_r.
  destruct e; try discriminate; reflexivity.
Qed.

(** X12: a provisioning pass that finds complete pending credentials and
    connects with them stores them, so that [loadWiFiCredentials] returns
    exactly the pair that was used to connect; it leaves BLE provisioning
    stopped and the pending fields empty, marks the device as provisioned,
    and has called, in this order: [delay(10)], the BLE shutdown, the
    connection attempt, the two [putString] calls and the bring-up of the
    network services. *)
Theorem loop_ble_success (s : Device) (ssid password : string) :
  isBLEProvisioningActive s = true ->
  hasNewWiFiCredentials s = true ->
  getBLEWiFiSSID s = Some ssid ->
  getBLEWiFiPassword s = Some password ->
  u32_sub (millis (delay 10 s)) (lastBLECheck s) > BLE_CHECK_INTERVAL ->
  fst (connectWiFi ssid password WIFI_RETRY_ATTEMPTS
         (stopBLEProvisioning
            (set_lastBLECheck (millis (delay 10 s)) (delay 10 s)))) = true ->
  let s' := loop_ble s in
  loadWiFiCredentials s' = Some (ssid, password)
  /\ isBLEProvisioningActive s' = false
  /\ hasNewWiFiCredentials s' = false
  /\ getBLEWiFiSSID s' = None
  /\ getBLEWiFiPassword s' = None
  /\ wifiProvisioned s' = true
  /\ exists l,
       new_events s s'
       = [EvDelay 10; EvBleDeinit] ++ l
         ++ [EvNvsPut "ssid" ssid; EvNvsPut "password" password; EvBringUp]
       /\ forallb (is_connect_call ssid password) l = true
       /\ (1 <= count is_wifi_begin l <= 3)%nat.
Proof.
  intros Hact Hnew Hs Hp Hint F s'.
  assert (Es : ssid = WString.take 32 (receivedSSID (ble s))
               /\ String.eqb ssid EmptyString = false).
  { unfold getBLEWiFiSSID, strncpy_str in Hs. rewrite len_zero in Hs.
    destruct (receivedSSID (ble s)) as [|c r]; [discriminate |].
    cbn in Hs. injection Hs as <-. split; reflexivity. }
  assert (Ep : password = WString.take 63 (receivedPassword (ble s))).
  { unfold getBLEWiFiPassword, strncpy_str in Hp.
    destruct (WString.len _ =? 0); [discriminate |]. now injection Hp as <-. }
  unfold s', loop_ble. cbv zeta.
  change (lastBLECheck (delay 10 s)) with (lastBLECheck s).
  apply Z.gt_lt, Z.ltb_lt in Hint. rewrite Z.gtb_ltb, Hint.
  replace (hasNewWiFiCredentials _) with true.
  replace (getBLEWiFiSSID _) with (Some ssid).
  replace (getBLEWiFiPassword _) with (Some password).
  remember (stopBLEProvisioning _) as s1 eqn:Es1.
  destruct (connect_attempts_frame (Z.to_nat WIFI_RETRY_ATTEMPTS) 1 ssid password s1)
    as [[_ _ _ _ B _ (l & T & L)] W].
  destruct (connect_attempts_delay (Z.to_nat WIFI_RETRY_ATTEMPTS) 1 ssid password s1)
    as (l' & T' & _ & C1 & C2).
  change (connect_attempts (Z.to_nat WIFI_RETRY_ATTEMPTS) 1 ssid password s1)
    with (connectWiFi ssid password WIFI_RETRY_ATTEMPTS s1) in *.
  remember (connectWiFi ssid password WIFI_RETRY_ATTEMPTS s1) as r eqn:Er.
  destruct r as [ok s2]. clear Er.
  cbn [fst snd] in F, B, T, T', W, C1, C2; subst ok.
  assert (El : l' = l) by (rewrite T in T'; now apply app_inv_head in T').
  subst l'.
  assert (T1 : trace s1 = trace s ++ [EvDelay 10; EvBleDeinit]).
  { rewrite Es1. unfold stopBLEProvisioning, isBLEProvisioningActive in *.
    cbn. rewrite Hact. cbn. now rewrite <- app_assoc. }
  assert (B1 : bleActive (ble s1) = false).
  { rewrite Es1. unfold stopBLEProvisioning, isBLEProvisioningActive in *.
    cbn. rewrite Hact. reflexivity. }
  split; [| repeat split].
  - rewrite (load_same_nvs (saveWiFiCredentials ssid password s2)) by reflexivity.
    rewrite load_after_save. destruct Es as [E1 ->].
    rewrite E1 at 1. rewrite Ep at 1. rewrite !take_take, <- E1, <- Ep. reflexivity.
  - unfold isBLEProvisioningActive. cbn. rewrite B. exact B1.
  - cbn. exact W.
  - exists l. split; [| split; [exact L |]].
    + apply new_events_app. cbn. rewrite T, T1, <- !app_assoc. reflexivity.
    + change (Z.to_nat WIFI_RETRY_ATTEMPTS) with 3%nat in C1, C2. lia.
Qed.

Lemma loop_ble_success_witness :
  (isBLEProvisioningActive (set_wifi_status [true; true] pending_example) = true
   /\ hasNewWiFiCredentials (set_wifi_status [true; true] pending_example) = true
   /\ getBLEWiFiSSID (set_wifi_status [true; true] pending_example) = Some "PoolHouse"
   /\ getBLEWiFiPassword (set_wifi_status [true; true] pending_example)
      = Some "hunter22"
   /\ u32_sub (millis (delay 10 (set_wifi_status [true; true] pending_example)))
              (lastBLECheck (set_wifi_status [true; true] pending_example))
      > BLE_CHECK_INTERVAL
   /\ fst (connectWiFi "PoolHouse" "hunter22" WIFI_RETRY_ATTEMPTS
             (stopBLEProvisioning
                (set_lastBLECheck
                   (millis (delay 10 (set_wifi_status [true; true] pending_example)))
                   (delay 10 (set_wifi_status [true; true] pending_example))))) = true)
  /\ loadWiFiCredentials (loop_ble (set_wifi_status [true; true] pending_example))
     = Some ("PoolHouse", "hunter22").
Proof.
  assert (H1 : isBLEProvisioningActive (set_wifi_status [true; true] pending_example)
               = true) by reflexivity.
  assert (H2 : hasNewWiFiCredentials (set_wifi_status [true; true] pending_example)
               = true) by reflexivity.
  assert (H3 : getBLEWiFiSSID (set_wifi_status [true; true] pending_example)
               = Some "PoolHouse") by reflexivity.
  assert (H4 : getBLEWiFiPassword (set_wifi_status [true; true] pending_example)
               = Some "hunter22") by reflexivity.
  assert (H5 : u32_sub (millis (delay 10 (set_wifi_status [true; true] pending_example)))
                 (lastBLECheck (set_wifi_status [true; true] pending_example))
               > BLE_CHECK_INTERVAL) by (vm_compute; reflexivity).
  assert (H6 : fst (connectWiFi "PoolHouse" "hunter22" WIFI_RETRY_ATTEMPTS
                      (stopBLEProvisioning
                         (set_lastBLECheck
                            (millis (delay 10 (set_wifi_status [true; true]
                                                 pending_example)))
                            (delay 10 (set_wifi_status [true; true] pending_example)))))
               = true) by (vm_compute; reflexivity).
  split; [repeat split; assumption |].
  exact (proj1 (loop_ble_success (set_wifi_status [true; true] pending_example)
                  "PoolHouse" "hunter22" H1 H2 H3 H4 H5 H6)).
Defined.

Lemma stopBLEProvisioning_trace (s : Device) :
  exists l, trace (stopBLEProvisioning s) = trace s ++ l /\ forallb is_quiet l = true.
Proof.
  unfold stopBLEProvisioning. destruct (negb _).
  - exists []. now rewrite app_nil_r.
  - exists [EvBleDeinit]. auto.
Qed.

Lemma wait_connected_keeps_silent (fuel : nat) (start : Z) (s : Device) :
  forallb negb (wifi_status s) = true ->
  forallb negb (wifi_status (wait_connected fuel start s)) = true.
Proof.
  revert s; induction fuel as [|f IH]; intros s Hs; cbn [wait_connected]; [exact Hs |].
  destruct (WiFi_status_silent s Hs) as (_ & S1 & _).
  destruct (WiFi_status s) as [up s1]; cbn [snd] in S1.
  destruct (negb up && _); [apply IH; exact S1 | exact S1].
Qed.

Lemma connect_attempts_keeps_silent n attempt ssid password s :
  forallb negb (wifi_status s) = true ->
  forallb negb (wifi_status (snd (connect_attempts n attempt ssid password s))) = true.
Proof.
  revert attempt s; induction n as [|n IH]; intros attempt s Hs; cbn [connect_attempts];
    [exact Hs |].
  set (s1 := if attempt >? 1 then delay WIFI_RETRY_DELAY s else s).
  set (s2 := emit (EvWiFiBegin ssid password) (emit EvWiFiModeSta s1)).
  assert (S2 : forallb negb (wifi_status s2) = true).
  { unfold s2, s1. destruct (attempt >? 1); exact Hs. }
  pose proof (wait_connected_keeps_silent WAIT_FUEL (millis s2) s2 S2) as Sw.
  destruct (WiFi_status_silent _ Sw) as (_ & S3 & _).
  destruct (WiFi_status (wait_connected WAIT_FUEL (millis s2) s2)) as [up s3].
  cbn [snd] in S3. destruct up; [exact S3 | apply IH; exact S3].
Qed.

(** The provisioning pass in one statement: what it leaves alone, what it
    may append - calls that reach neither the equipment nor the dashboard,
    and the bring-up of the network services as the last call of a pass
    that has connected - and the only change it can make to the stored
    values. *)
Lemma loop_ble_cases (s : Device) :
  pumpState (loop_ble s) = pumpState s
  /\ valveMode (loop_ble s) = valveMode s
  /\ timer (loop_ble s) = timer s
  /\ clearWiFiRequested (ble (loop_ble s)) = clearWiFiRequested (ble s)
  /\ (exists l,
        forallb is_quiet l = true
        /\ (trace (loop_ble s) = trace s ++ l
            \/ (trace (loop_ble s) = trace s ++ l ++ [EvBringUp]
                /\ wifiProvisioned (loop_ble s) = true
                /\ isBLEProvisioningActive (loop_ble s) = false
                /\ forallb negb (wifi_status s) = false)))
  /\ (nvs (loop_ble s) = nvs s
      \/ exists ssid password,
           ssid <> EmptyString
           /\ nvs (loop_ble s) = <["password" := password]> (<["ssid" := ssid]> (nvs s)))
  /\ (forallb negb (wifi_status s) = true ->
      forallb negb (wifi_status (loop_ble s)) = true).
Proof.
  assert (D : exists l,
             forallb is_quiet l = true
             /\ (trace (delay 10 s) = trace s ++ l
                 \/ (trace (delay 10 s) = trace s ++ l ++ [EvBringUp]
                     /\ wifiProvisioned (delay 10 s) = true
                     /\ isBLEProvisioningActive (delay 10 s) = false
                     /\ forallb negb (wifi_status s) = false)))
    by (exists [EvDelay 10]; auto).
  unfold loop_ble. cbv zeta.
  destruct (_ >? _); [| repeat split; auto].
  destruct (hasNewWiFiCredentials _); [| repeat split; auto].
  destruct (getBLEWiFiSSID _) as [ssid|] eqn:Essid; [| repeat split; auto].
  destruct (getBLEWiFiPassword _) as [password|]; [| repeat split; auto].
  assert (Hne : ssid <> EmptyString).
  { unfold getBLEWiFiSSID, strncpy_str in Essid. rewrite len_zero in Essid.
    destruct (receivedSSID _) as [|c r]; [discriminate |].
    cbn in Essid. injection Essid as <-. discriminate. }
  clear Essid.
  remember (stopBLEProvisioning _) as s1 eqn:Es1.
  assert (F1 : pumpState s1 = pumpState s /\ valveMode s1 = valveMode s
               /\ timer s1 = timer s /\ nvs s1 = nvs s
               /\ clearWiFiRequested (ble s1) = clearWiFiRequested (ble s)
               /\ wifi_status s1 = wifi_status s
               /\ bleActive (ble s1) = false).
  { rewrite Es1. unfold stopBLEProvisioning.
    destruct (negb _) eqn:Ea; repeat split.
    apply negb_true_iff in Ea. exact Ea. }
  destruct F1 as (P1 & V1 & T1 & N1 & C1 & W1 & A1).
  assert (E1 : exists l, trace s1 = trace s ++ l /\ forallb is_quiet l = true).
  { destruct (stopBLEProvisioning_trace
                (set_lastBLECheck (millis (delay 10 s)) (delay 10 s))) as (l & E & L).
    rewrite <- Es1 in E. exists (EvDelay 10 :: l). split; [| exact L].
    rewrite E. cbn. now rewrite <- app_assoc. }
  destruct E1 as (l1 & E1 & L1).
  destruct (connect_attempts_frame (Z.to_nat WIFI_RETRY_ATTEMPTS) 1 ssid password s1)
    as [[P2 V2 T2 N2 B2 _ (l2 & E2 & L2)] W2].
  pose proof (connect_attempts_keeps_silent (Z.to_nat WIFI_RETRY_ATTEMPTS) 1
                ssid password s1) as S2.
  pose proof (connect_attempts_silent (Z.to_nat WIFI_RETRY_ATTEMPTS) 1
                ssid password s1 ltac:(lia)) as F2.
  change (connect_attempts (Z.to_nat WIFI_RETRY_ATTEMPTS) 1 ssid password s1)
    with (connectWiFi ssid password WIFI_RETRY_ATTEMPTS s1) in *.
  remember (connectWiFi ssid password WIFI_RETRY_ATTEMPTS s1) as r eqn:Er.
  destruct r as [ok s2]. clear Er. cbn [fst snd] in *.
  apply connect_call_quiet in L2. rewrite W1 in S2, F2.
  destruct ok.
  - repeat split; cbn; try congruence; try exact S2.
    + exists (l1 ++ l2 ++ [EvNvsPut "ssid" ssid; EvNvsPut "password" password]).
      split; [rewrite !forallb_app, L1, L2; reflexivity |].
      right. rewrite E2, E1, <- !app_assoc. split; [reflexivity |].
      split; [exact W2 |]. split.
      * unfold isBLEProvisioningActive. cbn. rewrite B2. exact A1.
      * destruct (forallb negb (wifi_status s)); [| reflexivity].
        destruct (F2 eq_refl) as [F _]. discriminate F.
    + right. exists ssid, password. split; [exact Hne |]. now rewrite N2, N1.
  - repeat split; cbn; try congruence; try exact S2.
    + exists (l1 ++ l2 ++ [EvBleInit]).
      split; [rewrite !forallb_app, L1, L2; reflexivity |].
      left. rewrite E2, E1, <- !app_assoc. reflexivity.
    + left. congruence.
Qed.

(** X13: whatever the state, the provisioning pass of the loop leaves the
    pump, the valve mode and the timer as they were and writes no relay.
    The only step of it that publishes is the bring-up of the network
    services ([syncTimeNTP], [setupMqtt], [connectMqtt]), which comes at
    most once, as the last call of a pass that has connected and stopped
    BLE provisioning; every other call of the pass reaches neither the
    equipment nor the dashboard, and none clears the store, disconnects or
    restarts.  Every stored key stays stored, keys other than the two
    credential keys keep their values, and the request flag of the
    [clear_wifi] command is left as it was.  A pass that comes within the
    check interval of the last check does nothing but its [delay(10)]. *)
Theorem loop_ble_frame (s : Device) :
  let s' := loop_ble s in
  pumpState s' = pumpState s
  /\ valveMode s' = valveMode s
  /\ timer s' = timer s
  /\ clearWiFiRequested (ble s') = clearWiFiRequested (ble s)
  /\ (exists l,
        forallb is_quiet l = true
        /\ (new_events s s' = l
            \/ (new_events s s' = l ++ [EvBringUp]
                /\ wifiProvisioned s' = true
                /\ isBLEProvisioningActive s' = false)))
  /\ (forall k, is_Some (nvs s !! k) -> is_Some (nvs s' !! k))
  /\ (forall k, k <> "ssid" -> k <> "password" -> nvs s' !! k = nvs s !! k)
  /\ (u32_sub (millis (delay 10 s)) (lastBLECheck s) <= BLE_CHECK_INTERVAL ->
      s' = delay 10 s).
Proof.
  intros s'.
  destruct (loop_ble_cases s) as (P & V & T & C & (l & Q & E) & N & _).
  fold s' in P, V, T, C, E, N.
  split; [exact P |]. split; [exact V |]. split; [exact T |]. split; [exact C |].
  split; [| split; [| split]].
  - exists l. split; [exact Q |].
    destruct E as [E | (E & W & A & _)].
    + left. now apply new_events_app.
    + right. split; [now apply new_events_app | split; assumption].
  - intros k Hk. destruct N as [-> | (a & b & _ & ->)]; [exact Hk |].
    destruct (decide (k = "password")) as [-> | Np];
      [rewrite lookup_insert_eq; eauto |].
    rewrite lookup_insert_ne by congruence.
    destruct (decide (k = "ssid")) as [-> | Ns];
      [rewrite lookup_insert_eq; eauto |].
    rewrite lookup_insert_ne by congruence. exact Hk.
  - intros k Ns Np. destruct N as [-> | (a & b & _ & ->)]; [reflexivity |].
    now rewrite !lookup_insert_ne by congruence.
  - intros H. unfold s', loop_ble. cbv zeta.
    change (lastBLECheck (delay 10 s)) with (lastBLECheck s).
    replace (_ >? _) with false; [reflexivity |].
    symmetry. rewrite Z.gtb_ltb. apply Z.ltb_ge. exact H.
Qed.

Lemma loop_ble_frame_witness :
  (u32_sub (millis (delay 10 (saveWiFiCredentials "PoolHouse" "hunter22"
                                (power_on 0 ∅ []))))
           (lastBLECheck (saveWiFiCredentials "PoolHouse" "hunter22" (power_on 0 ∅ [])))
   <= BLE_CHECK_INTERVAL
   /\ loop_ble (saveWiFiCredentials "PoolHouse" "hunter22" (power_on 0 ∅ []))
      = delay 10 (saveWiFiCredentials "PoolHouse" "hunter22" (power_on 0 ∅ [])))
  /\ (is_Some (nvs (saveWiFiCredentials "PoolHouse" "hunter22" (power_on 0 ∅ []))
               !! "ssid")
      /\ is_Some (nvs (loop_ble (saveWiFiCredentials "PoolHouse" "hunter22"
                                   (power_on 0 ∅ []))) !! "ssid")).
Proof.
  assert (H1 : u32_sub (millis (delay 10 (saveWiFiCredentials "PoolHouse" "hunter22"
                                            (power_on 0 ∅ []))))
                 (lastBLECheck (saveWiFiCredentials "PoolHouse" "hunter22"
                                  (power_on 0 ∅ [])))
               <= BLE_CHECK_INTERVAL) by (vm_compute; discriminate).
  assert (H2 : is_Some (nvs (saveWiFiCredentials "PoolHouse" "hunter22"
                               (power_on 0 ∅ [])) !! "ssid"))
    by (exists "PoolHouse"; reflexivity).
  destruct (loop_ble_frame (saveWiFiCredentials "PoolHouse" "hunter22" (power_on 0 ∅ [])))
    as (_ & _ & _ & _ & _ & K & _ & L).
  split; [split; [exact H1 | exact (L H1)] | split; [exact H2 | exact (K "ssid" H2)]].
Defined.

(** ** How many networks the scan reports *)

Lemma len_nonneg (x : string) : 0 <= WString.len x.
Proof. unfold WString.len. lia. Qed.

Lemma len_String (c : ascii) (x : string) : WString.len (String c x) = 1 + WString.len x.
Proof. unfold WString.len. cbn [String.length]. lia. Qed.

Lemma len_utoa_aux (fuel k : nat) (n : Z) :
  0 <= n < 10 ^ Z.of_nat (S k) ->
  WString.len (WString.utoa_aux fuel n) <= Z.of_nat (S k).
Proof.
  revert k n; induction fuel as [|f IH]; intros k n Hn; cbn [WString.utoa_aux].
  - change (WString.len EmptyString) with 0. lia.
  - destruct (Z.ltb_spec n 10) as [L | L].
    + rewrite len_String. change (WString.len EmptyString) with 0. lia.
    + rewrite len_append, len_String. change (WString.len EmptyString) with 0.
      destruct k as [|k].
      * change (10 ^ Z.of_nat 1) with 10 in Hn. lia.
      * assert (H : 0 <= n / 10 < 10 ^ Z.of_nat (S k)).
        { split; [apply Z.div_pos; lia |].
          apply Z.div_lt_upper_bound; [lia |].
          replace (Z.of_nat (S (S k))) with (1 + Z.of_nat (S k)) in Hn by lia.
          rewrite Z.pow_add_r in Hn by lia. change (10 ^ 1) with 10 in Hn. lia. }
        specialize (IH k (n / 10) H). lia.
Qed.

(** The decimal text of a 32-bit signed number has at most 11 bytes. *)
Lemma len_itoa (n : Z) :
  - 2147483648 <= n < 2147483648 -> 1 <= WString.len (WString.itoa n) <= 11.
Proof.
  intros Hn. unfold WString.itoa, WString.utoa.
  assert (P : forall m, 0 <= m <= 2147483648 ->
                1 <= WString.len (WString.utoa_aux (S (Z.to_nat (Z.log2 m))) m) <= 10).
  { intros m Hm. split.
    - cbn [WString.utoa_aux]. destruct (m <? 10).
      + rewrite len_String. change (WString.len EmptyString) with 0. lia.
      + rewrite len_append, len_String. change (WString.len EmptyString) with 0.
        pose proof (len_nonneg (WString.utoa_aux (Z.to_nat (Z.log2 m)) (m / 10))). lia.
    - apply (len_utoa_aux _ 9). change (10 ^ Z.of_nat 10) with 10000000000. lia. }
  destruct (Z.ltb_spec n 0) as [L | L].
  - rewrite len_String. specialize (P (- n) ltac:(lia)). lia.
  - specialize (P n ltac:(lia)). lia.
Qed.

Lemma len_scan_entry (n : Network) :
  WString.len (scan_entry n)
  = 27 + WString.len (net_ssid n) + WString.len (WString.itoa (net_rssi n))
    + (if net_encryption n =? WIFI_AUTH_OPEN then 4 else 5).
Proof.
  unfold scan_entry. cbv zeta.
  rewrite !len_append, !len_String, !len_append.
  change (WString.len "{") with 1. change (WString.len "}") with 1.
  change (WString.len ",") with 1.
  change (WString.len EmptyString) with 0.
  change (WString.len (jkey "ssid")) with 7.
  change (WString.len (jkey "rssi")) with 7.
  change (WString.len (jkey "open")) with 7.
  destruct (net_encryption n =? WIFI_AUTH_OPEN);
    [change (WString.len "true") with 4 | change (WString.len "false") with 5]; lia.
Qed.

Lemma len_entries_cons (n : Network) (r : list Network) :
  WString.len (entries (n :: r))
  = WString.len (scan_entry n)
    + match r with [] => 0 | _ => 1 + WString.len (entries r) end.
Proof.
  destruct r as [|b r]; [cbn [entries]; lia |].
  change (entries (n :: b :: r)) with (scan_entry n +:+ "," +:+ entries (b :: r)).
  rewrite !len_append. change (WString.len ",") with 1. lia.
Qed.

(** The listing of a prefix is no longer than the listing of the whole. *)
Lemma len_entries_prefix (a b : list Network) :
  WString.len (entries a) <= WString.len (entries (a ++ b)).
Proof.
  induction a as [|n a IH].
  - change (entries []) with EmptyString. apply len_nonneg.
  - change ((n :: a) ++ b) with (n :: (a ++ b)). rewrite !len_entries_cons.
    destruct a as [|x a].
    + cbn [app]. destruct b as [|y b]; cbv iota; [lia |].
      pose proof (len_nonneg (entries (y :: b))). lia.
    + change ((x :: a) ++ b) with (x :: (a ++ b)) in *. cbv iota. lia.
Qed.

Lemma len_entries_bound (l : list Network) (w : Z) :
  Forall (fun n => WString.len (scan_entry n) <= w) l ->
  WString.len (entries l) + 1 <= (w + 1) * Z.of_nat (length l) + 1.
Proof.
  induction 1 as [|n l Hn Hl IH].
  - change (entries []) with EmptyString. change (WString.len EmptyString) with 0.
    cbn [length]. lia.
  - rewrite len_entries_cons. destruct l as [|x l]; cbn [length] in *; [lia |].
    nia.
Qed.

(** X14: how many networks the scan reports.  When the complete listing of
    the named networks fits the budget of 400 bytes, the scan returns it
    complete.  When every name has at most 32 bytes (the limit of an SSID)
    and every signal strength is a 32-bit number, the scan reports at least
    the first five named networks, or all of them when there are fewer. *)
Theorem scan_reports_enough (nets : list Network) :
  (WString.len (listing (named nets)) <= SCAN_BUDGET ->
   scanWiFiNetworks nets = listing (named nets))
  /\ (Forall (fun n => WString.len (net_ssid n) <= 32
                      /\ - 2147483648 <= net_rssi n < 2147483648) nets ->
      exists k : nat,
        scanWiFiNetworks nets = listing (firstn k (named nets))
        /\ (Nat.min 5 (length (named nets)) <= k)%nat).
Proof.
  assert (R : exists k : nat,
             scanWiFiNetworks nets = listing (firstn k (named nets))
             /\ (k <= length (named nets))%nat
             /\ ((k < length (named nets))%nat ->
                 SCAN_BUDGET < WString.len (listing (firstn (S k) (named nets))))).
  { unfold scanWiFiNetworks. cbv zeta.
    destruct nets as [|n rest].
    - exists O. cbn. repeat split; auto; lia.
    - replace (Z.of_nat (length (n :: rest)) =? 0) with false
        by (symmetry; apply Z.eqb_neq; cbn [length]; lia).
      destruct (scan_loop_spec (n :: rest) []) as (k & E & Hk & _ & Hmax).
      change ("[" +:+ entries []) with "[" in E.
      change (Z.of_nat (length [])) with 0 in E.
      exists k. rewrite E. unfold listing. rewrite append_assoc.
      repeat split; auto. }
  destruct R as (k & E & Hk & Hmax). split.
  - intros Hfit.
    destruct (Nat.eq_dec k (length (named nets))) as [-> | Hne];
      [now rewrite E, firstn_all |].
    exfalso. specialize (Hmax ltac:(lia)).
    pose proof (len_entries_prefix (firstn (S k) (named nets))
                  (skipn (S k) (named nets))) as Hp.
    rewrite firstn_skipn in Hp. rewrite !len_listing in *. lia.
  - intros Hb. exists k. split; [exact E |].
    destruct (Nat.le_gt_cases (Nat.min 5 (length (named nets))) k) as [Hle | Hgt];
      [exact Hle | exfalso].
    specialize (Hmax ltac:(lia)).
    assert (Hw : Forall (fun n => WString.len (scan_entry n) <= 75)
                   (firstn (S k) (named nets))).
    { apply Forall_firstn_named.
      eapply Forall_impl; [exact Hb |]. cbn beta. intros n [Hs Hr].
      rewrite len_scan_entry. pose proof (len_itoa _ Hr).
      destruct (net_encryption n =? WIFI_AUTH_OPEN); lia. }
    apply len_entries_bound in Hw.
    rewrite length_firstn in Hw. rewrite len_listing in Hmax.
    unfold SCAN_BUDGET in Hmax. lia.
Qed.

Lemma scan_reports_enough_witness :
  (WString.len (listing (named (firstn 4 crowded_example))) <= SCAN_BUDGET
   /\ scanWiFiNetworks (firstn 4 crowded_example)
      = listing (named (firstn 4 crowded_example)))
  /\ (Forall (fun n => WString.len (net_ssid n) <= 32
                      /\ - 2147483648 <= net_rssi n < 2147483648) crowded_example
      /\ exists k : nat,
           scanWiFiNetworks crowded_example = listing (firstn k (named crowded_example))
           /\ (Nat.min 5 (length (named crowded_example)) <= k)%nat).
Proof.
  assert (H1 : WString.len (listing (named (firstn 4 crowded_example))) <= SCAN_BUDGET)
    by (vm_compute; discriminate).
  assert (H2 : Forall (fun n => WString.len (net_ssid n) <= 32
                               /\ - 2147483648 <= net_rssi n < 2147483648)
                 crowded_example)
    by (repeat constructor; vm_compute; congruence).
  split; [split; [exact H1 | exact (proj1 (scan_reports_enough _) H1)] |].
  split; [exact H2 | exact (proj2 (scan_reports_enough _) H2)].
Defined.

(** ** The JSON payloads the firmware publishes *)

Section Payloads.

Import Json.

Lemma safe_app (a b : string) : safe (a +:+ b) = safe a && safe b.
Proof.
  induction a as [|c a IH]; [now rewrite append_nil_l |].
  rewrite append_cons. cbn [safe]. now rewrite IH, andb_assoc.
Qed.

Lemma safe_digit (d : Z) :
  0 <= d <= 9 -> safe (String (WString.digit_char d) EmptyString) = true.
Proof. intros Hd. digit_cases d H; reflexivity. Qed.

Lemma safe_utoa_aux (fuel : nat) (n : Z) : 0 <= n -> safe (WString.utoa_aux fuel n) = true.
Proof.
  revert n; induction fuel as [|f IH]; intros n Hn; cbn [WString.utoa_aux];
    [reflexivity |].
  destruct (Z.ltb_spec n 10) as [L | L]; [apply safe_digit; lia |].
  rewrite safe_app, IH by (apply Z.div_pos; lia).
  apply safe_digit. pose proof (Z.mod_pos_bound n 10). lia.
Qed.

Lemma safe_ip (ip : Z * Z * Z * Z) :
  (let '(a, b, c, d) := ip in 0 <= a /\ 0 <= b /\ 0 <= c /\ 0 <= d) ->
  safe (ip_toString ip) = true.
Proof.
  destruct ip as [[[a b] c] d]. intros (Ha & Hb & Hc & Hd).
  unfold ip_toString, WString.utoa.
  rewrite !safe_app, !safe_utoa_aux by assumption. reflexivity.
Qed.

(** A quoted text without bytes that need escaping is a JSON string. *)
Lemma run_quoted (m0 : Mode) (stk : list Ctx) (x : string) :
  m0 = MValue \/ m0 = MValueOrEnd ->
  safe x = true -> run m0 stk (quoted x) = Some (MAfter, stk).
Proof.
  intros Hm0 Hx. unfold quoted. cbn [run].
  replace (step m0 stk DQ) with (Some (MStr false, stk))
    by (destruct Hm0; subst m0; reflexivity).
  rewrite (run_app_some _ _ _ _ _ _ (run_safe false stk x Hx)). reflexivity.
Qed.

Lemma num_mode_comma (n : Z) (stk : list Ctx) :
  run (num_mode n) (InObject :: stk) "," = Some (MKey, InObject :: stk).
Proof. unfold num_mode. destruct (n =? 0); reflexivity. Qed.

Lemma num_mode_close (n : Z) (stk : list Ctx) :
  run (num_mode n) (InObject :: stk) "}" = Some (MAfter, stk).
Proof. unfold num_mode. destruct (n =? 0); reflexivity. Qed.

(** X17: every timer snapshot is well-formed JSON.  Whatever the state,
    [publishTimerState] makes exactly one retained publication on the timer
    topic, and when the two unsigned counters are not negative its payload
    is one complete JSON object. *)
Theorem timer_snapshot_well_formed (s : Device) :
  0 <= timerRemaining (timer s) -> 0 <= timerDuration (timer s) ->
  exists payload,
    new_events s (publishTimerState s) = [EvPublish TOPIC_TIMER_STATE payload true]
    /\ well_formed payload = true.
Proof.
  intros Hr Hd. eexists. split.
  - apply new_events_app. reflexivity.
  - unfold well_formed. apply andb_true_intro. split; cycle 1.
    { unfold timer_json.
      apply utf8_app; [reflexivity |]. apply utf8_app; [reflexivity |].
      apply utf8_app; [destruct (timerActive (timer s)); reflexivity |].
      apply utf8_app; [reflexivity |]. apply utf8_app; [reflexivity |].
      apply utf8_app; [apply utf8_utoa |].
      apply utf8_app; [reflexivity |]. apply utf8_app; [reflexivity |].
      apply utf8_app; [apply utf8_itoa |].
      apply utf8_app; [reflexivity |]. apply utf8_app; [reflexivity |].
      apply utf8_app; [apply utf8_utoa | reflexivity]. }
    unfold grammatical, timer_json.
    rewrite (run_app_some MValue MKeyOrEnd [] [InObject]) by reflexivity.
    rewrite (run_app_some MKeyOrEnd MValue [InObject] [InObject]) by reflexivity.
    rewrite (run_app_some MValue MAfter [InObject] [InObject])
      by (destruct (timerActive (timer s)); reflexivity).
    rewrite (run_app_some MAfter MKey [InObject] [InObject]) by reflexivity.
    rewrite (run_app_some MKey MValue [InObject] [InObject]) by reflexivity.
    rewrite (run_app_some _ _ _ _ _ _
               (run_utoa MValue _ [InObject] digit_start_value Hr)).
    rewrite (run_app_some _ _ _ _ _ _ (num_mode_comma _ [])).
    rewrite (run_app_some MKey MValue [InObject] [InObject]) by reflexivity.
    rewrite (run_app_some _ _ _ _ _ _ (run_itoa _ [InObject])).
    rewrite (run_app_some _ _ _ _ _ _ (num_mode_comma _ [])).
    rewrite (run_app_some MKey MValue [InObject] [InObject]) by reflexivity.
    rewrite (run_app_some _ _ _ _ _ _
               (run_utoa MValue _ [InObject] digit_start_value Hd)).
    rewrite num_mode_close. reflexivity.
Qed.

Lemma timer_snapshot_well_formed_witness :
  (0 <= timerRemaining (timer running_example)
   /\ 0 <= timerDuration (timer running_example))
  /\ exists payload,
       new_events running_example (publishTimerState running_example)
       = [EvPublish TOPIC_TIMER_STATE payload true]
       /\ well_formed payload = true.
Proof.
  assert (H1 : 0 <= timerRemaining (timer running_example))
    by (vm_compute; discriminate).
  assert (H2 : 0 <= timerDuration (timer running_example))
    by (vm_compute; discriminate).
  split; [split; assumption | exact (timer_snapshot_well_formed running_example H1 H2)].
Defined.

Lemma safe_quality (rssi : Z) : safe (wifi_quality rssi) = true.
Proof.
  unfold wifi_quality.
  destruct (rssi >=? -50); [reflexivity |].
  destruct (rssi >=? -60); [reflexivity |].
  destruct (rssi >=? -70); reflexivity.
Qed.

Lemma utf8_quality (rssi : Z) : utf8 (wifi_quality rssi) = true.
Proof.
  unfold wifi_quality.
  destruct (rssi >=? -50); [reflexivity |].
  destruct (rssi >=? -60); [reflexivity |].
  destruct (rssi >=? -70); reflexivity.
Qed.

Lemma utf8_quoted (x : string) : utf8 x = true -> utf8 (quoted x) = true.
Proof.
  intros H. unfold quoted. apply utf8_cons; [reflexivity |].
  apply utf8_app; [exact H | reflexivity].
Qed.

Lemma utf8_ip (ip : Z * Z * Z * Z) : utf8 (ip_toString ip) = true.
Proof.
  destruct ip as [[[a b] c] d]. unfold ip_toString.
  repeat (apply utf8_app; [apply utf8_utoa || reflexivity |]). apply utf8_utoa.
Qed.

(** The text after the name: address, signal strength and quality. *)
Lemma wifi_json_tail (l : Link) :
  (let '(a, b, c, d) := link_ip l in 0 <= a /\ 0 <= b /\ 0 <= c /\ 0 <= d) ->
  run MAfter [InObject]
    (("," +:+ jkey "ip" +:+ quoted (ip_toString (link_ip l)) +:+ ",")
     +:+ (jkey "rssi" +:+ WString.itoa (link_rssi l) +:+ ",")
     +:+ (jkey "quality" +:+ quoted (wifi_quality (link_rssi l)))
     +:+ "}")
  = Some (MAfter, []).
Proof.
  intros Hip. rewrite !append_assoc.
  rewrite (run_app_some MAfter MKey [InObject] [InObject]) by reflexivity.
  rewrite (run_app_some MKey MValue [InObject] [InObject]) by reflexivity.
  rewrite (run_app_some _ _ _ _ _ _
             (run_quoted MValue [InObject] _ (or_introl eq_refl) (safe_ip _ Hip))).
  rewrite (run_app_some MAfter MKey [InObject] [InObject]) by reflexivity.
  rewrite (run_app_some MKey MValue [InObject] [InObject]) by reflexivity.
  rewrite (run_app_some _ _ _ _ _ _ (run_itoa _ [InObject])).
  rewrite (run_app_some _ _ _ _ _ _ (num_mode_comma _ [])).
  rewrite (run_app_some MKey MValue [InObject] [InObject]) by reflexivity.
  rewrite (run_app_some _ _ _ _ _ _
             (run_quoted MValue [InObject] _ (or_introl eq_refl) (safe_quality _))).
  reflexivity.
Qed.

(** The text up to the name, the name between its quotes, and the rest. *)
Lemma wifi_json_split (l : Link) :
  wifi_json l
  = ("{" +:+ jkey "status" +:+ quoted "connected" +:+ "," +:+ jkey "ssid")
    +:+ quoted (link_ssid l)
    +:+ (("," +:+ jkey "ip" +:+ quoted (ip_toString (link_ip l)) +:+ ",")
         +:+ (jkey "rssi" +:+ WString.itoa (link_rssi l) +:+ ",")
         +:+ (jkey "quality" +:+ quoted (wifi_quality (link_rssi l)))
         +:+ "}").
Proof. unfold wifi_json. now rewrite !append_assoc. Qed.

Lemma wifi_json_head :
  run MValue [] ("{" +:+ jkey "status" +:+ quoted "connected" +:+ "," +:+ jkey "ssid")
  = Some (MValue, [InObject]).
Proof. reflexivity. Qed.

Lemma wifi_json_utf8 (l : Link) :
  utf8 (link_ssid l) = true -> utf8 (wifi_json l) = true.
Proof.
  intros Hs. rewrite wifi_json_split.
  apply utf8_app; [reflexivity |].
  apply utf8_app; [now apply utf8_quoted |].
  apply utf8_app;
    [apply utf8_app; [reflexivity |]; apply utf8_app; [reflexivity |];
     apply utf8_app; [apply utf8_quoted, utf8_ip | reflexivity] |].
  apply utf8_app;
    [apply utf8_app; [reflexivity |]; apply utf8_app; [apply utf8_itoa | reflexivity] |].
  apply utf8_app; [| reflexivity].
  apply utf8_app; [reflexivity |]. apply utf8_quoted, utf8_quality.
Qed.

(** X18: [publishWiFiState] makes exactly one retained publication on the
    WiFi topic.  When the driver reports no connection the payload is the
    fixed disconnected status, the same text the [wifi/clear] command
    publishes.  When it reports a connection, the payload is well-formed
    JSON whenever the network name is valid UTF-8 and has no double quote,
    backslash or control byte.  The name is copied without escaping: with
    the name "Pool" between double quotes the payload is not JSON, and
    with the name x","y":"z it is JSON again, with a member [y] of the
    name's making. *)
Theorem wifi_state_payload (l : Link) (s : Device) :
  (let '(a, b, c, d) := link_ip l in 0 <= a /\ 0 <= b /\ 0 <= c /\ 0 <= d) ->
  exists payload,
    new_events s (publishWiFiState l s) = [EvPublish TOPIC_WIFI_STATE payload true]
    /\ payload = (if fst (WiFi_status s) then wifi_json l else DISCONNECTED_JSON)
    /\ well_formed DISCONNECTED_JSON = true
    /\ (safe (link_ssid l) = true -> utf8 (link_ssid l) = true ->
        well_formed (wifi_json l) = true)
    /\ well_formed (wifi_json (mkLink (quoted "Pool") (link_ip l) (link_rssi l)))
       = false
    /\ well_formed (wifi_json (mkLink injecting_name (link_ip l) (link_rssi l)))
       = true.
Proof.
  intros Hip.
  exists (if fst (WiFi_status s) then wifi_json l else DISCONNECTED_JSON).
  split; [| split; [reflexivity | split; [reflexivity | split; [| split]]]].
  - unfold publishWiFiState.
    assert (T : trace (snd (WiFi_status s)) = trace s).
    { unfold WiFi_status. now destruct (wifi_status s). }
    destruct (WiFi_status s) as [up s1]; cbn [fst snd] in *.
    apply new_events_app. destruct up; cbn; now rewrite T.
  - intros Hs Hu. unfold well_formed. apply andb_true_intro.
    split; [| now apply wifi_json_utf8].
    unfold grammatical. rewrite wifi_json_split.
    rewrite (run_app_some _ _ _ _ _ _ wifi_json_head).
    rewrite (run_app_some _ _ _ _ _ _
               (run_quoted MValue [InObject] _ (or_introl eq_refl) Hs)).
    now rewrite (wifi_json_tail l Hip).
  - unfold well_formed.
    replace (grammatical _) with false; [reflexivity |].
    symmetry. unfold grammatical. rewrite wifi_json_split.
    rewrite (run_app_some _ _ _ _ _ _ wifi_json_head).
    cbn [link_ssid]. reflexivity.
  - unfold well_formed. apply andb_true_intro.
    split; [| now apply wifi_json_utf8].
    unfold grammatical. rewrite wifi_json_split.
    rewrite (run_app_some _ _ _ _ _ _ wifi_json_head).
    cbn [link_ssid link_ip link_rssi].
    rewrite (run_app_some MValue MAfter [InObject] [InObject]) by reflexivity.
    now rewrite (wifi_json_tail l Hip).
Qed.

Lemma wifi_state_payload_witness :
  (0 <= 192 /\ 0 <= 168 /\ 0 <= 1 /\ 0 <= 50)
  /\ (safe "PoolHouse" = true /\ utf8 "PoolHouse" = true)
  /\ exists payload,
       new_events (power_on 0 ∅ [true])
         (publishWiFiState (mkLink "PoolHouse" (192, 168, 1, 50) (-55))
            (power_on 0 ∅ [true]))
       = [EvPublish TOPIC_WIFI_STATE payload true]
       /\ well_formed payload = true.
Proof.
  assert (H : let '(a, b, c, d) := link_ip (mkLink "PoolHouse" (192, 168, 1, 50) (-55))
              in 0 <= a /\ 0 <= b /\ 0 <= c /\ 0 <= d) by (cbn; lia).
  assert (H1 : safe "PoolHouse" = true) by reflexivity.
  assert (H2 : utf8 "PoolHouse" = true) by reflexivity.
  split; [exact H |]. split; [split; assumption |].
  destruct (wifi_state_payload (mkLink "PoolHouse" (192, 168, 1, 50) (-55))
              (power_on 0 ∅ [true]) H) as (p & E & -> & _ & W & _).
  eexists. split; [exact E |]. exact (W H1 H2).
Defined.

End Payloads.

(** ** Credentials written over BLE *)

Lemma c_str_len (v : string) : (WString.len (c_str v) >? 0) = negb (String.eqb (c_str v) EmptyString).
Proof. destruct (c_str v); reflexivity. Qed.

(** X19: the order of the two credential writes matters.  From a state
    without pending credentials, a client that writes the secret first and
    the identifier second never completes the credentials: nothing is
    flagged, and the provisioning pass of the loop makes no connection
    attempt.  A client that writes a non-empty identifier first and a
    non-empty secret second is told [credentials_ready] after the usual
    two acknowledgements, and the loop will then find the two values, cut
    at their first NUL byte and to 32 and 63 bytes. *)
Theorem ble_write_order (v1 v2 : string) (nets : list Network) (g : Gatt) (s : Device) :
  receivedSSID (ble s) = EmptyString ->
  newCredentialsReceived (ble s) = false ->
  (let r := deliver [(PASSWORD_CHAR, v2); (SSID_CHAR, v1)] nets g s in
   hasNewWiFiCredentials (snd r) = false
   /\ notified (fst r)
      = notified g ++ [(STATUS_CHAR, "password_received"); (STATUS_CHAR, "ssid_received")]
   /\ count is_wifi_begin (new_events (snd r) (loop_ble (snd r))) = 0%nat)
  /\ (c_str v1 <> EmptyString -> c_str v2 <> EmptyString ->
      let r := deliver [(SSID_CHAR, v1); (PASSWORD_CHAR, v2)] nets g s in
      hasNewWiFiCredentials (snd r) = true
      /\ getBLEWiFiSSID (snd r) = Some (WString.take 32 (c_str v1))
      /\ getBLEWiFiPassword (snd r) = Some (WString.take 63 (c_str v2))
      /\ statusValue (fst r) = "credentials_ready"
      /\ notified (fst r)
         = notified g ++ [(STATUS_CHAR, "ssid_received");
                          (STATUS_CHAR, "password_received");
                          (STATUS_CHAR, "credentials_ready")]).
Proof.
  intros Hs Hn. split.
  - cbn [deliver onWrite]. cbv zeta.
    cbn [ble set_ble receivedSSID receivedPassword]. rewrite Hs.
    change (WString.len EmptyString >? 0) with false. cbn [andb fst snd].
    cbn [notify_status notified networksValue]. rewrite <- app_assoc.
    split; [exact Hn | split; [reflexivity |]].
    unfold loop_ble. cbv zeta.
    replace (hasNewWiFiCredentials _) with false by (symmetry; exact Hn).
    destruct (_ >? _); reflexivity || (unfold new_events; cbn;
      rewrite ?length_app, ?drop_app_length; reflexivity).
  - intros H1 H2. cbn [deliver onWrite]. cbv zeta.
    cbn [ble set_ble receivedSSID receivedPassword].
    rewrite !c_str_len.
    apply String.eqb_neq in H1, H2. rewrite H1, H2. cbn [negb andb fst snd].
    unfold getBLEWiFiSSID, getBLEWiFiPassword, hasNewWiFiCredentials.
    cbn [ble set_ble receivedSSID receivedPassword newCredentialsReceived].
    rewrite !len_zero, H1, H2.
    cbn [notify_status notified networksValue statusValue]. rewrite <- !app_assoc.
    repeat split.
Qed.

Lemma ble_write_order_witness :
  (receivedSSID (ble (initBLEProvisioning (power_on 0 ∅ []))) = EmptyString
   /\ newCredentialsReceived (ble (initBLEProvisioning (power_on 0 ∅ []))) = false)
  /\ hasNewWiFiCredentials
       (snd (deliver [(PASSWORD_CHAR, "hunter22"); (SSID_CHAR, "PoolHouse")] []
               (mkGatt "waiting" "[]" [])
               (initBLEProvisioning (power_on 0 ∅ [])))) = false
  /\ ((c_str "PoolHouse" <> EmptyString /\ c_str "hunter22" <> EmptyString)
      /\ hasNewWiFiCredentials
           (snd (deliver [(SSID_CHAR, "PoolHouse"); (PASSWORD_CHAR, "hunter22")] []
                   (mkGatt "waiting" "[]" [])
                   (initBLEProvisioning (power_on 0 ∅ [])))) = true).
Proof.
  assert (H1 : receivedSSID (ble (initBLEProvisioning (power_on 0 ∅ []))) = EmptyString)
    by reflexivity.
  assert (H2 : newCredentialsReceived (ble (initBLEProvisioning (power_on 0 ∅ [])))
               = false) by reflexivity.
  assert (H3 : c_str "PoolHouse" <> EmptyString) by discriminate.
  assert (H4 : c_str "hunter22" <> EmptyString) by discriminate.
  destruct (ble_write_order "PoolHouse" "hunter22" [] (mkGatt "waiting" "[]" [])
              (initBLEProvisioning (power_on 0 ∅ [])) H1 H2) as [(P & _) Q].
  destruct (Q H3 H4) as (Q1 & _).
  split; [split; assumption | split; [exact P | split; [split; assumption | exact Q1]]].
Defined.

(** ** What the provisioning pass can do to the stored credentials *)

Lemma load_is_Some (s : Device) :
  is_Some (loadWiFiCredentials s)
  <-> exists x, nvs s !! "ssid" = Some x /\ x <> EmptyString.
Proof.
  unfold loadWiFiCredentials, getString. rewrite len_zero.
  destruct (nvs s !! "ssid") as [x|]; cbn.
  - destruct (String.eqb_spec x EmptyString) as [-> | Hx]; split.
    + intros [? ?]; discriminate.
    + intros (y & E & Hy). injection E as <-. contradiction.
    + intros _. eauto.
    + intros _. eauto.
  - split; [intros [? ?]; discriminate | intros (x & E & _); discriminate].
Qed.

Lemma loop_ble_iter (n : nat) (s : Device) :
  clearWiFiRequested (ble (Nat.iter n (exec OpLoopBle) s)) = clearWiFiRequested (ble s)
  /\ (is_Some (loadWiFiCredentials s) ->
      is_Some (loadWiFiCredentials (Nat.iter n (exec OpLoopBle) s)))
  /\ exists l,
       forallb is_quiet l = true
       /\ (trace (Nat.iter n (exec OpLoopBle) s) = trace s ++ l
           \/ (trace (Nat.iter n (exec OpLoopBle) s) = trace s ++ l ++ [EvBringUp]
               /\ isBLEProvisioningActive (Nat.iter n (exec OpLoopBle) s) = false)).
Proof.
  induction n as [|n (C & L & l & Q & T)].
  - change (Nat.iter 0 (exec OpLoopBle) s) with s.
    repeat split; auto. exists []. split; [reflexivity |]. left. now rewrite app_nil_r.
  - change (Nat.iter (S n) (exec OpLoopBle) s)
      with (exec OpLoopBle (Nat.iter n (exec OpLoopBle) s)).
    cbn [exec].
    destruct (isBLEProvisioningActive (Nat.iter n (exec OpLoopBle) s)) eqn:A;
      [| split; [exact C | split; [exact L | exists l; split; [exact Q |]]]].
    + destruct (loop_ble_cases (Nat.iter n (exec OpLoopBle) s))
        as (_ & _ & _ & C' & (l' & Q' & T') & N' & _).
      split; [congruence | split].
      * intros H. specialize (L H). apply load_is_Some in L as (x & E & Hx).
        apply load_is_Some. destruct N' as [-> | (a & b & Ha & ->)]; [eauto |].
        exists a. split; [| exact Ha].
        rewrite lookup_insert_ne by discriminate. apply lookup_insert_eq.
      * destruct T as [T | (_ & T)]; [| discriminate T].
        exists (l ++ l'). split; [now rewrite forallb_app, Q, Q' |].
        destruct T' as [T' | (T' & _ & A' & _)].
        -- left. now rewrite T', T, <- app_assoc.
        -- right. split; [now rewrite T', T, <- !app_assoc | exact A'].
    + destruct T as [T | (T & _)]; [left; exact T | right; split; [exact T | exact A]].
Qed.

(** X20: the [clear_wifi] command written over BLE only raises a flag.
    The write acknowledges the command to the client and leaves the stored
    credentials and the outside world untouched; and however many
    provisioning passes of the loop follow, the flag stays raised, stored
    credentials stay loadable, and nothing is erased, disconnected or
    restarted: the passes write no relay, and publish only through the
    bring-up of the network services, which can come once, as their last
    call.  Any other value written to the command characteristic is
    ignored. *)
Theorem ble_clear_wifi_only_flags (value : string) (nets : list Network) (g : Gatt)
    (s : Device) (n : nat) :
  (let r := onWrite COMMAND_CHAR "clear_wifi" nets g s in
   isClearWiFiRequested (snd r) = true
   /\ statusValue (fst r) = "clear_wifi_requested"
   /\ nvs (snd r) = nvs s
   /\ trace (snd r) = trace s
   /\ isClearWiFiRequested (Nat.iter n (exec OpLoopBle) (snd r)) = true
   /\ (is_Some (loadWiFiCredentials s) ->
       is_Some (loadWiFiCredentials (Nat.iter n (exec OpLoopBle) (snd r))))
   /\ exists l,
        forallb is_quiet l = true
        /\ (new_events s (Nat.iter n (exec OpLoopBle) (snd r)) = l
            \/ new_events s (Nat.iter n (exec OpLoopBle) (snd r)) = l ++ [EvBringUp]))
  /\ (value <> "clear_wifi" -> onWrite COMMAND_CHAR value nets g s = (g, s)).
Proof.
  split.
  - cbn [onWrite]. change (String.eqb "clear_wifi" "clear_wifi") with true.
    cbv iota zeta. cbn [fst snd].
    set (s1 := set_ble _ s).
    destruct (loop_ble_iter n s1) as (C & L & l & Q & T).
    split; [reflexivity |]. split; [reflexivity |]. split; [reflexivity |].
    split; [reflexivity |]. split; [| split].
    + unfold isClearWiFiRequested. rewrite C. reflexivity.
    + intros H. apply L. rewrite (load_same_nvs s s1) by reflexivity. exact H.
    + change (trace s1) with (trace s) in T. exists l. split; [exact Q |].
      destruct T as [T | (T & _)]; [left | right]; now apply new_events_app.
  - intros Hv. cbn [onWrite]. apply String.eqb_neq in Hv. rewrite Hv. reflexivity.
Qed.

Lemma ble_clear_wifi_only_flags_witness :
  (is_Some (loadWiFiCredentials
              (saveWiFiCredentials "PoolHouse" "hunter22" pending_example))
   /\ is_Some (loadWiFiCredentials
                 (Nat.iter 3 (exec OpLoopBle)
                    (snd (onWrite COMMAND_CHAR "clear_wifi" []
                            (mkGatt "waiting" "[]" [])
                            (saveWiFiCredentials "PoolHouse" "hunter22"
                               pending_example))))))
  /\ ("CLEAR_WIFI" <> "clear_wifi"
      /\ onWrite COMMAND_CHAR "CLEAR_WIFI" [] (mkGatt "waiting" "[]" [])
           (saveWiFiCredentials "PoolHouse" "hunter22" pending_example)
         = (mkGatt "waiting" "[]" [],
            saveWiFiCredentials "PoolHouse" "hunter22" pending_example)).
Proof.
  assert (H1 : is_Some (loadWiFiCredentials
                          (saveWiFiCredentials "PoolHouse" "hunter22" pending_example)))
    by (eexists; reflexivity).
  assert (H2 : "CLEAR_WIFI" <> "clear_wifi") by discriminate.
  destruct (ble_clear_wifi_only_flags "CLEAR_WIFI" [] (mkGatt "waiting" "[]" [])
              (saveWiFiCredentials "PoolHouse" "hunter22" pending_example) 3)
    as [(_ & _ & _ & _ & _ & L & _) Q].
  split; [split; [exact H1 | exact (L H1)] | split; [exact H2 | exact (Q H2)]].
Defined.

(** ** What a BLE client can reach *)

Lemma scan_len_bound (nets : list Network) :
  WString.len (scanWiFiNetworks nets) <= SCAN_BUDGET.
Proof.
  unfold scanWiFiNetworks. cbv zeta.
  destruct nets as [|n rest]; [vm_compute; discriminate |].
  replace (Z.of_nat (length (n :: rest)) =? 0) with false
    by (symmetry; apply Z.eqb_neq; cbn [length]; lia).
  destruct (scan_loop_spec (n :: rest) []) as (k & E & _ & Hfit & _).
  change ("[" +:+ entries []) with "[" in E.
  change (Z.of_nat (length [])) with 0 in E.
  rewrite E, append_assoc.
  change (WString.len (listing ([] ++ firstn k (named (n :: rest)))) <= SCAN_BUDGET).
  destruct Hfit as [-> | Hfit]; [vm_compute; discriminate | exact Hfit].
Qed.

Lemma onWrite_frame (c : Characteristic) (v : string) (nets : list Network)
    (g : Gatt) (s : Device) :
  let r := onWrite c v nets g s in
  pumpState (snd r) = pumpState s
  /\ valveMode (snd r) = valveMode s
  /\ timer (snd r) = timer s
  /\ nvs (snd r) = nvs s
  /\ wifiProvisioned (snd r) = wifiProvisioned s
  /\ bleActive (ble (snd r)) = bleActive (ble s)
  /\ (exists l, trace (snd r) = trace s ++ l /\ forallb is_quiet l = true)
  /\ (WString.len (networksValue g) <= SCAN_BUDGET ->
      WString.len (networksValue (fst r)) <= SCAN_BUDGET).
Proof.
  assert (R : exists l, trace s = trace s ++ l /\ forallb is_quiet l = true)
    by (exists []; now rewrite app_nil_r).
  destruct c; cbn [onWrite]; cbv zeta.
  - repeat split; auto.
  - destruct (_ && _); repeat split; auto.
  - repeat split; auto.
  - repeat split; cbn; auto.
    + exists [EvWiFiModeSta; EvDelay 100]. now rewrite <- app_assoc.
    + intros _. apply scan_len_bound.
  - destruct (String.eqb v "clear_wifi"); repeat split; auto.
Qed.

(** X21: whatever a BLE client writes, in any number and order, the
    callbacks never touch the pump, the valve mode, the timer, the stored
    credentials or the provisioning switch itself, write no relay and
    publish nothing; and the networks characteristic never holds more
    than the 400 bytes of the scan budget. *)
Theorem ble_writes_frame (ws : list GattWrite) (nets : list Network) (g : Gatt)
    (s : Device) :
  let r := deliver ws nets g s in
  pumpState (snd r) = pumpState s
  /\ valveMode (snd r) = valveMode s
  /\ timer (snd r) = timer s
  /\ nvs (snd r) = nvs s
  /\ loadWiFiCredentials (snd r) = loadWiFiCredentials s
  /\ isBLEProvisioningActive (snd r) = isBLEProvisioningActive s
  /\ forallb is_quiet (new_events s (snd r)) = true
  /\ (WString.len (networksValue g) <= SCAN_BUDGET ->
      WString.len (networksValue (fst r)) <= SCAN_BUDGET).
Proof.
  cbv zeta.
  cut (pumpState (snd (deliver ws nets g s)) = pumpState s
       /\ valveMode (snd (deliver ws nets g s)) = valveMode s
       /\ timer (snd (deliver ws nets g s)) = timer s
       /\ nvs (snd (deliver ws nets g s)) = nvs s
       /\ bleActive (ble (snd (deliver ws nets g s))) = bleActive (ble s)
       /\ (exists l, trace (snd (deliver ws nets g s)) = trace s ++ l
                     /\ forallb is_quiet l = true)
       /\ (WString.len (networksValue g) <= SCAN_BUDGET ->
           WString.len (networksValue (fst (deliver ws nets g s))) <= SCAN_BUDGET)).
  { intros (P & V & T & N & B & (l & E & Q) & W).
    repeat split; auto using load_same_nvs.
    now rewrite (new_events_app _ _ _ E). }
  revert g s; induction ws as [|[c v] ws IH]; intros g s; cbn [deliver].
  - repeat split; auto. exists []. now rewrite app_nil_r.
  - pose proof (onWrite_frame c v nets g s) as F. cbv zeta in F.
    destruct (onWrite c v nets g s) as [g1 s1]. cbn [fst snd] in F.
    destruct F as (P1 & V1 & T1 & N1 & _ & B1 & (l1 & E1 & Q1) & W1).
    destruct (IH g1 s1) as (P & V & T & N & B & (l & E & Q) & W).
    repeat split; try congruence.
    + exists (l1 ++ l). rewrite E, E1, <- app_assoc. split; [reflexivity |].
      now rewrite forallb_app, Q1, Q.
    + intros H. apply W, W1, H.
Qed.

Lemma ble_writes_frame_witness :
  WString.len (networksValue (mkGatt "waiting" "[]" [])) <= SCAN_BUDGET
  /\ WString.len
       (networksValue
          (fst (deliver [(NETWORKS_CHAR, "scan"); (SSID_CHAR, "PoolHouse")]
                  crowded_example (mkGatt "waiting" "[]" [])
                  (initBLEProvisioning (power_on 0 ∅ []))))) <= SCAN_BUDGET.
Proof.
  assert (H : WString.len (networksValue (mkGatt "waiting" "[]" [])) <= SCAN_BUDGET)
    by (vm_compute; discriminate).
  destruct (ble_writes_frame [(NETWORKS_CHAR, "scan"); (SSID_CHAR, "PoolHouse")]
              crowded_example (mkGatt "waiting" "[]" [])
              (initBLEProvisioning (power_on 0 ∅ [])))
    as (_ & _ & _ & _ & _ & _ & _ & W).
  split; [exact H | exact (W H)].
Defined.

(** ** The loop while the WiFi link is down *)

Lemma loop_head_silent (mqtt_connected : bool) (st : LoopStatics) (s : Device) :
  forallb negb (wifi_status s) = true ->
  exists st' s',
    loop_head mqtt_connected st s = (Returned, st', s')
    /\ pumpState s' = pumpState s
    /\ valveMode s' = valveMode s
    /\ timer s' = timer s
    /\ (exists l, trace s' = trace s ++ l /\ forallb is_quiet l = true)
    /\ forallb negb (wifi_status s') = true.
Proof.
  intros Hs. unfold loop_head.
  destruct (isBLEProvisioningActive s) eqn:Eb.
  - destruct (loop_ble_cases s) as (P & V & T & _ & (l & Q & L) & _ & S).
    exists st, (loop_ble s). repeat split; auto.
    exists l. split; [| exact Q].
    destruct L as [L | (_ & _ & _ & L)]; [exact L | congruence].
  - destruct (WiFi_status_silent s Hs) as (U1 & S1 & T1).
    assert (F1 : pumpState (snd (WiFi_status s)) = pumpState s
                 /\ valveMode (snd (WiFi_status s)) = valveMode s
                 /\ timer (snd (WiFi_status s)) = timer s
                 /\ ble (snd (WiFi_status s)) = ble s).
    { unfold WiFi_status. destruct (wifi_status s); repeat split. }
    destruct (WiFi_status s) as [up s1]. cbn [fst snd] in *. subst up.
    destruct F1 as (P1 & V1 & M1 & B1). cbn [negb andb].
    destruct (_ >? WIFI_RECONNECT_INTERVAL).
    + destruct (loadWiFiCredentials s1) as [[ssid password]|].
      * destruct (connect_attempts_silent (Z.to_nat 1) 1 ssid password s1
                    ltac:(lia) S1) as (F & _).
        destruct (connect_attempts_frame (Z.to_nat 1) 1 ssid password s1)
          as [[P2 V2 M2 _ _ _ (l2 & E2 & L2)] _].
        pose proof (connect_attempts_keeps_silent (Z.to_nat 1) 1 ssid password s1 S1)
          as S2.
        change (connect_attempts (Z.to_nat 1) 1 ssid password s1)
          with (connectWiFi ssid password 1 s1) in *.
        remember (connectWiFi ssid password 1 s1) as r eqn:Er.
        destruct r as [ok s2]. clear Er. cbn [fst snd] in *. subst ok.
        eexists _, s2. split; [reflexivity |].
        repeat split; try congruence.
        exists l2. rewrite E2, T1. split; [reflexivity |].
        exact (connect_call_quiet _ _ _ L2).
      * unfold isBLEProvisioningActive in *. rewrite B1, Eb. cbn [negb].
        eexists _, _. split; [reflexivity |].
        repeat split; auto.
        exists [EvBleInit]. cbn. now rewrite T1.
    + destruct (WiFi_status_silent s1 S1) as (U2 & S2 & T2).
      assert (F2 : pumpState (snd (WiFi_status s1)) = pumpState s1
                   /\ valveMode (snd (WiFi_status s1)) = valveMode s1
                   /\ timer (snd (WiFi_status s1)) = timer s1).
      { unfold WiFi_status. destruct (wifi_status s1); repeat split. }
      destruct (WiFi_status s1) as [up s2]. cbn [fst snd] in *. subst up.
      destruct F2 as (P2 & V2 & M2). cbn [andb].
      destruct (WiFi_status_silent s2 S2) as (U3 & S3 & T3).
      assert (F3 : pumpState (snd (WiFi_status s2)) = pumpState s2
                   /\ valveMode (snd (WiFi_status s2)) = valveMode s2
                   /\ timer (snd (WiFi_status s2)) = timer s2).
      { unfold WiFi_status. destruct (wifi_status s2); repeat split. }
      destruct (WiFi_status s2) as [up s3]. cbn [fst snd] in *. subst up.
      destruct F3 as (P3 & V3 & M3). cbn [negb].
      eexists _, _. split; [reflexivity |].
      repeat split; cbn; try congruence.
      exists [EvDelay 100]. now rewrite T3, T2, T1.
Qed.

Lemma WiFi_status_nil (s : Device) :
  wifi_status s = [] -> WiFi_status s = (false, s).
Proof. intros H. unfold WiFi_status. now rewrite H. Qed.

Lemma WiFi_status_cons (s : Device) (b : bool) (r : list bool) :
  wifi_status s = b :: r -> WiFi_status s = (b, set_wifi_status r s).
Proof. intros H. unfold WiFi_status. now rewrite H. Qed.

(** X22: while the WiFi link is down the timer is frozen.  When the driver
    never reports a connection, every pass of the loop returns before it
    reaches [updateTimer()], whatever the time between passes and whether
    BLE provisioning is active or not: a running timer keeps its remaining
    time, the pump keeps running, no relay is written and nothing is
    published.  A pass reaches the timer only when BLE provisioning is off
    and the third status poll of the pass reports a connection, and it has
    then changed nothing but the polls it consumed. *)
Theorem offline_timer_frozen (waits : list Z) (mqtt_connected : bool)
    (st : LoopStatics) (s : Device) :
  (forallb negb (wifi_status s) = true ->
   exists st' s',
     returning_passes waits mqtt_connected st s = Some (st', s')
     /\ timer s' = timer s
     /\ pumpState s' = pumpState s
     /\ valveMode s' = valveMode s
     /\ forallb is_quiet (new_events s s') = true)
  /\ (fst (fst (loop_head mqtt_connected st s)) = AtUpdateTimer ->
      isBLEProvisioningActive s = false
      /\ exists a b r,
           wifi_status s = a :: b :: true :: r
           /\ snd (loop_head mqtt_connected st s) = set_wifi_status r s).
Proof.
  split.
  - intros Hs.
    cut (exists st' s',
           returning_passes waits mqtt_connected st s = Some (st', s')
           /\ timer s' = timer s /\ pumpState s' = pumpState s
           /\ valveMode s' = valveMode s
           /\ exists l, trace s' = trace s ++ l /\ forallb is_quiet l = true).
    { intros (st' & s' & E & T & P & V & l & El & Q).
      exists st', s'. repeat split; auto. now rewrite (new_events_app _ _ _ El). }
    revert st s Hs; induction waits as [|w waits IH]; intros st s Hs;
      cbn [returning_passes].
    + exists st, s. repeat split; auto. exists []. now rewrite app_nil_r.
    + destruct (loop_head_silent mqtt_connected st (advance w s) Hs)
        as (st1 & s1 & E1 & P1 & V1 & T1 & (l1 & L1 & Q1) & S1).
      rewrite E1.
      destruct (IH st1 s1 S1) as (st' & s' & E & T & P & V & l & El & Q).
      exists st', s'. split; [exact E |].
      cbn [advance set_clock timer pumpState valveMode trace] in *.
      repeat split; try congruence.
      exists (l1 ++ l). rewrite El, L1, <- app_assoc. split; [reflexivity |].
      now rewrite forallb_app, Q1, Q.
  - unfold loop_head.
    destruct (isBLEProvisioningActive s) eqn:Eb; [discriminate |].
    destruct (wifi_status s) as [|a l1] eqn:E1.
    + rewrite !(WiFi_status_nil s E1). cbn [negb andb].
      destruct (_ >? _).
      * destruct (loadWiFiCredentials s) as [[ssid password]|].
        -- remember (connectWiFi ssid password 1 s) as r eqn:Er.
           destruct r as [[] s2]; [destruct (negb mqtt_connected) |]; discriminate.
        -- destruct (negb _); discriminate.
      * discriminate.
    + rewrite (WiFi_status_cons s a l1 E1).
      destruct (negb a && _).
      * destruct (loadWiFiCredentials _) as [[ssid password]|].
        -- remember (connectWiFi ssid password 1 _) as r eqn:Er.
           destruct r as [[] s2]; [destruct (negb mqtt_connected) |]; discriminate.
        -- destruct (negb _); discriminate.
      * destruct l1 as [|b l2].
        { rewrite !(WiFi_status_nil (set_wifi_status [] s) eq_refl). discriminate. }
        rewrite (WiFi_status_cons (set_wifi_status (b :: l2) s) b l2 eq_refl).
        destruct l2 as [|c r].
        { rewrite (WiFi_status_nil (set_wifi_status [] _) eq_refl). discriminate. }
        rewrite (WiFi_status_cons (set_wifi_status (c :: r) _) c r eq_refl).
        destruct c; [| discriminate].
        intros _. split; [reflexivity |]. exists a, b, r. split; reflexivity.
Qed.

Lemma offline_timer_frozen_witness :
  forallb negb (wifi_status running_example) = true
  /\ exists st' s',
       returning_passes [20000; 20000; 40000] true (mkLoopStatics 0 0) running_example
       = Some (st', s')
       /\ timer s' = timer running_example
       /\ pumpState s' = pumpState running_example.
Proof.
  assert (H : forallb negb (wifi_status running_example) = true) by reflexivity.
  destruct (offline_timer_frozen [20000; 20000; 40000] true (mkLoopStatics 0 0)
              running_example) as [P _].
  destruct (P H) as (st' & s' & E & T & Q & _).
  split; [exact H |]. exists st', s'. repeat split; assumption.
Defined.

(** ** Boot *)

(** X23: [setup()] first waits 500 ms, then drives both relays low, and
    writes no relay again; the state in which provisioning starts is the
    one the first statements of [setup()] produce from reset.  After
    [setup()] the device is in exactly one of two conditions: connected
    with the stored credentials, or in BLE provisioning.  In both the pump
    is off, the valve is in mode 1, the timer is idle and the stored
    credentials are as they were found.  Nothing is published while the
    connection is attempted; a device that connected ends [setup()] with
    the bring-up of the network services ([syncTimeNTP], [setupMqtt],
    [connectMqtt]), the only step that publishes, and a device that did not
    ends it with the start of BLE provisioning and has published nothing.
    A device without stored credentials goes to BLE provisioning without
    any connection attempt. *)
Theorem setup_outcome (t0 : Z) (nvs0 : gmap string string) (answers : list bool) :
  let s' := setup t0 nvs0 answers in
  pumpState s' = false
  /\ valveMode s' = 1
  /\ timerActive (timer s') = false
  /\ nvs s' = nvs0
  /\ isBLEProvisioningActive s' = negb (wifiProvisioned s')
  /\ (exists l,
        trace s' = [EvDelay 500; EvDigitalWrite PUMP_RELAY_PIN false;
                    EvDigitalWrite VALVE_RELAY_PIN false]
                   ++ l ++ (if wifiProvisioned s' then [EvBringUp] else [EvBleInit])
        /\ forallb is_quiet l = true)
  /\ (nvs0 !! "ssid" = None ->
      isBLEProvisioningActive s' = true
      /\ trace s' = [EvDelay 500; EvDigitalWrite PUMP_RELAY_PIN false;
                     EvDigitalWrite VALVE_RELAY_PIN false; EvBleInit])
  /\ (500 <= t0 < U32_MOD ->
      power_on t0 nvs0 answers = setup_head (reset (t0 - 500) nvs0 answers)).
Proof.
  cbv zeta. unfold setup, initWiFiProvisioning.
  pose proof (power_on_setup_head t0 nvs0 answers) as Hhead.
  set (s0 := power_on t0 nvs0 answers) in *.
  destruct (loadWiFiCredentials s0) as [[ssid password]|] eqn:El.
  - destruct (connect_attempts_frame (Z.to_nat WIFI_RETRY_ATTEMPTS) 1 ssid password s0)
      as [[P V T N B _ (l & E & L)] W].
    change (connect_attempts (Z.to_nat WIFI_RETRY_ATTEMPTS) 1 ssid password s0)
      with (connectWiFi ssid password WIFI_RETRY_ATTEMPTS s0) in *.
    remember (connectWiFi ssid password WIFI_RETRY_ATTEMPTS s0) as r eqn:Er.
    destruct r as [ok s1]. clear Er. cbn [fst snd] in *.
    change (wifiProvisioned s0) with false in W. rewrite orb_false_r in W.
    apply connect_call_quiet in L.
    assert (Hno : nvs0 !! "ssid" = None -> False).
    { intros H. unfold loadWiFiCredentials, getString in El.
      change (nvs s0) with nvs0 in El. rewrite H in El. discriminate. }
    destruct ok.
    + split; [cbn; rewrite P; reflexivity |]. split; [cbn; rewrite V; reflexivity |].
      split; [cbn; rewrite T; reflexivity |]. split; [cbn; rewrite N; reflexivity |].
      split; [unfold isBLEProvisioningActive; cbn; rewrite B, W; reflexivity |].
      split; [| split; [intros H; destruct (Hno H) | exact Hhead]].
      exists l. split; [| exact L].
      cbn. rewrite W, E, <- app_assoc. reflexivity.
    + split; [cbn; rewrite P; reflexivity |]. split; [cbn; rewrite V; reflexivity |].
      split; [cbn; rewrite T; reflexivity |]. split; [cbn; rewrite N; reflexivity |].
      split; [cbn; rewrite W; reflexivity |].
      split; [| split; [intros H; destruct (Hno H) | exact Hhead]].
      exists l. split; [| exact L].
      cbn. rewrite W, E, <- app_assoc. reflexivity.
  - split; [reflexivity |]. split; [reflexivity |]. split; [reflexivity |].
    split; [reflexivity |]. split; [reflexivity |].
    split; [exists []; split; reflexivity |].
    split; [intros _; split; reflexivity | exact Hhead].
Qed.

Lemma setup_outcome_witness :
  ((∅ : gmap string string) !! "ssid" = None
   /\ isBLEProvisioningActive (setup 500 ∅ [true; true]) = true
   /\ trace (setup 500 ∅ [true; true])
      = [EvDelay 500; EvDigitalWrite PUMP_RELAY_PIN false;
         EvDigitalWrite VALVE_RELAY_PIN false; EvBleInit])
  /\ (500 <= 500 < U32_MOD
      /\ power_on 500 ∅ [true; true] = setup_head (reset (500 - 500) ∅ [true; true])).
Proof.
  assert (H : (∅ : gmap string string) !! "ssid" = None) by apply lookup_empty.
  assert (B : 500 <= 500 < U32_MOD) by (split; [lia | reflexivity]).
  destruct (setup_outcome 500 ∅ [true; true]) as (_ & _ & _ & _ & _ & _ & Q & R).
  split; [split; [exact H | exact (Q H)] | split; [exact B | exact (R B)]].
Defined.

(** ** Instances of the two timing lemmas *)

Lemma still_running_after_duration_witness :
  (mode_ok 2 /\ 0 < 3 /\ 0 <= clock (power_on 0 ∅ [])
   /\ Forall (fun w => 0 <= w) [700; 1300; 1000]
   /\ total [700; 1300; 1000] <= 1000 * 3
   /\ clock (power_on 0 ∅ []) + VALVE_SWITCH_DELAY + 1000 * 3 < U32_MOD)
  /\ timerActive (timer (run_ticks [700; 1300; 1000]
                           (startTimer 2 3 (power_on 0 ∅ [])))) = true
  /\ pumpState (run_ticks [700; 1300; 1000] (startTimer 2 3 (power_on 0 ∅ []))) = true.
Proof.
  assert (H1 : mode_ok 2) by (right; reflexivity).
  assert (H2 : 0 < 3) by reflexivity.
  assert (H3 : 0 <= clock (power_on 0 ∅ [])) by (cbn; lia).
  assert (H4 : Forall (fun w => 0 <= w) [700; 1300; 1000])
    by (repeat constructor; lia).
  assert (H5 : total [700; 1300; 1000] <= 1000 * 3) by (vm_compute; discriminate).
  assert (H6 : clock (power_on 0 ∅ []) + VALVE_SWITCH_DELAY + 1000 * 3 < U32_MOD)
    by (vm_compute; reflexivity).
  destruct (still_running_after_duration 2 3 (power_on 0 ∅ []) [700; 1300; 1000]
              H1 H2 H3 H4 H5 H6) as (A & P & _).
  repeat split; assumption.
Defined.

Lemma expiry_after_one_more_tick_witness :
  (mode_ok 2 /\ 0 < 3)
  /\ observable (ticks 4 1000 (startTimer 2 3 (power_on 0 ∅ [])))
     = (false, 2, (false, 2, 3, 0)).
Proof.
  assert (H1 : mode_ok 2) by (right; reflexivity).
  assert (H2 : 0 < 3) by reflexivity.
  destruct (expiry_after_one_more_tick 2 3 (power_on 0 ∅ []) H1 H2) as (_ & _ & E & _).
  split; [split; assumption | exact E].
Defined.

(** ** The relays and the pump report mirror the state *)

Lemma last_write_snoc (pin : Z) (tr : list Event) (e : Event) :
  last_write pin (tr ++ [e])
  = match e with
    | EvDigitalWrite p high => if p =? pin then Some high else last_write pin tr
    | _ => last_write pin tr
    end.
Proof. unfold last_write. rewrite fold_left_app. reflexivity. Qed.

Lemma last_publish_snoc (topic : string) (tr : list Event) (e : Event) :
  last_publish topic (tr ++ [e])
  = match e with
    | EvPublish t payload _ =>
        if String.eqb t topic then Some payload else last_publish topic tr
    | _ => last_publish topic tr
    end.
Proof. unfold last_publish. rewrite fold_left_app. reflexivity. Qed.

Lemma mirror_emit (e : Event) (s : Device) :
  mirror_neutral e = true -> Mirror s -> Mirror (emit e s).
Proof.
  intros He [P V R]. split; cbn [emit set_trace trace pumpState valveMode].
  - rewrite last_write_snoc. destruct e; auto; discriminate.
  - rewrite last_write_snoc. destruct e; auto; discriminate.
  - rewrite last_publish_snoc. destruct e; auto.
    cbn in He. apply negb_true_iff in He. now rewrite He.
Qed.

Lemma mirror_set_wifiProvisioned v s : Mirror s -> Mirror (set_wifiProvisioned v s).
Proof. intros [? ? ?]; split; auto. Qed.

Lemma mirror_set_timer t s : Mirror s -> Mirror (set_timer t s).
Proof. intros [? ? ?]; split; auto. Qed.

Lemma mirror_set_ble v s : Mirror s -> Mirror (set_ble v s).
Proof. intros [? ? ?]; split; auto. Qed.

Lemma mirror_set_lastBLECheck v s : Mirror s -> Mirror (set_lastBLECheck v s).
Proof. intros [? ? ?]; split; auto. Qed.

Lemma mirror_set_clock v s : Mirror s -> Mirror (set_clock v s).
Proof. intros [? ? ?]; split; auto. Qed.

Lemma mirror_set_nvs v s : Mirror s -> Mirror (set_nvs v s).
Proof. intros [? ? ?]; split; auto. Qed.

Lemma mirror_set_wifi_status v s : Mirror s -> Mirror (set_wifi_status v s).
Proof. intros [? ? ?]; split; auto. Qed.

#[export] Hint Resolve mirror_set_wifiProvisioned mirror_set_timer mirror_set_ble
  mirror_set_lastBLECheck mirror_set_clock mirror_set_nvs mirror_set_wifi_status
  : mirror.

Lemma mirror_delay ms s : Mirror s -> Mirror (delay ms s).
Proof. intros; apply mirror_emit; cbn; auto with mirror. Qed.

Lemma mirror_advance ms s : Mirror s -> Mirror (advance ms s).
Proof. unfold advance; auto with mirror. Qed.

Lemma mirror_publishValveState s : Mirror s -> Mirror (publishValveState s).
Proof. intros; apply mirror_emit; auto. Qed.

Lemma mirror_publishTimerState s : Mirror s -> Mirror (publishTimerState s).
Proof. intros; apply mirror_emit; auto. Qed.

Lemma mirror_publishPumpState s : Mirror s -> Mirror (publishPumpState s).
Proof.
  intros [P V R]. unfold publishPumpState, mqtt_publish.
  split; cbn [emit set_trace trace pumpState valveMode].
  - now rewrite last_write_snoc.
  - now rewrite last_write_snoc.
  - rewrite last_publish_snoc, String.eqb_refl. reflexivity.
Qed.

Lemma mirror_setPumpState b s : Mirror s -> Mirror (setPumpState b s).
Proof.
  intros [P V R]. unfold setPumpState, setPumpRelay, publishPumpState, mqtt_publish,
    digitalWrite.
  split; cbn [emit set_trace trace pumpState valveMode set_pumpState].
  - rewrite !last_write_snoc. now rewrite Z.eqb_refl.
  - rewrite !last_write_snoc.
    change (PUMP_RELAY_PIN =? VALVE_RELAY_PIN) with false. exact V.
  - rewrite last_publish_snoc, String.eqb_refl. reflexivity.
Qed.

Lemma mirror_setValveRelay m s : Mirror s -> Mirror (setValveRelay m s).
Proof.
  intros [P V R]. unfold setValveRelay, digitalWrite.
  destruct (negb (m =? 1) && negb (m =? 2)); [split; auto |].
  split; cbn [emit set_trace trace pumpState valveMode set_valveMode].
  - rewrite last_write_snoc.
    change (VALVE_RELAY_PIN =? PUMP_RELAY_PIN) with false. exact P.
  - rewrite last_write_snoc. now rewrite Z.eqb_refl.
  - rewrite last_publish_snoc. exact R.
Qed.

#[export] Hint Resolve mirror_delay mirror_advance mirror_publishValveState
  mirror_publishTimerState mirror_publishPumpState mirror_setPumpState
  mirror_setValveRelay : mirror.

Lemma mirror_setValveMode m s : Mirror s -> Mirror (setValveMode m s).
Proof.
  unfold setValveMode; intros H.
  destruct (negb (m =? 1) && negb (m =? 2)); auto.
  destruct (valveMode s =? m); auto with mirror.
Qed.

#[export] Hint Resolve mirror_setValveMode : mirror.

Lemma mirror_startTimer m d s : Mirror s -> Mirror (startTimer m d s).
Proof.
  unfold startTimer; intros H.
  destruct (negb (m =? 1) && negb (m =? 2)); auto.
  destruct (d =? 0); auto 10 with mirror.
Qed.

Lemma mirror_stopTimer s : Mirror s -> Mirror (stopTimer s).
Proof.
  unfold stopTimer; intros H.
  destruct (negb (timerActive (timer s))); auto 10 with mirror.
Qed.

#[export] Hint Resolve mirror_startTimer mirror_stopTimer : mirror.

Lemma mirror_updateTimer s : Mirror s -> Mirror (updateTimer s).
Proof.
  unfold updateTimer; intros H.
  repeat (match goal with
          | |- Mirror (if ?c then _ else _) => destruct c
          | |- Mirror (let _ := _ in _) => cbv zeta
          end; cbn [timer set_timer timerMode timerActive timerDuration
                    timerRemaining timerLastUpdate lastPublish]);
    auto 10 with mirror.
Qed.

#[export] Hint Resolve mirror_updateTimer : mirror.

Lemma mirror_onMqttMessage topic payload s :
  Mirror s -> Mirror (onMqttMessage topic payload s).
Proof.
  unfold onMqttMessage; intros H.
  repeat (match goal with
          | |- Mirror (if ?c then _ else _) => destruct c
          | |- Mirror (let _ := _ in _) => cbv zeta
          end); auto with mirror.
  unfold clearWiFiCredentials, preferences_clear, mqtt_publish.
  repeat match goal with
         | |- Mirror (emit _ _) => apply mirror_emit; [reflexivity |]
         | |- Mirror (delay _ _) => apply mirror_delay
         | |- Mirror (set_nvs _ _) => apply mirror_set_nvs
         end.
  exact H.
Qed.

Lemma mirror_WiFi_status s : Mirror s -> Mirror (snd (WiFi_status s)).
Proof. unfold WiFi_status; destruct (wifi_status s); cbn; auto with mirror. Qed.

Lemma mirror_wait_connected fuel start s :
  Mirror s -> Mirror (wait_connected fuel start s).
Proof.
  revert s; induction fuel as [|f IH]; intros s H; cbn; auto.
  pose proof (mirror_WiFi_status s H) as H1.
  destruct (WiFi_status s) as [up s1]; cbn in H1.
  destruct (negb up && _); auto with mirror.
Qed.

Lemma mirror_connect_attempts n attempt ssid password s :
  Mirror s -> Mirror (snd (connect_attempts n attempt ssid password s)).
Proof.
  revert attempt s; induction n as [|n IH]; intros attempt s H; cbn; auto.
  set (s1 := if attempt >? 1 then delay WIFI_RETRY_DELAY s else s).
  assert (H1 : Mirror s1) by (unfold s1; destruct (attempt >? 1); auto with mirror).
  set (s2 := emit (EvWiFiBegin ssid password) (emit EvWiFiModeSta s1)).
  assert (H2 : Mirror s2) by (unfold s2; repeat apply mirror_emit; cbn; auto).
  pose proof (mirror_WiFi_status _ (mirror_wait_connected WAIT_FUEL (millis s2) s2 H2))
    as H3.
  destruct (WiFi_status _) as [up s3]; cbn in H3.
  destruct up; cbn; auto with mirror.
Qed.

Lemma mirror_connectWiFi ssid password r s :
  Mirror s -> Mirror (snd (connectWiFi ssid password r s)).
Proof. apply mirror_connect_attempts. Qed.

Lemma mirror_initBLEProvisioning s : Mirror s -> Mirror (initBLEProvisioning s).
Proof.
  unfold initBLEProvisioning; intros; apply mirror_set_ble, mirror_emit; cbn; auto.
Qed.

Lemma mirror_stopBLEProvisioning s : Mirror s -> Mirror (stopBLEProvisioning s).
Proof.
  unfold stopBLEProvisioning; intros.
  destruct (negb _); auto. apply mirror_set_ble, mirror_emit; cbn; auto.
Qed.

Lemma mirror_saveWiFiCredentials a b s : Mirror s -> Mirror (saveWiFiCredentials a b s).
Proof.
  unfold saveWiFiCredentials, putString; intros.
  repeat (apply mirror_emit; [reflexivity |]; apply mirror_set_nvs). auto.
Qed.

Lemma mirror_clearBLECredentials s : Mirror s -> Mirror (clearBLECredentials s).
Proof. unfold clearBLECredentials; auto with mirror. Qed.

#[export] Hint Resolve mirror_onMqttMessage mirror_connectWiFi
  mirror_initBLEProvisioning mirror_stopBLEProvisioning mirror_saveWiFiCredentials
  mirror_clearBLECredentials : mirror.

Lemma mirror_initWiFiProvisioning s :
  Mirror s -> Mirror (snd (initWiFiProvisioning s)).
Proof.
  unfold initWiFiProvisioning; intros H.
  destruct (loadWiFiCredentials s) as [[ssid password]|]; cbn; auto with mirror.
  pose proof (mirror_connectWiFi ssid password WIFI_RETRY_ATTEMPTS s H) as H1.
  remember (connectWiFi ssid password WIFI_RETRY_ATTEMPTS s) as r eqn:Er.
  destruct r as [[] s1]; cbn in *; auto with mirror.
Qed.

Lemma mirror_loop_ble s : Mirror s -> Mirror (loop_ble s).
Proof.
  unfold loop_ble; intros H. cbv zeta.
  destruct (_ >? BLE_CHECK_INTERVAL); auto with mirror.
  destruct (hasNewWiFiCredentials _); auto with mirror.
  destruct (getBLEWiFiSSID _) as [ssid|]; auto with mirror.
  destruct (getBLEWiFiPassword _) as [password|]; auto with mirror.
  match goal with
  | |- Mirror (let (_, _) := connectWiFi ?a ?b ?c ?d in _) =>
      assert (H1 : Mirror (snd (connectWiFi a b c d))) by auto 10 with mirror;
      remember (connectWiFi a b c d) as r eqn:Er;
      destruct r as [[] s1]; cbn in H1
  end.
  - apply mirror_emit; [reflexivity | auto with mirror].
  - auto with mirror.
Qed.

Lemma mirror_exec o s : Mirror s -> Mirror (exec o s).
Proof.
  destruct o; cbn; intros H; auto with mirror.
  - destruct (isBLEProvisioningActive s); auto using mirror_loop_ble.
  - now apply mirror_initWiFiProvisioning.
Qed.

(** X24: in every state the firmware can reach - after any messages, loop
    passes, provisioning passes and direct calls of its control functions
    - the level last written to the pump relay is the pump state, the
    level last written to the valve relay is that of the valve mode (high
    for mode 2), and the retained pump report, once one has been published,
    is the text of the current pump state; before the first report the pump
    is off. *)
Theorem relays_mirror_state (s : Device) :
  Reachable s ->
  last_write PUMP_RELAY_PIN (trace s) = Some (pumpState s)
  /\ last_write VALVE_RELAY_PIN (trace s) = Some (valveMode s =? 2)
  /\ match last_publish TOPIC_PUMP_STATE (trace s) with
     | None => pumpState s = false
     | Some p => p = if pumpState s then "ON" else "OFF"
     end.
Proof.
  intros H. cut (Mirror s); [intros [P V R]; auto |].
  induction H as [t0 nvs0 answers | o s _ IH]; [| now apply mirror_exec].
  split; reflexivity.
Qed.

Lemma relays_mirror_state_witness :
  Reachable (exec (OpMessage TOPIC_PUMP_SET "toggle")
               (exec (OpStartTimer 2 30) (power_on 0 ∅ [])))
  /\ last_write PUMP_RELAY_PIN
       (trace (exec (OpMessage TOPIC_PUMP_SET "toggle")
                 (exec (OpStartTimer 2 30) (power_on 0 ∅ []))))
     = Some (pumpState (exec (OpMessage TOPIC_PUMP_SET "toggle")
                          (exec (OpStartTimer 2 30) (power_on 0 ∅ [])))).
Proof.
  assert (H : Reachable (exec (OpMessage TOPIC_PUMP_SET "toggle")
                           (exec (OpStartTimer 2 30) (power_on 0 ∅ []))))
    by (repeat apply Reachable_step; apply Reachable_boot).
  split; [exact H | exact (proj1 (relays_mirror_state _ H))].
Defined.

(** ** Commands ignore case and surrounding white space *)

Lemma isspace_toupper (c : ascii) :
  WString.isspace (WString.toupper c) = WString.isspace c.
Proof. destruct c as [[] [] [] [] [] [] [] []]; reflexivity. Qed.

Lemma toupper_toupper (c : ascii) :
  WString.toupper (WString.toupper c) = WString.toupper c.
Proof. destruct c as [[] [] [] [] [] [] [] []]; reflexivity. Qed.

Lemma toUpperCase_idem (x : string) :
  WString.toUpperCase (WString.toUpperCase x) = WString.toUpperCase x.
Proof.
  induction x as [|c x IH]; [reflexivity |].
  cbn [WString.toUpperCase]. destruct (WString.code c =? 0) eqn:E.
  - cbn [WString.toUpperCase]. now rewrite E.
  - cbn [WString.toUpperCase]. now rewrite toupper_not_nul, E, toupper_toupper, IH.
Qed.

Lemma isspace_not_nul (c : ascii) :
  (WString.code c =? 0) = true -> WString.isspace c = false.
Proof. destruct c as [[] [] [] [] [] [] [] []]; cbn; discriminate || reflexivity. Qed.

Lemma ltrim_toUpperCase (x : string) :
  WString.ltrim (WString.toUpperCase x) = WString.toUpperCase (WString.ltrim x).
Proof.
  induction x as [|c x IH]; [reflexivity |].
  cbn [WString.toUpperCase WString.ltrim].
  destruct (WString.code c =? 0) eqn:E.
  - cbn [WString.ltrim]. rewrite (isspace_not_nul c E).
    cbn [WString.toUpperCase]. now rewrite E.
  - cbn [WString.ltrim]. rewrite isspace_toupper.
    destruct (WString.isspace c); [exact IH |].
    cbn [WString.toUpperCase]. now rewrite E.
Qed.

Lemma toUpperCase_nil (x : string) :
  WString.toUpperCase x = EmptyString -> x = EmptyString.
Proof.
  destruct x as [|c x]; [reflexivity |]. cbn [WString.toUpperCase].
  destruct (WString.code c =? 0); discriminate.
Qed.

Lemma rtrim_toUpperCase (x : string) :
  WString.rtrim (WString.toUpperCase x) = WString.toUpperCase (WString.rtrim x).
Proof.
  induction x as [|c x IH]; [reflexivity |].
  cbn [WString.toUpperCase]. destruct (WString.code c =? 0) eqn:E.
  - cbn [WString.rtrim]. rewrite (isspace_not_nul c E).
    destruct (WString.rtrim x); cbn [WString.toUpperCase]; now rewrite E.
  - cbn [WString.rtrim]. rewrite IH, isspace_toupper.
    destruct (WString.rtrim x) as [|a b] eqn:R.
    + cbn [WString.toUpperCase]. destruct (WString.isspace c); [reflexivity |].
      cbn [WString.toUpperCase]. now rewrite E.
    + destruct (WString.toUpperCase (String a b)) as [|a' b'] eqn:U;
        [apply toUpperCase_nil in U; discriminate |].
      rewrite <- U. cbn [WString.toUpperCase]. rewrite E. reflexivity.
Qed.

Lemma ltrim_upper_bytes (x : string) :
  WString.ltrim (upper_bytes x) = upper_bytes (WString.ltrim x).
Proof.
  induction x as [|c x IH]; [reflexivity |].
  cbn [upper_bytes WString.ltrim]. rewrite isspace_toupper.
  destruct (WString.isspace c); [exact IH | reflexivity].
Qed.

Lemma rtrim_upper_bytes (x : string) :
  WString.rtrim (upper_bytes x) = upper_bytes (WString.rtrim x).
Proof.
  induction x as [|c x IH]; [reflexivity |].
  cbn [upper_bytes WString.rtrim]. rewrite IH, isspace_toupper.
  destruct (WString.rtrim x); cbn [upper_bytes];
    [destruct (WString.isspace c) |]; reflexivity.
Qed.

(** What the comparisons read of an upper-cased [String]: the bytes before
    the first NUL, upper-cased. *)
Lemma c_str_toUpperCase (x : string) :
  WString.c_str (WString.toUpperCase x) = upper_bytes (WString.c_str x).
Proof.
  induction x as [|c x IH]; [reflexivity |].
  cbn [WString.toUpperCase WString.c_str].
  destruct (WString.code c =? 0) eqn:E; cbn [WString.c_str].
  - now rewrite E.
  - rewrite toupper_not_nul, E. cbn [upper_bytes]. now rewrite IH.
Qed.

Lemma c_str_upper_bytes (x : string) :
  WString.c_str (upper_bytes x) = upper_bytes (WString.c_str x).
Proof.
  induction x as [|c x IH]; [reflexivity |].
  cbn [upper_bytes WString.c_str]. rewrite toupper_not_nul.
  destruct (WString.code c =? 0); cbn [upper_bytes]; [reflexivity | now rewrite IH].
Qed.

Lemma upper_bytes_idem (x : string) : upper_bytes (upper_bytes x) = upper_bytes x.
Proof.
  induction x as [|c x IH]; [reflexivity |].
  cbn [upper_bytes]. now rewrite toupper_toupper, IH.
Qed.

Lemma all_space_ltrim (x : string) :
  all_space x = true -> WString.ltrim x = EmptyString.
Proof.
  induction x as [|c x IH]; [reflexivity |]. cbn [all_space WString.ltrim].
  intros H. apply andb_prop in H as [-> Hx]. auto.
Qed.

Lemma all_space_rtrim (x : string) :
  all_space x = true -> WString.rtrim x = EmptyString.
Proof.
  induction x as [|c x IH]; [reflexivity |]. cbn [all_space WString.rtrim].
  intros H. apply andb_prop in H as [-> Hx]. now rewrite IH.
Qed.

Lemma ltrim_lead (pre x : string) :
  all_space pre = true -> WString.ltrim (pre +:+ x) = WString.ltrim x.
Proof.
  induction pre as [|c pre IH]; [now rewrite append_nil_l |].
  cbn [all_space]. intros H. apply andb_prop in H as [Hc Hp].
  rewrite append_cons. cbn [WString.ltrim]. rewrite Hc. auto.
Qed.

Lemma rtrim_trail (x post : string) :
  all_space post = true -> WString.rtrim (x +:+ post) = WString.rtrim x.
Proof.
  intros Hp. induction x as [|c x IH].
  - rewrite append_nil_l. now apply all_space_rtrim.
  - rewrite append_cons. cbn [WString.rtrim]. now rewrite IH.
Qed.

Lemma trim_trail (x post : string) :
  all_space post = true -> WString.trim (x +:+ post) = WString.trim x.
Proof.
  intros Hp. unfold WString.trim. induction x as [|c x IH].
  - rewrite append_nil_l. now rewrite (all_space_ltrim _ Hp).
  - rewrite append_cons. cbn [WString.ltrim].
    destruct (WString.isspace c); [exact IH |].
    rewrite <- append_cons. now apply rtrim_trail.
Qed.

(** The handler reads of the payload only the command text: the bytes of
    the trimmed payload before its first NUL, upper-cased. *)
Lemma onMqttMessage_text (topic p q : string) (s : Device) :
  WString.c_str (WString.toUpperCase (payloadToString p))
  = WString.c_str (WString.toUpperCase (payloadToString q)) ->
  onMqttMessage topic p s = onMqttMessage topic q s.
Proof.
  intros H. unfold onMqttMessage. cbv zeta. unfold WString.equals. rewrite H.
  destruct (String.eqb topic TOPIC_PUMP_SET); [reflexivity |].
  destruct (String.eqb topic TOPIC_VALVE_SET); [reflexivity |].
  destruct (String.eqb topic TOPIC_TIMER_SET); [| reflexivity].
  now rewrite !indexOf_mode_upper.
Qed.

(** X25: commands ignore case and surrounding white space.  On every
    topic, a payload and its upper-case form have the same effect, and so
    have a payload and the same payload between runs of white space. *)
Theorem commands_ignore_case_and_space (topic payload pre post : string) (s : Device) :
  onMqttMessage topic (WString.toUpperCase payload) s = onMqttMessage topic payload s
  /\ onMqttMessage topic (upper_bytes payload) s = onMqttMessage topic payload s
  /\ (all_space pre = true -> all_space post = true ->
      onMqttMessage topic (pre +:+ payload +:+ post) s = onMqttMessage topic payload s).
Proof.
  split; [| split].
  - apply onMqttMessage_text. f_equal. unfold payloadToString, WString.trim.
    now rewrite ltrim_toUpperCase, rtrim_toUpperCase, toUpperCase_idem.
  - apply onMqttMessage_text. unfold payloadToString, WString.trim.
    rewrite ltrim_upper_bytes, rtrim_upper_bytes, !c_str_toUpperCase,
      c_str_upper_bytes.
    apply upper_bytes_idem.
  - intros H1 H2. apply onMqttMessage_text. do 2 f_equal. unfold payloadToString.
    rewrite <- (trim_trail payload post H2). unfold WString.trim.
    now rewrite (ltrim_lead pre _ H1).
Qed.

Lemma commands_ignore_case_and_space_witness :
  (all_space " " = true /\ all_space " " = true)
  /\ onMqttMessage TOPIC_PUMP_SET (" " +:+ "on" +:+ " ") (power_on 0 ∅ [])
     = onMqttMessage TOPIC_PUMP_SET "on" (power_on 0 ∅ []).
Proof.
  assert (H : all_space " " = true) by reflexivity.
  split; [split; exact H |].
  exact (proj2 (proj2 (commands_ignore_case_and_space TOPIC_PUMP_SET "on" " " " "
                         (power_on 0 ∅ []))) H H).
Defined.

(** ** A WiFi clear and the restart that follows *)

(** X26: the [wifi/clear] command ends with the restart call, and the boot
    that follows finds no credentials: whatever the state before the
    command and whatever the driver answers afterwards, the device comes
    up in BLE provisioning without a connection attempt, with the pump
    off, the valve in mode 1 and the timer idle, so a timer that was
    running when the command arrived is gone. *)
Theorem wifi_clear_then_boot (payload : string) (s : Device) (t0 : Z)
    (answers : list bool) :
  let s1 := onMqttMessage TOPIC_WIFI_CLEAR payload s in
  let s2 := setup t0 (nvs s1) answers in
  last (trace s1) = Some EvRestart
  /\ isBLEProvisioningActive s2 = true
  /\ wifiProvisioned s2 = false
  /\ count is_wifi_begin (trace s2) = 0%nat
  /\ pumpState s2 = false
  /\ valveMode s2 = 1
  /\ timerActive (timer s2) = false
  /\ last_write PUMP_RELAY_PIN (trace s2) = Some false.
Proof.
  cbv zeta.
  assert (N : nvs (onMqttMessage TOPIC_WIFI_CLEAR payload s) = ∅) by reflexivity.
  rewrite N. split; [| repeat split].
  unfold onMqttMessage. cbv zeta.
  change (String.eqb TOPIC_WIFI_CLEAR TOPIC_PUMP_SET) with false.
  change (String.eqb TOPIC_WIFI_CLEAR TOPIC_VALVE_SET) with false.
  change (String.eqb TOPIC_WIFI_CLEAR TOPIC_TIMER_SET) with false.
  change (String.eqb TOPIC_WIFI_CLEAR TOPIC_WIFI_CLEAR) with true.
  cbv iota. cbn [emit set_trace trace]. apply last_snoc.
Qed.

(** ** The reconnect pass of the loop *)

Lemma WiFi_status_same (s : Device) :
  pumpState (snd (WiFi_status s)) = pumpState s
  /\ nvs (snd (WiFi_status s)) = nvs s
  /\ ble (snd (WiFi_status s)) = ble s
  /\ clock (snd (WiFi_status s)) = clock s
  /\ trace (snd (WiFi_status s)) = trace s.
Proof. unfold WiFi_status. destruct (wifi_status s); repeat split. Qed.

(** X27: the loop tries to reconnect at most once per check interval, and
    with a single try.  In a pass with BLE provisioning off whose first
    status poll reports no connection: when more than 10 s have passed
    since the last check and credentials are stored, the pass records the
    time of the check, calls [WiFi.begin] exactly once, with the stored
    identifier and secret, waits at most the 15 s of one try, leaves the
    store as it was and returns without reaching the timer, going on to
    [connectMqtt()] only when the link came up and MQTT is not connected;
    when no more than 10 s have passed, the pass makes no connection
    attempt at all. *)
Theorem reconnect_pass_single_try (mqtt_connected : bool) (st : LoopStatics)
    (s : Device) (ssid password : string) :
  isBLEProvisioningActive s = false ->
  fst (WiFi_status s) = false ->
  loadWiFiCredentials s = Some (ssid, password) ->
  let r := loop_head mqtt_connected st s in
  (u32_sub (millis s) (lastWiFiCheck st) > WIFI_RECONNECT_INTERVAL ->
   fst (fst r) <> AtUpdateTimer
   /\ (fst (fst r) = AtConnectMqtt ->
       mqtt_connected = false /\ wifiProvisioned (snd r) = true)
   /\ lastWiFiCheck (snd (fst r)) = millis s
   /\ nvs (snd r) = nvs s
   /\ count is_wifi_begin (new_events s (snd r)) = 1%nat
   /\ forallb (is_connect_call ssid password) (new_events s (snd r)) = true
   /\ delay_total (new_events s (snd r)) <= WIFI_CONNECT_TIMEOUT)
  /\ (u32_sub (millis s) (lastWiFiCheck st) <= WIFI_RECONNECT_INTERVAL ->
      lastWiFiCheck (snd (fst r)) = lastWiFiCheck st
      /\ count is_wifi_begin (new_events s (snd r)) = 0%nat).
Proof.
  intros Hb Hup Hl r. unfold r, loop_head. rewrite Hb.
  destruct (WiFi_status_same s) as (_ & N1 & _ & C1 & T1).
  destruct (WiFi_status s) as [up s1]. cbn [fst snd] in *. subst up.
  cbn [negb andb]. unfold millis. rewrite C1.
  split; intros Hi.
  - replace (_ >? _) with true by (symmetry; rewrite Z.gtb_ltb; apply Z.ltb_lt; lia).
    rewrite (load_same_nvs s s1 N1), Hl.
    destruct (connect_attempts_frame (Z.to_nat 1) 1 ssid password s1)
      as [[_ _ _ N2 _ _ (l & E & L)] W].
    destruct (connect_attempts_delay (Z.to_nat 1) 1 ssid password s1)
      as (l' & E' & D & Cmax & Cmin).
    change (connect_attempts (Z.to_nat 1) 1 ssid password s1)
      with (connectWiFi ssid password 1 s1) in *.
    remember (connectWiFi ssid password 1 s1) as c eqn:Ec.
    destruct c as [ok s2]. clear Ec. cbn [fst snd] in *.
    assert (El : l' = l) by (rewrite E in E'; now apply app_inv_head in E').
    subst l'. rewrite T1 in E.
    change (1 >? 1) with false in D. change (Z.to_nat 1 =? 0)%nat with false in D.
    change (Z.to_nat 1) with 1%nat in *. specialize (Cmin ltac:(lia)).
    assert (Common : nvs s2 = nvs s
                     /\ count is_wifi_begin (new_events s s2) = 1%nat
                     /\ forallb (is_connect_call ssid password) (new_events s s2) = true
                     /\ delay_total (new_events s s2) <= WIFI_CONNECT_TIMEOUT).
    { rewrite (new_events_app _ _ _ E). unfold WIFI_CONNECT_TIMEOUT.
      repeat split; [congruence | lia | exact L | lia]. }
    destruct ok; [destruct mqtt_connected |]; cbn [negb fst snd lastWiFiCheck].
    + split; [discriminate |]. split; [intros H; discriminate H |].
      split; [reflexivity | exact Common].
    + split; [discriminate |]. split; [intros _; split; [reflexivity | exact W] |].
      split; [reflexivity | exact Common].
    + split; [discriminate |]. split; [intros H; discriminate H |].
      split; [reflexivity | exact Common].
  - replace (_ >? _) with false by (symmetry; rewrite Z.gtb_ltb; apply Z.ltb_ge; lia).
    destruct (WiFi_status_same s1) as (_ & _ & _ & _ & T2).
    destruct (WiFi_status s1) as [up2 s2]. cbn [fst snd] in *.
    destruct (WiFi_status_same s2) as (_ & _ & _ & _ & T3).
    destruct (WiFi_status s2) as [up3 s3]. cbn [fst snd] in *.
    assert (Hst : lastWiFiCheck
                    (if up2 && (reconnectAttempts st >? 0)
                     then mkLoopStatics (lastWiFiCheck st) 0 else st)
                  = lastWiFiCheck st) by (destruct (up2 && _); reflexivity).
    destruct up3; cbn [negb fst snd]; (split; [exact Hst |]).
    + unfold new_events. rewrite T3, T2, T1, drop_all. reflexivity.
    + unfold new_events. cbn. rewrite T3, T2, T1, drop_app_length. reflexivity.
Qed.

Lemma reconnect_pass_single_try_witness :
  (isBLEProvisioningActive
     (saveWiFiCredentials "PoolHouse" "hunter22" (power_on 20000 ∅ [])) = false
   /\ fst (WiFi_status
             (saveWiFiCredentials "PoolHouse" "hunter22" (power_on 20000 ∅ [])))
      = false
   /\ loadWiFiCredentials
        (saveWiFiCredentials "PoolHouse" "hunter22" (power_on 20000 ∅ []))
      = Some ("PoolHouse", "hunter22")
   /\ u32_sub (millis (saveWiFiCredentials "PoolHouse" "hunter22"
                         (power_on 20000 ∅ [])))
              (lastWiFiCheck (mkLoopStatics 0 0)) > WIFI_RECONNECT_INTERVAL)
  /\ count is_wifi_begin
       (new_events (saveWiFiCredentials "PoolHouse" "hunter22" (power_on 20000 ∅ []))
          (snd (loop_head true (mkLoopStatics 0 0)
                  (saveWiFiCredentials "PoolHouse" "hunter22"
                     (power_on 20000 ∅ []))))) = 1%nat.
Proof.
  assert (H1 : isBLEProvisioningActive
                 (saveWiFiCredentials "PoolHouse" "hunter22" (power_on 20000 ∅ []))
               = false) by reflexivity.
  assert (H2 : fst (WiFi_status
                      (saveWiFiCredentials "PoolHouse" "hunter22"
                         (power_on 20000 ∅ []))) = false) by reflexivity.
  assert (H3 : loadWiFiCredentials
                 (saveWiFiCredentials "PoolHouse" "hunter22" (power_on 20000 ∅ []))
               = Some ("PoolHouse", "hunter22")) by reflexivity.
  assert (H4 : u32_sub (millis (saveWiFiCredentials "PoolHouse" "hunter22"
                                  (power_on 20000 ∅ [])))
                 (lastWiFiCheck (mkLoopStatics 0 0)) > WIFI_RECONNECT_INTERVAL)
    by (vm_compute; reflexivity).
  destruct (reconnect_pass_single_try true (mkLoopStatics 0 0)
              (saveWiFiCredentials "PoolHouse" "hunter22" (power_on 20000 ∅ []))
              "PoolHouse" "hunter22" H1 H2 H3) as [P _].
  destruct (P H4) as (_ & _ & _ & _ & C & _).
  split; [repeat split; assumption | exact C].
Defined.

(** ** The retained timer snapshot mirrors the timer *)

Lemma tm_emit (e : Event) (s : Device) :
  timer_neutral e = true -> TimerMirror s -> TimerMirror (emit e s).
Proof.
  intros He H. unfold TimerMirror in *. cbn [emit set_trace trace timer].
  rewrite last_publish_snoc. destruct e; auto.
  cbn in He. apply negb_true_iff in He. now rewrite He.
Qed.

Lemma tm_set_pumpState v s : TimerMirror s -> TimerMirror (set_pumpState v s).
Proof. exact (fun H => H). Qed.

Lemma tm_set_valveMode v s : TimerMirror s -> TimerMirror (set_valveMode v s).
Proof. exact (fun H => H). Qed.

Lemma tm_set_wifiProvisioned v s : TimerMirror s -> TimerMirror (set_wifiProvisioned v s).
Proof. exact (fun H => H). Qed.

Lemma tm_set_ble v s : TimerMirror s -> TimerMirror (set_ble v s).
Proof. exact (fun H => H). Qed.

Lemma tm_set_lastBLECheck v s : TimerMirror s -> TimerMirror (set_lastBLECheck v s).
Proof. exact (fun H => H). Qed.

Lemma tm_set_clock v s : TimerMirror s -> TimerMirror (set_clock v s).
Proof. exact (fun H => H). Qed.

Lemma tm_set_nvs v s : TimerMirror s -> TimerMirror (set_nvs v s).
Proof. exact (fun H => H). Qed.

Lemma tm_set_wifi_status v s : TimerMirror s -> TimerMirror (set_wifi_status v s).
Proof. exact (fun H => H). Qed.

(** The timer may go on counting down under the same snapshot. *)
Lemma tm_set_timer (t : TimerState) (s : Device) :
  timerActive t = timerActive (timer s) ->
  timerMode t = timerMode (timer s) ->
  timerDuration t = timerDuration (timer s) ->
  timerRemaining t <= timerRemaining (timer s) ->
  TimerMirror s -> TimerMirror (set_timer t s).
Proof.
  intros Ha Hm Hd Hr H. unfold TimerMirror in *. cbn [set_timer trace timer].
  destruct (last_publish _ _) as [p|]; [| congruence].
  destruct H as (r & E & Hle). exists r. rewrite Ha, Hm, Hd. split; [exact E | lia].
Qed.

(** Right after a snapshot the mirror holds, whatever came before. *)
Lemma tm_publishTimerState (s : Device) : TimerMirror (publishTimerState s).
Proof.
  unfold TimerMirror, publishTimerState, mqtt_publish.
  cbn [emit set_trace trace timer].
  rewrite last_publish_snoc, String.eqb_refl.
  eexists. split; [reflexivity | lia].
Qed.

#[export] Hint Resolve tm_set_pumpState tm_set_valveMode tm_set_wifiProvisioned
  tm_set_ble tm_set_lastBLECheck tm_set_clock tm_set_nvs tm_set_wifi_status
  tm_publishTimerState : tmirror.

Lemma tm_delay ms s : TimerMirror s -> TimerMirror (delay ms s).
Proof. intros; apply tm_emit; cbn; auto with tmirror. Qed.

Lemma tm_advance ms s : TimerMirror s -> TimerMirror (advance ms s).
Proof. unfold advance; auto with tmirror. Qed.

Lemma tm_digitalWrite pin v s : TimerMirror s -> TimerMirror (digitalWrite pin v s).
Proof. intros; apply tm_emit; auto. Qed.

Lemma tm_publishValveState s : TimerMirror s -> TimerMirror (publishValveState s).
Proof. intros; apply tm_emit; auto. Qed.

Lemma tm_publishPumpState s : TimerMirror s -> TimerMirror (publishPumpState s).
Proof. intros; apply tm_emit; auto. Qed.

#[export] Hint Resolve tm_delay tm_advance tm_digitalWrite tm_publishValveState
  tm_publishPumpState : tmirror.

Lemma tm_setPumpState b s : TimerMirror s -> TimerMirror (setPumpState b s).
Proof. unfold setPumpState, setPumpRelay; auto with tmirror. Qed.

Lemma tm_setValveRelay m s : TimerMirror s -> TimerMirror (setValveRelay m s).
Proof.
  unfold setValveRelay; intros H.
  destruct (negb (m =? 1) && negb (m =? 2)); auto with tmirror.
Qed.

#[export] Hint Resolve tm_setPumpState tm_setValveRelay : tmirror.

Lemma tm_setValveMode m s : TimerMirror s -> TimerMirror (setValveMode m s).
Proof.
  unfold setValveMode; intros H.
  destruct (negb (m =? 1) && negb (m =? 2)); auto.
  destruct (valveMode s =? m); auto with tmirror.
Qed.

Lemma tm_startTimer m d s : TimerMirror s -> TimerMirror (startTimer m d s).
Proof.
  unfold startTimer; intros H.
  destruct (negb (m =? 1) && negb (m =? 2)); auto.
  destruct (d =? 0); auto. apply tm_publishTimerState.
Qed.

Lemma tm_stopTimer s : TimerMirror s -> TimerMirror (stopTimer s).
Proof.
  unfold stopTimer; intros H.
  destruct (negb (timerActive (timer s))); auto. apply tm_publishTimerState.
Qed.

#[export] Hint Resolve tm_setValveMode tm_startTimer tm_stopTimer : tmirror.

Lemma tm_updateTimer s : TimerMirror s -> TimerMirror (updateTimer s).
Proof.
  unfold updateTimer; intros H.
  destruct (negb (timerActive (timer s))); auto.
  cbv zeta. destruct (_ >=? 1); auto.
  cbn [timer set_timer timerMode timerActive timerDuration timerRemaining
       timerLastUpdate lastPublish].
  destruct (Z.gtb_spec (timerRemaining (timer s)) 0) as [Hr | Hr].
  - destruct (_ || _); [apply tm_publishTimerState |].
    apply tm_set_timer; cbn; try reflexivity; try lia.
    apply tm_set_timer; cbn; try reflexivity; try lia. exact H.
  - apply tm_stopTimer. apply tm_set_timer; cbn; try reflexivity; try lia. exact H.
Qed.

#[export] Hint Resolve tm_updateTimer : tmirror.

Lemma tm_onMqttMessage topic payload s :
  TimerMirror s -> TimerMirror (onMqttMessage topic payload s).
Proof.
  unfold onMqttMessage; intros H.
  repeat (match goal with
          | |- TimerMirror (if ?c then _ else _) => destruct c
          | |- TimerMirror (let _ := _ in _) => cbv zeta
          end); auto with tmirror.
  unfold clearWiFiCredentials, preferences_clear, mqtt_publish.
  repeat match goal with
         | |- TimerMirror (emit _ _) => apply tm_emit; [reflexivity |]
         | |- TimerMirror (delay _ _) => apply tm_delay
         | |- TimerMirror (set_nvs _ _) => apply tm_set_nvs
         end.
  exact H.
Qed.

Lemma tm_WiFi_status s : TimerMirror s -> TimerMirror (snd (WiFi_status s)).
Proof. unfold WiFi_status; destruct (wifi_status s); cbn; auto with tmirror. Qed.

Lemma tm_wait_connected fuel start s :
  TimerMirror s -> TimerMirror (wait_connected fuel start s).
Proof.
  revert s; induction fuel as [|f IH]; intros s H; cbn; auto.
  pose proof (tm_WiFi_status s H) as H1.
  destruct (WiFi_status s) as [up s1]; cbn in H1.
  destruct (negb up && _); auto with tmirror.
Qed.

Lemma tm_connect_attempts n attempt ssid password s :
  TimerMirror s -> TimerMirror (snd (connect_attempts n attempt ssid password s)).
Proof.
  revert attempt s; induction n as [|n IH]; intros attempt s H; cbn; auto.
  set (s1 := if attempt >? 1 then delay WIFI_RETRY_DELAY s else s).
  assert (H1 : TimerMirror s1) by (unfold s1; destruct (attempt >? 1); auto with tmirror).
  set (s2 := emit (EvWiFiBegin ssid password) (emit EvWiFiModeSta s1)).
  assert (H2 : TimerMirror s2) by (unfold s2; repeat apply tm_emit; cbn; auto).
  pose proof (tm_WiFi_status _ (tm_wait_connected WAIT_FUEL (millis s2) s2 H2)) as H3.
  destruct (WiFi_status _) as [up s3]; cbn in H3.
  destruct up; cbn; auto with tmirror.
Qed.

Lemma tm_connectWiFi ssid password r s :
  TimerMirror s -> TimerMirror (snd (connectWiFi ssid password r s)).
Proof. apply tm_connect_attempts. Qed.

Lemma tm_initBLEProvisioning s : TimerMirror s -> TimerMirror (initBLEProvisioning s).
Proof. unfold initBLEProvisioning; intros; apply tm_set_ble, tm_emit; cbn; auto. Qed.

Lemma tm_stopBLEProvisioning s : TimerMirror s -> TimerMirror (stopBLEProvisioning s).
Proof.
  unfold stopBLEProvisioning; intros.
  destruct (negb _); auto. apply tm_set_ble, tm_emit; cbn; auto.
Qed.

Lemma tm_saveWiFiCredentials a b s :
  TimerMirror s -> TimerMirror (saveWiFiCredentials a b s).
Proof.
  unfold saveWiFiCredentials, putString; intros.
  repeat (apply tm_emit; [reflexivity |]; apply tm_set_nvs). auto.
Qed.

Lemma tm_clearBLECredentials s : TimerMirror s -> TimerMirror (clearBLECredentials s).
Proof. unfold clearBLECredentials; auto with tmirror. Qed.

#[export] Hint Resolve tm_onMqttMessage tm_connectWiFi tm_initBLEProvisioning
  tm_stopBLEProvisioning tm_saveWiFiCredentials tm_clearBLECredentials : tmirror.

Lemma tm_initWiFiProvisioning s :
  TimerMirror s -> TimerMirror (snd (initWiFiProvisioning s)).
Proof.
  unfold initWiFiProvisioning; intros H.
  destruct (loadWiFiCredentials s) as [[ssid password]|]; cbn; auto with tmirror.
  pose proof (tm_connectWiFi ssid password WIFI_RETRY_ATTEMPTS s H) as H1.
  remember (connectWiFi ssid password WIFI_RETRY_ATTEMPTS s) as r eqn:Er.
  destruct r as [[] s1]; cbn in *; auto with tmirror.
Qed.

Lemma tm_loop_ble s : TimerMirror s -> TimerMirror (loop_ble s).
Proof.
  unfold loop_ble; intros H. cbv zeta.
  destruct (_ >? BLE_CHECK_INTERVAL); auto with tmirror.
  destruct (hasNewWiFiCredentials _); auto with tmirror.
  destruct (getBLEWiFiSSID _) as [ssid|]; auto with tmirror.
  destruct (getBLEWiFiPassword _) as [password|]; auto with tmirror.
  match goal with
  | |- TimerMirror (let (_, _) := connectWiFi ?a ?b ?c ?d in _) =>
      assert (H1 : TimerMirror (snd (connectWiFi a b c d))) by auto 10 with tmirror;
      remember (connectWiFi a b c d) as r eqn:Er;
      destruct r as [[] s1]; cbn in H1
  end.
  - apply tm_emit; [reflexivity | auto with tmirror].
  - auto with tmirror.
Qed.

Lemma tm_exec o s : TimerMirror s -> TimerMirror (exec o s).
Proof.
  destruct o; cbn; intros H; auto with tmirror.
  - destruct (isBLEProvisioningActive s); auto using tm_loop_ble.
  - now apply tm_initWiFiProvisioning.
Qed.


